(** * SlivOSH storefront bot: a shallow embedding of [main.py]

    The bot is a set of aiogram 2.x handlers over two SQLite tables and an
    in-memory conversation store.  Handlers are coroutines: the code between
    two [await]s runs without interruption, and at every [await] other
    handlers may run.  The embedding keeps that structure: a handler is a
    function from the shared state to a tree of suspension points. *)

From Stdlib Require Import String Ascii.
From stdpp Require Import gmap list fin_maps.

Local Open Scope Z_scope.

(** ** Python strings

    A Python [str] is a sequence of Unicode code points; slicing, [len] and
    [strip] all count code points.  Literals of the source are written as they
    stand in the (UTF-8) source file and decoded. *)

Abbreviation pystr := (list N).

Definition cont_bits (b : N) : N := N.land b 63.

Fixpoint utf8_decode (bs : list N) : pystr :=
  match bs with
  | [] => []
  | b1 :: r1 =>
    if (b1 <? 128)%N then b1 :: utf8_decode r1
    else match r1 with
    | [] => []
    | b2 :: r2 =>
      if (b1 <? 224)%N then
        (N.shiftl (N.land b1 31) 6 + cont_bits b2)%N :: utf8_decode r2
      else match r2 with
      | [] => []
      | b3 :: r3 =>
        if (b1 <? 240)%N then
          (N.shiftl (N.land b1 15) 12 + N.shiftl (cont_bits b2) 6
           + cont_bits b3)%N :: utf8_decode r3
        else match r3 with
        | [] => []
        | b4 :: r4 =>
          (N.shiftl (N.land b1 7) 18 + N.shiftl (cont_bits b2) 12
           + N.shiftl (cont_bits b3) 6 + cont_bits b4)%N :: utf8_decode r4
        end
      end
    end
  end.

Definition lit (s : string) : pystr :=
  utf8_decode (map N_of_ascii (list_ascii_of_string s)).

(** The newline character, written [\n] in the source. *)
Definition nl : pystr := [10%N].

(** [str(n)] for a non-negative integer: its decimal digits. *)
Definition digit_cp (d : N) : N := (48 + d)%N.

Fixpoint digits_fuel (fuel : nat) (n : N) (acc : pystr) : pystr :=
  match fuel with
  | O => acc
  | S f =>
    let acc' := digit_cp (n mod 10) :: acc in
    if (n <? 10)%N then acc' else digits_fuel f (n / 10)%N acc'
  end.

Definition str_of_N (n : N) : pystr := digits_fuel (S (N.to_nat (N.log2 n))) n [].

(** [str.isspace] on one code point: the characters Python's [strip()] and
    [split()] remove (bidirectional classes WS, B, S and category Zs). *)
Definition is_space (c : N) : bool :=
  ((9 <=? c) && (c <=? 13) || (28 <=? c) && (c <=? 32)
   || (c =? 133) || (c =? 160) || (c =? 5760)
   || (8192 <=? c) && (c <=? 8202)
   || (c =? 8232) || (c =? 8233) || (c =? 8239) || (c =? 8287)
   || (c =? 12288))%N.

Fixpoint lstrip (s : pystr) : pystr :=
  match s with
  | [] => []
  | c :: r => if is_space c then lstrip r else s
  end.

Definition rstrip (s : pystr) : pystr := rev (lstrip (rev s)).

(** [s.strip()] *)
Definition strip (s : pystr) : pystr := rstrip (lstrip s).

(** [s[:n]] *)
Definition slice_to (n : nat) (s : pystr) : pystr := firstn n s.

(** [s.startswith(p)] *)
Fixpoint startswith (p s : pystr) : bool :=
  match p, s with
  | [], _ => true
  | _ :: _, [] => false
  | a :: p', b :: s' => (a =? b)%N && startswith p' s'
  end.

Definition pystr_eqb (a b : pystr) : bool := bool_decide (a = b).

(** [p in s] for strings: [p] occurs in [s] as a contiguous run. *)
Fixpoint contains (p s : pystr) : bool :=
  startswith p s || match s with [] => false | _ :: s' => contains p s' end.

(** [s.split(sep, maxsplit)] for a one-character separator. *)
Fixpoint split_at (sep : N) (s : pystr) : pystr * option pystr :=
  match s with
  | [] => ([], None)
  | c :: r =>
    if (c =? sep)%N then ([], Some r)
    else let '(h, t) := split_at sep r in (c :: h, t)
  end.

Fixpoint split_max (sep : N) (maxsplit : nat) (s : pystr) : list pystr :=
  match maxsplit with
  | O => [s]
  | S m =>
    match split_at sep s with
    | (h, None) => [h]
    | (h, Some t) => h :: split_max sep m t
    end
  end.

(** The first element of [s.split()] (split on runs of whitespace), when there
    is one. *)
Fixpoint take_word (s : pystr) : pystr :=
  match s with
  | [] => []
  | c :: r => if is_space c then [] else c :: take_word r
  end.

Definition first_word (s : pystr) : option pystr :=
  match lstrip s with
  | [] => None
  | w => Some (take_word w)
  end.

(** [str.lower] and [str.upper] on one code point, for Latin and Russian
    letters and the Kelvin sign (the only other character whose lower case is
    an ASCII letter); other characters are left as they are. *)
Definition lower_cp (c : N) : N :=
  (if (65 <=? c) && (c <=? 90) then c + 32
   else if (1040 <=? c) && (c <=? 1071) then c + 32
   else if (1024 <=? c) && (c <=? 1039) then c + 80
   else if c =? 8490 then 107
   else c)%N.

Definition upper_cp (c : N) : N :=
  (if (97 <=? c) && (c <=? 122) then c - 32
   else if (1072 <=? c) && (c <=? 1103) then c - 32
   else if (1104 <=? c) && (c <=? 1119) then c - 80
   else c)%N.

Definition lower (s : pystr) : pystr := map lower_cp s.

(** [s.capitalize()] *)
Definition capitalize (s : pystr) : pystr :=
  match s with
  | [] => []
  | c :: r => upper_cp c :: lower r
  end.

(** Python truthiness of an optional string: [None] and [''] are false. *)
Definition truthy (o : option pystr) : bool :=
  match o with
  | Some (_ :: _) => true
  | _ => false
  end.

(** [str(z)] for any integer. *)
Definition str_of_Z (z : Z) : pystr :=
  if z <? 0 then 45%N :: str_of_N (Z.to_N (- z)) else str_of_N (Z.to_N z).

(** ** Messaging platform objects *)

Record user := {
  user_id : Z;
  username : option pystr;
  first_name : pystr;
  last_name : option pystr
}.

(** An incoming message.  [msg_text] is [None] for content other than text
    (photo, sticker, ...). *)
Record message := {
  message_id : Z;
  msg_from : user;
  msg_chat : Z;
  msg_text : option pystr
}.

(** A button press: the message the button hangs under, and its payload. *)
Record callback_query := {
  cb_id : pystr;
  cb_from : user;
  cb_chat : Z;
  cb_message_id : Z;
  cb_data : option pystr
}.

Record button := {
  btn_text : pystr;
  btn_callback_data : option pystr;
  btn_url : option pystr
}.

(** [InlineKeyboardMarkup]: rows of buttons, at most [row_width] per row. *)
Record keyboard := {
  row_width : nat;
  inline_keyboard : list (list button)
}.

Definition InlineKeyboardMarkup (width : nat) : keyboard :=
  {| row_width := width; inline_keyboard := [] |}.

Definition InlineKeyboardButton (label : pystr) (callback_data : pystr) : button :=
  {| btn_text := label; btn_callback_data := Some callback_data; btn_url := None |}.

Definition InlineKeyboardButton_url (label : pystr) (url : pystr) : button :=
  {| btn_text := label; btn_callback_data := None; btn_url := Some url |}.

(** [kb.add(b)] with one button: a new row. *)
Definition kb_add (kb : keyboard) (b : button) : keyboard :=
  {| row_width := row_width kb; inline_keyboard := inline_keyboard kb ++ [[b]] |}.

(** [kb.insert(b)]: into the last row while it has room, else a new row. *)
Definition kb_insert (kb : keyboard) (b : button) : keyboard :=
  match rev (inline_keyboard kb) with
  | last_row :: before =>
    if (length last_row <? row_width kb)%nat
    then {| row_width := row_width kb;
            inline_keyboard := rev before ++ [last_row ++ [b]] |}
    else kb_add kb b
  | [] => kb_add kb b
  end.

(** Calls of the Bot API a handler awaits. *)
Inductive api_call :=
| SendMessage (chat_id : Z) (text : pystr) (parse_mode : option pystr)
    (reply_markup : option keyboard) (reply_to : option Z)
| EditMessageText (chat_id msg_id : Z) (text : pystr) (parse_mode : option pystr)
    (reply_markup : option keyboard)
| AnswerCallbackQuery (query_id : pystr) (text : option pystr) (show_alert : bool).

(** ** Persistent and conversation state *)

Record user_row := {
  row_username : pystr;
  row_first_name : pystr;
  row_last_name : pystr;
  row_registered_at : pystr
}.

Inductive fsm_state :=
| waiting_broadcast_text
| waiting_broadcast_confirm
| waiting_card_number
| waiting_recipient_fio
| waiting_subject
| waiting_school.

Definition fsm_state_eqb (a b : fsm_state) : bool :=
  match a, b with
  | waiting_broadcast_text, waiting_broadcast_text
  | waiting_broadcast_confirm, waiting_broadcast_confirm
  | waiting_card_number, waiting_card_number
  | waiting_recipient_fio, waiting_recipient_fio
  | waiting_subject, waiting_subject
  | waiting_school, waiting_school => true
  | _, _ => false
  end.

(** The state filter: [registered] is the [state=] of the decorator ([None]
    when it has none), [current] the sender's state in the store. *)
Definition state_filter (registered current : option fsm_state) : bool :=
  match registered, current with
  | None, None => true
  | Some a, Some b => fsm_state_eqb a b
  | _, _ => false
  end.

(** One record of [MemoryStorage]: the state name and the data dictionary. *)
Record session := {
  sess_state : option fsm_state;
  sess_data : gmap pystr pystr
}.

Definition empty_session : session := {| sess_state := None; sess_data := ∅ |}.

(** [settings] and [users] are the two tables of [data.db], each keyed by its
    primary key; [fsm] is the dispatcher's [MemoryStorage], keyed by chat and
    user; [logged] collects what is written to the logger. *)
Record world := {
  settings : gmap pystr pystr;
  users : gmap Z user_row;
  fsm : gmap (Z * Z) session;
  logged : list pystr
}.

Definition set_settings (f : gmap pystr pystr -> gmap pystr pystr) (w : world) : world :=
  {| settings := f (settings w); users := users w; fsm := fsm w; logged := logged w |}.
Definition set_users (f : gmap Z user_row -> gmap Z user_row) (w : world) : world :=
  {| settings := settings w; users := f (users w); fsm := fsm w; logged := logged w |}.
Definition set_fsm (f : gmap (Z * Z) session -> gmap (Z * Z) session) (w : world) : world :=
  {| settings := settings w; users := users w; fsm := f (fsm w); logged := logged w |}.
Definition add_log (line : pystr) (w : world) : world :=
  {| settings := settings w; users := users w; fsm := fsm w; logged := logged w ++ [line] |}.

Definition K_card_number : pystr := lit "card_number".
Definition K_recipient_fio : pystr := lit "recipient_fio".
Definition K_broadcast_text : pystr := lit "broadcast_text".

(** *** DB UTIL

    Every call opens the database, runs one statement, commits and closes,
    on its own: no call shares a transaction with another.  The calls are
    synchronous.  The functions below are the calls that succeed; the call
    that fails, where a property depends on it, is [db_set_setting_call]. *)

(** [INSERT OR IGNORE]: keeps a row that is already there. *)
Definition insert_or_ignore (k v : pystr) (t : gmap pystr pystr) : gmap pystr pystr :=
  match t !! k with
  | Some _ => t
  | None => <[k := v]> t
  end.

Definition init_db (w : world) : world :=
  set_settings (fun t =>
    insert_or_ignore K_recipient_fio (lit "Ф.И.О. Получателя")
      (insert_or_ignore K_card_number (lit "0000 0000 0000 0000") t)) w.

Definition db_set_setting (key value : pystr) (w : world) : world :=
  set_settings (fun t => <[key := value]> t) w.

Definition db_get_setting (key : pystr) (w : world) : pystr :=
  match settings w !! key with
  | Some v => v
  | None => []
  end.

Definition or_empty (o : option pystr) : pystr :=
  if truthy o then default [] o else [].

Definition db_add_user (u : user) (utcnow : pystr) (w : world) : world :=
  set_users (fun t =>
    <[user_id u := {| row_username := or_empty (username u);
                      row_first_name := first_name u;
                      row_last_name := or_empty (last_name u);
                      row_registered_at := utcnow |}]> t) w.

(** [SELECT user_id FROM users]: the keys of the table, in the order the
    engine enumerates them. *)
Definition db_get_all_user_ids (w : world) : list Z :=
  (map_to_list (users w)).*1.

(** *** FSM storage *)

Definition get_session (key : Z * Z) (w : world) : session :=
  default empty_session (fsm w !! key).

Definition fsm_get_state (key : Z * Z) (w : world) : option fsm_state :=
  sess_state (get_session key w).

Definition fsm_set_state (key : Z * Z) (s : option fsm_state) (w : world) : world :=
  set_fsm (fun t =>
    <[key := {| sess_state := s; sess_data := sess_data (get_session key w) |}]> t) w.

Definition fsm_get_data (key : Z * Z) (w : world) : gmap pystr pystr :=
  sess_data (get_session key w).

Definition fsm_update_data (key : Z * Z) (k v : pystr) (w : world) : world :=
  set_fsm (fun t =>
    <[key := {| sess_state := sess_state (get_session key w);
                sess_data := <[k := v]> (sess_data (get_session key w)) |}]> t) w.

(** [state.finish()]: state and data are reset and the record is dropped. *)
Definition fsm_finish (key : Z * Z) (w : world) : world :=
  set_fsm (fun t => delete key t) w.

(** ** Coroutines

    A handler runs on the shared [world] until it finishes or reaches an
    [await].  At an [await] it hands the world back together with what it
    waits for; it is resumed with the platform's answer and the world as it is
    by then. *)

Inductive exn :=
| KeyError (key : pystr)
| ValueError
| IndexError
| ApiError (detail : pystr)
| OperationalError (detail : pystr).

(** [str(e)] *)
Definition str_of_exn (e : exn) : pystr :=
  match e with
  | KeyError k => lit "'" ++ k ++ lit "'"
  | ValueError => lit "not enough values to unpack"
  | IndexError => lit "list index out of range"
  | ApiError d => d
  | OperationalError d => d
  end.

Inductive result (A : Type) :=
| Ok (a : A)
| Exc (e : exn).
Arguments Ok {A} a.
Arguments Exc {A} e.

(** The platform's answer to an awaited call. *)
Inductive reply :=
| Accepted
| Refused (detail : pystr).

Inductive yield :=
| Api (c : api_call)
| Sleep
| Storage.

Inductive step (A : Type) :=
| Done (w : world) (r : result A)
| Susp (w : world) (y : yield) (k : reply -> world -> step A).
Arguments Done {A} w r.
Arguments Susp {A} w y k.

Definition coro (A : Type) : Type := world -> step A.

Fixpoint bind_step {A B} (s : step A) (f : A -> coro B) : step B :=
  match s with
  | Done w (Ok a) => f a w
  | Done w (Exc e) => Done w (Exc e)
  | Susp w y k => Susp w y (fun r w' => bind_step (k r w') f)
  end.

(** [try: s except Exception as e: h e] *)
Fixpoint catch_step {A} (s : step A) (h : exn -> coro A) : step A :=
  match s with
  | Done w (Ok a) => Done w (Ok a)
  | Done w (Exc e) => h e w
  | Susp w y k => Susp w y (fun r w' => catch_step (k r w') h)
  end.

#[global] Instance coro_ret : MRet coro := fun A a w => Done w (Ok a).
#[global] Instance coro_bind : MBind coro := fun A B f m w => bind_step (m w) f.

Definition raise {A} (e : exn) : coro A := fun w => Done w (Exc e).
Definition try_except {A} (m : coro A) (h : exn -> coro A) : coro A :=
  fun w => catch_step (m w) h.

(** Synchronous code: reads and writes of the world between two awaits. *)
Definition read {A} (f : world -> A) : coro A := fun w => Done w (Ok (f w)).
Definition write (f : world -> world) : coro unit := fun w => Done (f w) (Ok tt).

(** [await bot.<call>(...)]: raises when the platform refuses the call. *)
Definition await_api (c : api_call) : coro unit :=
  fun w => Susp w (Api c) (fun r w' =>
    match r with
    | Accepted => Done w' (Ok tt)
    | Refused d => Done w' (Exc (ApiError d))
    end).

(** [await asyncio.sleep(0.05)] *)
Definition await_sleep : coro unit :=
  fun w => Susp w Sleep (fun _ w' => Done w' (Ok tt)).

(** [await] of a conversation-store operation. *)
Definition await_read {A} (f : world -> A) : coro A :=
  fun w => Susp w Storage (fun _ w' => Done w' (Ok (f w'))).
Definition await_write (f : world -> world) : coro unit :=
  fun w => Susp w Storage (fun _ w' => Done (f w') (Ok tt)).

(** Running one coroutine alone: every await is answered at once by the
    platform oracle, which sees how many Bot API calls came before. *)
Definition oracle := nat -> api_call -> reply.

Fixpoint run_step {A} (env : oracle) (n : nat) (s : step A)
  : list api_call * world * result A :=
  match s with
  | Done w r => ([], w, r)
  | Susp w (Api c) k =>
    let '(tr, w', r) := run_step env (S n) (k (env n c) w) in (c :: tr, w', r)
  | Susp w _ k => run_step env n (k Accepted w)
  end.

Definition run {A} (env : oracle) (m : coro A) (w : world) :=
  run_step env 0%nat (m w).

Definition all_accepted : oracle := fun _ _ => Accepted.

(** Several coroutines in flight.  The task table holds, for each coroutine,
    what it will do when resumed ([None] once it has finished).  The scheduler
    resumes any suspended one with any answer; it then runs to its next await,
    on the world the others left. *)
Definition thread := reply -> world -> step unit.

Record config := {
  cfg_world : world;
  cfg_tasks : list (option thread);
  cfg_trace : list api_call
}.

Definition emitted (y : yield) : list api_call :=
  match y with
  | Api c => [c]
  | _ => []
  end.

Definition resume (i : nat) (r : reply) (c : config) : option config :=
  match cfg_tasks c !! i with
  | Some (Some k) =>
    match k r (cfg_world c) with
    | Done w _ =>
      Some {| cfg_world := w; cfg_tasks := <[i := None]> (cfg_tasks c);
              cfg_trace := cfg_trace c |}
    | Susp w y k' =>
      Some {| cfg_world := w; cfg_tasks := <[i := Some k']> (cfg_tasks c);
              cfg_trace := cfg_trace c ++ emitted y |}
    end
  | _ => None
  end.

Inductive sched : config -> config -> Prop :=
| sched_resume i r c c' : resume i r c = Some c' -> sched c c'.

(** A coroutine that has not started yet is a thread that ignores the answer
    it is first resumed with. *)
Definition spawn (m : coro unit) : thread := fun _ w => m w.

(** A registered handler: the [state=] of its decorator, its other filters
    (which may raise), and its body. *)
Record handler (E : Type) := {
  h_state : option fsm_state;
  h_filter : E -> result bool;
  h_body : E -> coro unit
}.
Arguments h_state {E} h.
Arguments h_filter {E} h.
Arguments h_body {E} h.

(** Literals and the string functions stay folded under [cbn]. *)
Arguments lit : simpl never.
Arguments strip : simpl never.
Arguments str_of_N : simpl never.
Arguments str_of_Z : simpl never.
Arguments slice_to : simpl never.

(** ** Sample data

    A small concrete setting used to evaluate the handlers: administrator 1,
    five registered users, and the administrator's conversation in each of
    the states of the two admin flows. *)

Definition demo_user (i : Z) : user :=
  {| user_id := i; username := None; first_name := lit "User"; last_name := None |}.

Definition demo_message (from : Z) (body : string) : message :=
  {| message_id := 7; msg_from := demo_user from; msg_chat := from;
     msg_text := Some (lit body) |}.

Definition demo_press (from : Z) (payload : string) : callback_query :=
  {| cb_id := lit "q1"; cb_from := demo_user from; cb_chat := from;
     cb_message_id := 8; cb_data := Some (lit payload) |}.

Definition demo_now : pystr := lit "2024-01-01T00:00:00".

Definition demo_db : world :=
  foldr (fun i w => db_add_user (demo_user i) demo_now w)
    (init_db {| settings := ∅; users := ∅; fsm := ∅; logged := [] |})
    [101; 102; 103; 104; 105].

Definition demo_in_state (s : fsm_state) (data : gmap pystr pystr) : world :=
  set_fsm (fun _ => {[ (1, 1) := {| sess_state := Some s; sess_data := data |} ]}) demo_db.

(** The platform refuses the call number [k] and accepts all others. *)
Definition refuse_nth (k : nat) : oracle :=
  fun n _ => if (n =? k)%nat then Refused (lit "Forbidden: bot was blocked by the user")
             else Accepted.

Definition demo_confirm_world : world :=
  demo_in_state waiting_broadcast_confirm {[ K_broadcast_text := lit "Hello" ]}.

(** ** The bot *)

Section Bot.

(** CONFIG: [ADMIN_ID] comes from [config.json]; [BOT_USERNAME] is the bot's
    own user name, which the command filter compares mentions with. *)
Variable ADMIN_ID : Z.
Variable BOT_USERNAME : pystr.

Definition MANAGER_USERNAME : pystr := lit "qwuzinw".

(** *** PRODUCTS *)

Definition SUBJECTS : list (pystr * (pystr * N)) :=
  [ (lit "math_p", (lit "Профильная математика", 499%N));
    (lit "rus", (lit "Русский язык", 499%N));
    (lit "bio", (lit "Биология", 349%N));
    (lit "info", (lit "Информатика", 349%N));
    (lit "hist", (lit "История", 349%N));
    (lit "soc", (lit "Обществознание", 349%N));
    (lit "chem", (lit "Химия", 329%N));
    (lit "phys", (lit "Физика", 329%N)) ].

Definition SCHOOLS : list pystr := [lit "стобальный"; lit "пифагор"].

(** [SUBJECTS[key]] *)
Fixpoint assoc (key : pystr) (d : list (pystr * (pystr * N))) : option (pystr * N) :=
  match d with
  | [] => None
  | (k, v) :: d' => if pystr_eqb k key then Some v else assoc key d'
  end.

Definition subject_lookup (key : pystr) : coro (pystr * N) :=
  match assoc key SUBJECTS with
  | Some v => mret v
  | None => raise (KeyError key)
  end.

(** *** UTIL UI *)

Definition make_start_keyboard : keyboard :=
  kb_add (InlineKeyboardMarkup 1)
    (InlineKeyboardButton (lit "💸 Купить доступ") (lit "buy")).

Definition make_subjects_keyboard : keyboard :=
  let kb :=
    fold_left (fun kb '(key, (title, price)) =>
      kb_insert kb (InlineKeyboardButton
        (title ++ lit " — " ++ str_of_N price ++ lit "₽") (lit "subj|" ++ key)))
      SUBJECTS (InlineKeyboardMarkup 2) in
  kb_add kb (InlineKeyboardButton (lit "⬅️ Назад") (lit "back_start")).

Definition make_schools_keyboard (subject_key : pystr) : keyboard :=
  let kb :=
    fold_left (fun kb s =>
      kb_insert kb (InlineKeyboardButton (capitalize s)
        (lit "school|" ++ subject_key ++ lit "|" ++ s)))
      SCHOOLS (InlineKeyboardMarkup 2) in
  kb_add kb (InlineKeyboardButton (lit "⬅️ Назад") (lit "back_subjects")).

Definition make_admin_keyboard : keyboard :=
  kb_add
    (kb_add (InlineKeyboardMarkup 1)
       (InlineKeyboardButton (lit "📣 Рассылка") (lit "admin_broadcast")))
    (InlineKeyboardButton (lit "💳 Указать номер карты") (lit "admin_set_card")).

(** *** Message and query methods *)

Definition Markdown : option pystr := Some (lit "Markdown").

(** [message.answer(text, reply_markup=kb, parse_mode=pm)] *)
Definition message_answer (m : message) (text : pystr) (kb : option keyboard)
    (pm : option pystr) : coro unit :=
  await_api (SendMessage (msg_chat m) text pm kb None).

(** [message.reply(text, reply_markup=kb)] *)
Definition message_reply (m : message) (text : pystr) (kb : option keyboard) : coro unit :=
  await_api (SendMessage (msg_chat m) text None kb (Some (message_id m))).

(** [bot.send_message(chat_id, text)] *)
Definition bot_send_message (chat_id : Z) (text : pystr) : coro unit :=
  await_api (SendMessage chat_id text None None None).

(** [cb.answer(text, show_alert=...)] *)
Definition cb_answer (cb : callback_query) (text : option pystr) (show_alert : bool)
  : coro unit :=
  await_api (AnswerCallbackQuery (cb_id cb) text show_alert).

(** [bot.edit_message_text(chat_id=cb.message.chat.id,
    message_id=cb.message.message_id, ...)] *)
Definition edit_message_text (cb : callback_query) (text : pystr)
    (pm : option pystr) (kb : keyboard) : coro unit :=
  await_api (EditMessageText (cb_chat cb) (cb_message_id cb) text pm (Some kb)).

(** The conversation record of the update being handled (its [FSMContext]). *)
Definition msg_key (m : message) : Z * Z := (msg_chat m, user_id (msg_from m)).
Definition cb_key (cb : callback_query) : Z * Z := (cb_chat cb, user_id (cb_from cb)).

(** [await <State>.set()], [await state.update_data(k=v)],
    [await state.get_data()], [await state.finish()] *)
Definition state_set (key : Z * Z) (s : fsm_state) : coro unit :=
  await_write (fsm_set_state key (Some s)).
Definition state_update_data (key : Z * Z) (k v : pystr) : coro unit :=
  await_write (fsm_update_data key k v).
Definition state_get_data (key : Z * Z) : coro (gmap pystr pystr) :=
  await_read (fsm_get_data key).
Definition state_finish (key : Z * Z) : coro unit :=
  await_write (fsm_finish key).

(** [data.get(k, '')] *)
Definition dict_get (d : gmap pystr pystr) (k : pystr) : pystr := default [] (d !! k).

(** *** HANDLERS *)

Definition welcome_text : pystr :=
  lit "🎓 Добро пожаловать в *ЕГЭ Школу Онлайн* — быстрые и понятные курсы для уверенной подготовки к экзаменам!" ++ nl ++ nl
  ++ lit "Здесь вы можете купить доступ к видеоурокам, авторским заданиям и разбору задач от опытных преподавателей." ++ nl ++ nl
  ++ lit "📚 Доступна подготовка по профильной и базовой программе, персональные чек-листы и рекомендации." ++ nl ++ nl
  ++ lit "Выберите предмет и программу — получите готовую дорожную карту подготовки и материалы сразу после оплаты.".

Definition cmd_start (utcnow : pystr) (m : message) : coro unit :=
  write (db_add_user (msg_from m) utcnow);;
  let text := welcome_text in
  message_answer m text (Some make_start_keyboard) Markdown.

Definition process_buy (cb : callback_query) : coro unit :=
  cb_answer cb None false;;
  edit_message_text cb (lit "Выберите предмет:") None make_subjects_keyboard.

Definition process_subject (cb : callback_query) : coro unit :=
  cb_answer cb None false;;
  match split_max 124 1 (default [] (cb_data cb)) with
  | [_; subj_key] =>
    '(title, _) ← subject_lookup subj_key;
    edit_message_text cb
      (lit "Предмет: *" ++ title ++ lit "*" ++ nl ++ lit "Выберите программу:")
      Markdown (make_schools_keyboard subj_key)
  | _ => raise ValueError
  end.

Definition product_text (subj_title school : pystr) (price : N) (card fio : pystr) : pystr :=
  lit "*Товар:* " ++ subj_title ++ lit " — " ++ school ++ nl
  ++ lit "*Цена:* " ++ str_of_N price ++ lit "₽" ++ nl ++ nl
  ++ lit "*Реквизиты для оплаты:*" ++ nl ++ card ++ nl ++ fio ++ nl ++ nl
  ++ lit "После оплаты пришлите, пожалуйста, чек менеджеру @" ++ MANAGER_USERNAME ++ lit "." ++ nl
  ++ lit "Мы пришлем доступ в течение рабочего времени.".

Definition product_keyboard : keyboard :=
  kb_add
    (kb_add (InlineKeyboardMarkup 1)
       (InlineKeyboardButton_url (lit "Связаться с менеджером")
          (lit "https://t.me/" ++ MANAGER_USERNAME)))
    (InlineKeyboardButton (lit "⬅️ Назад к предметам") (lit "back_subjects")).

Definition process_school (cb : callback_query) : coro unit :=
  cb_answer cb None false;;
  match split_max 124 2 (default [] (cb_data cb)) with
  | [_; subj_key; school] =>
    '(subj_title, price) ← subject_lookup subj_key;
    (* fetch card info *)
    card ← read (db_get_setting K_card_number);
    fio ← read (db_get_setting K_recipient_fio);
    let text := product_text subj_title school price card fio in
    edit_message_text cb text Markdown product_keyboard
  | _ => raise ValueError
  end.

Definition back_subjects (cb : callback_query) : coro unit :=
  cb_answer cb None false;;
  edit_message_text cb (lit "Выберите предмет:") None make_subjects_keyboard.

Definition back_start_text : pystr :=
  lit "🎓 Добро пожаловать в *ЕГЭ Школу Онлайн* — быстрые и понятные курсы для уверенной подготовки к экзаменам!" ++ nl ++ nl
  ++ lit "Здесь вы можете купить доступ к видеоурокам...".

Definition back_start (cb : callback_query) : coro unit :=
  cb_answer cb None false;;
  let text := back_start_text in
  edit_message_text cb text Markdown make_start_keyboard.

(** *** ADMIN *)

Definition cmd_admin (m : message) : coro unit :=
  if negb (user_id (msg_from m) =? ADMIN_ID) then
    message_reply m (lit "Доступ запрещён.") None
  else
    message_reply m (lit "Панель администратора:") (Some make_admin_keyboard).

Definition admin_broadcast (cb : callback_query) : coro unit :=
  if negb (user_id (cb_from cb) =? ADMIN_ID) then
    cb_answer cb (Some (lit "Нет доступа")) true
  else
    cb_answer cb None false;;
    bot_send_message ADMIN_ID (lit "Отправьте текст для рассылки (макс 4000 символов).");;
    state_set (cb_key cb) waiting_broadcast_text.

Definition broadcast_preview_keyboard : keyboard :=
  kb_add
    (kb_add (InlineKeyboardMarkup 3)
       (InlineKeyboardButton (lit "✅ Начать рассылку") (lit "broadcast_confirm")))
    (InlineKeyboardButton (lit "❌ Отмена") (lit "broadcast_cancel")).

Definition receive_broadcast_text (m : message) : coro unit :=
  if negb (user_id (msg_from m) =? ADMIN_ID) then
    message_reply m (lit "Нет доступа.") None
  else
    let text := slice_to 4000 (default [] (msg_text m)) in
    state_update_data (msg_key m) K_broadcast_text text;;
    let kb := broadcast_preview_keyboard in
    message_reply m (lit "Предпросмотр рассылки:" ++ nl ++ nl ++ text) (Some kb);;
    state_set (msg_key m) waiting_broadcast_confirm.

(** The body of the [for uid in user_ids] loop and the loop itself; the
    counters [sent] and [failed] are threaded through. *)
Definition broadcast_one (text : pystr) (uid : Z) (sent failed : N) : coro (N * N) :=
  try_except
    (bot_send_message uid text;;
     let sent := (sent + 1)%N in
     await_sleep;;  (* small delay to be polite *)
     mret (sent, failed))
    (fun e =>
     write (add_log (lit "Failed to send to " ++ str_of_Z uid ++ lit ": " ++ str_of_exn e));;
     let failed := (failed + 1)%N in
     await_sleep;;
     mret (sent, failed)).

Fixpoint broadcast_loop (text : pystr) (user_ids : list Z) (sent failed : N)
  : coro (N * N) :=
  match user_ids with
  | [] => mret (sent, failed)
  | uid :: rest =>
    '(sent, failed) ← broadcast_one text uid sent failed;
    broadcast_loop text rest sent failed
  end.

Definition report_text (sent failed : N) : pystr :=
  lit "Готово. Отправлено: " ++ str_of_N sent ++ lit ". Не доставлено: "
  ++ str_of_N failed ++ lit ".".

Definition broadcast_confirm_or_cancel (cb : callback_query) : coro unit :=
  if negb (user_id (cb_from cb) =? ADMIN_ID) then
    cb_answer cb (Some (lit "Нет доступа")) true
  else if pystr_eqb (default [] (cb_data cb)) (lit "broadcast_cancel") then
    state_finish (cb_key cb);;
    cb_answer cb (Some (lit "Рассылка отменена")) false;;
    bot_send_message ADMIN_ID (lit "Отменено.")
  else
    (* confirm *)
    data ← state_get_data (cb_key cb);
    let text := dict_get data K_broadcast_text in
    cb_answer cb (Some (lit "Запуск рассылки...")) false;;
    user_ids ← read db_get_all_user_ids;
    '(sent, failed) ← broadcast_loop text user_ids 0%N 0%N;
    bot_send_message ADMIN_ID (report_text sent failed);;
    state_finish (cb_key cb).

Definition admin_set_card (cb : callback_query) : coro unit :=
  if negb (user_id (cb_from cb) =? ADMIN_ID) then
    cb_answer cb (Some (lit "Нет доступа")) true
  else
    cb_answer cb None false;;
    bot_send_message ADMIN_ID
      (lit "Введите номер карты (или реквизиты) — отправьте одним сообщением:");;
    state_set (cb_key cb) waiting_card_number.

Definition receive_card_number (m : message) : coro unit :=
  if negb (user_id (msg_from m) =? ADMIN_ID) then
    message_reply m (lit "Нет доступа.") None
  else
    let card := strip (default [] (msg_text m)) in
    state_update_data (msg_key m) K_card_number card;;
    message_reply m (lit "Теперь укажите ФИО получателя:") None;;
    state_set (msg_key m) waiting_recipient_fio.

Definition receive_recipient_fio (m : message) : coro unit :=
  if negb (user_id (msg_from m) =? ADMIN_ID) then
    message_reply m (lit "Нет доступа.") None
  else
    let fio := strip (default [] (msg_text m)) in
    data ← state_get_data (msg_key m);
    let card := dict_get data K_card_number in
    write (db_set_setting K_card_number card);;
    write (db_set_setting K_recipient_fio fio);;
    message_reply m (lit "Реквизиты обновлены:" ++ nl ++ card ++ nl ++ fio) None;;
    state_finish (msg_key m).

(** *** SAFETY / MISC *)

Definition catch_all (m : message) : coro unit :=
  (* polite fallback for unknown messages *)
  if truthy (msg_text m) && startswith (lit "/") (default [] (msg_text m)) then
    mret tt  (* unknown commands ignored *)
  else
    message_reply m (lit "Команда не распознана. Нажмите /start чтобы вернуться в начало.") None.

(** *** Routing (the decorators)

    The dispatcher tries the handlers of an update's kind in the order they
    are registered and runs the first whose filters all pass.  A handler
    registered without [state=] passes only while no conversation state is
    set for the sender; one registered without [content_types=] takes text
    messages only. *)

Definition partition_at (s : pystr) : pystr * pystr :=
  let '(h, t) := split_at 64 s in (h, default [] t).

(** The [commands=[...]] filter. *)
Definition command_filter (names : list pystr) (m : message) : result bool :=
  match first_word (default [] (msg_text m)) with
  | None => Exc IndexError
  | Some [] => Exc IndexError
  | Some (prefix :: rest) =>
    let '(command, mention) := partition_at rest in
    if truthy (Some mention) && negb (pystr_eqb (lower BOT_USERNAME) (lower mention))
    then Ok false
    else if negb (prefix =? 47)%N then Ok false
    else Ok (bool_decide (lower command ∈ names))
  end.

Definition content_text (m : message) : bool := truthy (msg_text m).

Definition data_is (s : pystr) (cb : callback_query) : bool :=
  bool_decide (cb_data cb = Some s).

Definition data_startswith (p : pystr) (cb : callback_query) : bool :=
  truthy (cb_data cb) && startswith p (default [] (cb_data cb)).

Definition on_command (name : pystr) (m : message) : result bool :=
  if content_text m then command_filter [name] m else Ok false.

Definition message_handlers (utcnow : pystr) : list (handler message) :=
  [ {| h_state := None; h_filter := on_command (lit "start"); h_body := cmd_start utcnow |};
    {| h_state := None; h_filter := on_command (lit "admin"); h_body := cmd_admin |};
    {| h_state := Some waiting_broadcast_text; h_filter := fun m => Ok (content_text m);
       h_body := receive_broadcast_text |};
    {| h_state := Some waiting_card_number; h_filter := fun m => Ok (content_text m);
       h_body := receive_card_number |};
    {| h_state := Some waiting_recipient_fio; h_filter := fun m => Ok (content_text m);
       h_body := receive_recipient_fio |};
    {| h_state := None; h_filter := fun _ => Ok true; h_body := catch_all |} ].

Definition callback_query_handlers : list (handler callback_query) :=
  [ {| h_state := None; h_filter := fun c => Ok (data_is (lit "buy") c);
       h_body := process_buy |};
    {| h_state := None; h_filter := fun c => Ok (data_startswith (lit "subj|") c);
       h_body := process_subject |};
    {| h_state := None; h_filter := fun c => Ok (data_startswith (lit "school|") c);
       h_body := process_school |};
    {| h_state := None; h_filter := fun c => Ok (data_is (lit "back_subjects") c);
       h_body := back_subjects |};
    {| h_state := None; h_filter := fun c => Ok (data_is (lit "back_start") c);
       h_body := back_start |};
    {| h_state := None; h_filter := fun c => Ok (data_is (lit "admin_broadcast") c);
       h_body := admin_broadcast |};
    {| h_state := Some waiting_broadcast_confirm;
       h_filter := fun c => Ok (data_is (lit "broadcast_cancel") c
                                || data_is (lit "broadcast_confirm") c);
       h_body := broadcast_confirm_or_cancel |};
    {| h_state := None; h_filter := fun c => Ok (data_is (lit "admin_set_card") c);
       h_body := admin_set_card |} ].

Fixpoint notify {E} (hs : list (handler E)) (st : option fsm_state) (e : E) : coro unit :=
  match hs with
  | [] => mret tt
  | h :: rest =>
    if state_filter (h_state h) st then
      match h_filter h e with
      | Ok true => h_body h e
      | Ok false => notify rest st e
      | Exc x => raise x
      end
    else notify rest st e
  end.

Inductive update :=
| Message (m : message)
| CallbackQuery (cb : callback_query).

(** One update, from arrival to the end of its handler.  [utcnow] is the
    clock reading the handler would take. *)
Definition dispatch (utcnow : pystr) (u : update) : coro unit :=
  fun w =>
    match u with
    | Message m => notify (message_handlers utcnow) (fsm_get_state (msg_key m) w) m w
    | CallbackQuery cb => notify callback_query_handlers (fsm_get_state (cb_key cb) w) cb w
    end.

(** Several updates one after the other, each handled to its end. *)
Fixpoint run_updates (env : oracle) (us : list (pystr * update)) (w : world)
  : list (list api_call) * world :=
  match us with
  | [] => ([], w)
  | (utcnow, u) :: rest =>
    let '(tr, w', _) := run env (dispatch utcnow u) w in
    let '(trs, w'') := run_updates env rest w' in
    (tr :: trs, w'')
  end.


(** ** Vocabulary of the properties *)

(** No conversation record exists for anyone but the administrator. *)
Definition non_admin_idle (w : world) : Prop :=
  forall chat uid, uid <> ADMIN_ID -> fsm w !! (chat, uid) = None.

(** The worlds the bot can be in: it starts with an empty conversation store
    (whatever [data.db] holds) and handles one update after the other,
    whatever the platform answers. *)
Inductive reachable : world -> Prop :=
| reach_start w : fsm w = ∅ -> reachable w
| reach_update w env utcnow u :
    reachable w -> reachable (run env (dispatch utcnow u) w).1.2.

(** An update that is not a message of the administrator. *)
Definition quiet (u : update) : Prop :=
  match u with
  | Message m => user_id (msg_from m) <> ADMIN_ID
  | CallbackQuery _ => True
  end.

(** The payload of a program button, as [make_schools_keyboard] builds it. *)
Definition school_payload (subject_key school : pystr) : pystr :=
  lit "school|" ++ subject_key ++ lit "|" ++ school.

(** The settings table holds exactly [S]. *)
Definition settings_are (S : gmap pystr pystr) (w : world) : Prop := settings w = S.


(** ** Guarantees of a coroutine

    [guarantees R G w0 s]: each stretch of [s] between two awaits takes the
    world it starts on to one related to it by [R] (the first stretch starts
    on [w0], the later ones on whatever world the coroutine is resumed with),
    and every Bot API call it makes satisfies [G] in the world it is made
    in. *)

Fixpoint guarantees {A} (R : relation world) (G : world -> api_call -> Prop)
    (w0 : world) (s : step A) : Prop :=
  match s with
  | Done w _ => R w0 w
  | Susp w y k =>
    R w0 w
    /\ match y with Api c => G w c | _ => True end
    /\ forall r w', guarantees R G w' (k r w')
  end.

Definition keeps {A} (R : relation world) (G : world -> api_call -> Prop)
    (m : coro A) : Prop :=
  forall w, guarantees R G w (m w).

Definition thread_guarantees (R : relation world) (G : world -> api_call -> Prop)
    (k : thread) : Prop :=
  forall r w, guarantees R G w (k r w).

Definition slot_guarantees (R : relation world) (G : world -> api_call -> Prop)
    (slot : option thread) : Prop :=
  match slot with
  | Some k => thread_guarantees R G k
  | None => True
  end.

Definition any_call : world -> api_call -> Prop := fun _ _ => True.

(** [carries P]: a world satisfying [P] is taken to one satisfying [P]. *)
Definition carries (P : world -> Prop) : relation world := fun w w' => P w -> P w'.

(** The settings table and the conversation store are as they were. *)
Definition same_store : relation world :=
  fun w w' => settings w' = settings w /\ fsm w' = fsm w.

(** The settings table is as it was. *)
Definition same_settings : relation world :=
  fun w w' => settings w' = settings w.

(** What a broadcast over [user_ids] does, given the platform's answers: the
    call made for each recipient, the answers it gets when the first call has
    number [n], the two counts, and the lines written to the log. *)
Definition send_to (text : pystr) (uid : Z) : api_call :=
  SendMessage uid text None None None.

Fixpoint deliveries (env : oracle) (n : nat) (text : pystr) (user_ids : list Z)
  : list reply :=
  match user_ids with
  | [] => []
  | uid :: rest => env n (send_to text uid) :: deliveries env (S n) text rest
  end.

Definition is_accepted (r : reply) : bool :=
  match r with
  | Accepted => true
  | Refused _ => false
  end.

Definition count_accepted (rs : list reply) : N :=
  N.of_nat (length (filter (fun r => is_accepted r = true) rs)).
Definition count_refused (rs : list reply) : N :=
  N.of_nat (length (filter (fun r => is_accepted r = false) rs)).

Fixpoint log_failures (user_ids : list Z) (rs : list reply) (w : world) : world :=
  match user_ids, rs with
  | uid :: us, Accepted :: rs' => log_failures us rs' w
  | uid :: us, Refused d :: rs' =>
    log_failures us rs'
      (add_log (lit "Failed to send to " ++ str_of_Z uid ++ lit ": " ++ d) w)
  | _, _ => w
  end.

(** The payment details a world would show: what the two reads of
    [process_school] return. *)
Definition payment_details (w : world) : pystr * pystr :=
  (db_get_setting K_card_number w, db_get_setting K_recipient_fio w).

(** [shows pair c]: if the call [c] is a product-detail render (an edit that
    carries the product keyboard), its text is the product text with exactly
    this card and this name. *)
Definition shows (pair : pystr * pystr) (c : api_call) : Prop :=
  match c with
  | EditMessageText _ _ text _ kb =>
    kb = Some product_keyboard ->
    exists title school price, text = product_text title school price pair.1 pair.2
  | _ => True
  end.

Definition shows_current : world -> api_call -> Prop :=
  fun w c => shows (payment_details w) c.

(** An update sent by someone other than the administrator. *)
Definition from_others (u : update) : Prop :=
  match u with
  | Message m => user_id (msg_from m) <> ADMIN_ID
  | CallbackQuery cb => user_id (cb_from cb) <> ADMIN_ID
  end.

(** *** The failure path of the two writes

    [db_set_setting] connects, runs its [REPLACE] and commits, each call for
    itself, and nothing in [receive_recipient_fio] catches what [sqlite3]
    raises when the database is locked or cannot be written.  A call that
    raises commits nothing.  [fault] is what the engine raises for this call,
    if anything. *)
Definition db_set_setting_call (fault : option pystr) (key value : pystr) : coro unit :=
  match fault with
  | None => write (db_set_setting key value)
  | Some detail => raise (OperationalError detail)
  end.

(** [receive_recipient_fio] with that path: [faults 0] is for the write of
    the card number, [faults 1] for the write of the recipient name. *)
Definition receive_recipient_fio_db (faults : nat -> option pystr) (m : message)
  : coro unit :=
  if negb (user_id (msg_from m) =? ADMIN_ID) then
    message_reply m (lit "Нет доступа.") None
  else
    let fio := strip (default [] (msg_text m)) in
    data ← state_get_data (msg_key m);
    let card := dict_get data K_card_number in
    db_set_setting_call (faults 0%nat) K_card_number card;;
    db_set_setting_call (faults 1%nat) K_recipient_fio fio;;
    message_reply m (lit "Реквизиты обновлены:" ++ nl ++ card ++ nl ++ fio) None;;
    state_finish (msg_key m).

Definition no_fault : nat -> option pystr := fun _ => None.

(** The second write fails, the first does not. *)
Definition second_write_fails : nat -> option pystr :=
  fun n => if (n =? 1)%nat then Some (lit "database is locked") else None.

(** The message handlers and the dispatcher with that handler. *)
Definition message_handlers_db (faults : nat -> option pystr) (utcnow : pystr)
  : list (handler message) :=
  [ {| h_state := None; h_filter := on_command (lit "start"); h_body := cmd_start utcnow |};
    {| h_state := None; h_filter := on_command (lit "admin"); h_body := cmd_admin |};
    {| h_state := Some waiting_broadcast_text; h_filter := fun m => Ok (content_text m);
       h_body := receive_broadcast_text |};
    {| h_state := Some waiting_card_number; h_filter := fun m => Ok (content_text m);
       h_body := receive_card_number |};
    {| h_state := Some waiting_recipient_fio; h_filter := fun m => Ok (content_text m);
       h_body := receive_recipient_fio_db faults |};
    {| h_state := None; h_filter := fun _ => Ok true; h_body := catch_all |} ].

Definition dispatch_db (faults : nat -> option pystr) (utcnow : pystr) (u : update)
  : coro unit :=
  fun w =>
    match u with
    | Message m =>
      notify (message_handlers_db faults utcnow) (fsm_get_state (msg_key m) w) m w
    | CallbackQuery cb => notify callback_query_handlers (fsm_get_state (cb_key cb) w) cb w
    end.

(** *** The completion step among other updates *)

(** The conversation an update belongs to. *)
Definition update_key (u : update) : Z * Z :=
  match u with
  | Message m => msg_key m
  | CallbackQuery cb => cb_key cb
  end.

(** An update that is not a text message of the administrator (such a
    message may itself be a completion step). *)
Definition no_admin_text (u : update) : Prop :=
  match u with
  | Message m => user_id (msg_from m) = ADMIN_ID -> content_text m = false
  | CallbackQuery _ => True
  end.

(** The administrator's message [m] in flight together with the handlers of
    any number of other updates, none of them started yet. *)
Definition in_flight (faults : nat -> option pystr) (utcnow : pystr) (m : message)
    (others : list (pystr * update)) (w : world) : config :=
  {| cfg_world := w;
     cfg_tasks := Some (spawn (dispatch_db faults utcnow (Message m)))
                  :: map (fun u => Some (spawn (dispatch u.1 u.2))) others;
     cfg_trace := [] |}.

(** The settings table after [receive_recipient_fio] has written both keys. *)
Definition both_updated (card fio : pystr) (t : gmap pystr pystr) : gmap pystr pystr :=
  <[K_recipient_fio := fio]> (<[K_card_number := card]> t).

(** The settings table is as it was, and so is every conversation but
    [own]. *)
Definition only_session (own : Z * Z) : relation world :=
  fun w w' => settings w' = settings w
              /\ forall key, key <> own -> fsm w' !! key = fsm w !! key.

(** The settings table and the conversation [key] are as they were. *)
Definition keeps_session (key : Z * Z) : relation world :=
  fun w w' => settings w' = settings w /\ fsm w' !! key = fsm w !! key.

(** The stages of the completion step as the scheduler sees them, for a run
    that began on [w0] in the conversation [key] and is to store [card] and
    [fio]: before the two writes the settings table and that conversation are
    as in [w0]; after them the table has both keys replaced. *)
Definition before_write (key : Z * Z) (w0 w : world) : Prop := keeps_session key w0 w.

Definition after_write (card fio : pystr) (w0 w : world) : Prop :=
  settings w = both_updated card fio (settings w0).

(** In the stretch it runs when next resumed, the thread either stops with a
    database error before writing anything, or does both writes. *)
Definition writes_next (key : Z * Z) (card fio : pystr) (w0 : world) (k : thread) : Prop :=
  forall r w, before_write key w0 w ->
  (exists d, k r w = Done w (Exc (OperationalError d)))
  \/ exists c k',
       k r w = Susp (db_set_setting K_recipient_fio fio (db_set_setting K_card_number card w))
                    (Api c) k'
       /\ (forall pair, shows pair c)
       /\ thread_guarantees same_settings shows_current k'.

(** The thread has yet to start; its first stretch changes nothing. *)
Definition not_started (key : Z * Z) (card fio : pystr) (w0 : world) (k : thread) : Prop :=
  forall r w, before_write key w0 w ->
  exists k', k r w = Susp w Storage k' /\ writes_next key card fio w0 k'.

(** Another update in flight while the step has not written yet: its handler
    leaves the settings and the conversation [key] alone, or it belongs to
    that conversation and has not started (it is then dropped when it
    starts, the conversation being in a state). *)
Definition other_ok (key : Z * Z) (slot : option thread) : Prop :=
  slot_guarantees (keeps_session key) shows_current slot
  \/ exists utcnow u,
       slot = Some (spawn (dispatch utcnow u)) /\ no_admin_text u /\ update_key u = key.

(** What holds of every configuration the scheduler can reach from
    [in_flight]: every render made so far shows the old pair or the new pair,
    and either the step has not written yet, or the settings are the old
    ones (the step stopped before its first write) or have both keys
    replaced, and no handler left will change them. *)
Definition race_ok (key : Z * Z) (card fio : pystr) (w0 : world) (c : config) : Prop :=
  Forall (fun call => shows (payment_details w0) call \/ shows (card, fio) call)
    (cfg_trace c)
  /\ ((exists k others,
         cfg_tasks c = Some k :: others
         /\ before_write key w0 (cfg_world c)
         /\ Forall (other_ok key) others
         /\ (not_started key card fio w0 k \/ writes_next key card fio w0 k))
      \/ ((settings (cfg_world c) = settings w0 \/ after_write card fio w0 (cfg_world c))
          /\ Forall (slot_guarantees same_settings shows_current) (cfg_tasks c))).

(** Every row of the two tables of the first world has a row in the second:
    every registered user is still registered, every settings key still
    there. *)
Definition keeps_rows : relation world :=
  fun w w' =>
    (forall i, is_Some (users w !! i) -> is_Some (users w' !! i))
    /\ (forall k, is_Some (settings w !! k) -> is_Some (settings w' !! k)).

(** The handlers of any updates in flight together, none started yet. *)
Definition pool (us : list (pystr * update)) (w : world) : config :=
  {| cfg_world := w;
     cfg_tasks := map (fun u => Some (spawn (dispatch u.1 u.2))) us;
     cfg_trace := [] |}.

(** The one update that writes the settings table: a text message of the
    administrator while the recipient name is awaited. *)
Definition completes_payment_details (u : update) (w : world) : Prop :=
  match u with
  | Message m =>
    user_id (msg_from m) = ADMIN_ID
    /\ fsm_get_state (msg_key m) w = Some waiting_recipient_fio
    /\ content_text m = true
  | CallbackQuery _ => False
  end.

(** No conversation is in a state of [PurchaseStates]. *)
Definition no_purchase_state (w : world) : Prop :=
  forall key, fsm_get_state key w <> Some waiting_subject
              /\ fsm_get_state key w <> Some waiting_school.

(** The states in which a text message is awaited. *)
Definition awaits_text (st : fsm_state) : Prop :=
  st = waiting_broadcast_text \/ st = waiting_card_number \/ st = waiting_recipient_fio.

(** The buttons of a keyboard, row after row. *)
Definition buttons (kb : keyboard) : list button := concat (inline_keyboard kb).

(** A reply that carries the denial of the three text handlers. *)
Definition is_text_denial (c : api_call) : Prop :=
  match c with
  | SendMessage _ text _ _ (Some _) => text = lit "Нет доступа."
  | _ => False
  end.

(** No constraint on how the world changes. *)
Definition any_change : relation world := fun _ _ => True.

(** Nothing changed but, at most, the users row of [uid]. *)
Definition only_row (uid : Z) : relation world :=
  fun w w' =>
    settings w' = settings w /\ fsm w' = fsm w /\ logged w' = logged w
    /\ forall i, i <> uid -> users w' !! i = users w !! i.

(** The start command [m], in flight in slot [i], has either not begun or
    its sender is registered. *)
Definition start_slot (utcnow : pystr) (m : message) (w : world)
    (slot : option (option thread)) : Prop :=
  match slot with
  | Some (Some k) =>
    k = spawn (dispatch utcnow (Message m)) \/ is_Some (users w !! user_id (msg_from m))
  | Some None => is_Some (users w !! user_id (msg_from m))
  | None => False
  end.

Definition start_in_flight (utcnow : pystr) (m : message) (i : nat) (c : config) : Prop :=
  start_slot utcnow m (cfg_world c) (cfg_tasks c !! i).

(** What holds of every configuration the scheduler reaches from [pool]. *)
Definition start_ok (utcnow : pystr) (m : message) (i : nat) (c : config) : Prop :=
  non_admin_idle (cfg_world c)
  /\ Forall (slot_guarantees keeps_rows any_call) (cfg_tasks c)
  /\ Forall (slot_guarantees (carries non_admin_idle) any_call) (cfg_tasks c)
  /\ start_in_flight utcnow m i c.

(** The call answers the update [u]: it goes to the chat the update came
    from, edits the message whose button was pressed, or acknowledges that
    press. *)
Definition answers (u : update) (c : api_call) : Prop :=
  match u, c with
  | Message m, SendMessage chat _ _ _ _ => chat = msg_chat m
  | CallbackQuery cb, EditMessageText chat mid _ _ _ =>
    chat = cb_chat cb /\ mid = cb_message_id cb
  | CallbackQuery cb, AnswerCallbackQuery qid _ _ => qid = cb_id cb
  | _, _ => False
  end.

(** * Properties *)

(** ** Running coroutines *)

Lemma run_step_bind {A B} (env : oracle) (s : step A) (f : A -> coro B) :
  forall n,
  run_step env n (bind_step s f) =
  match run_step env n s with
  | (tr1, w1, Ok a) =>
    let '(tr2, w2, r) := run_step env (n + length tr1) (f a w1) in (tr1 ++ tr2, w2, r)
  | (tr1, w1, Exc e) => (tr1, w1, Exc e)
  end.
Proof.
  induction s as [w [a|e]|w y k IH]; intros n; cbn [bind_step run_step].
  - rewrite Nat.add_0_r. destruct (run_step env n (f a w)) as [[tr w'] r]. reflexivity.
  - reflexivity.
  - destruct y as [c| |]; cbn [run_step]; rewrite IH.
    + destruct (run_step env (S n) (k (env n c) w)) as [[tr1 w1] [a|e]]; cbn [length].
      * replace (S n + length tr1)%nat with (n + S (length tr1))%nat by lia.
        destruct (run_step env _ (f a w1)) as [[tr2 w2] r]. reflexivity.
      * reflexivity.
    + reflexivity.
    + reflexivity.
Qed.

(** ** Guarantees, piece by piece *)

#[local] Instance carries_preorder (P : world -> Prop) : PreOrder (carries P).
Proof. split; [intros w H; exact H|intros w1 w2 w3 H12 H23 H; exact (H23 (H12 H))]. Qed.

#[local] Instance same_store_preorder : PreOrder same_store.
Proof.
  split; [intros w; split; reflexivity|].
  intros w1 w2 w3 [Hs12 Hf12] [Hs23 Hf23]. split; congruence.
Qed.

#[local] Instance same_settings_preorder : PreOrder same_settings.
Proof. split; [intros w; reflexivity|]. intros w1 w2 w3 H12 H23. unfold same_settings in *. congruence. Qed.

Section Guarantees.

Context (R : relation world) `{!PreOrder R} (G : world -> api_call -> Prop).

Lemma guarantees_from {A} (w0 w1 : world) (s : step A) :
  R w0 w1 -> guarantees R G w1 s -> guarantees R G w0 s.
Proof.
  intros H01. destruct s as [w r|w y k]; cbn.
  - intros H. etransitivity; eassumption.
  - intros (H & Hy & Hk). split; [etransitivity; eassumption|]. split; assumption.
Qed.

Lemma guarantees_bind {A B} (w0 : world) (s : step A) (f : A -> coro B) :
  guarantees R G w0 s -> (forall a, keeps R G (f a)) -> guarantees R G w0 (bind_step s f).
Proof.
  intros Hs Hf. revert w0 Hs. induction s as [w [a|e]|w y k IH]; intros w0 Hs; cbn in *.
  - eapply guarantees_from; [exact Hs|apply Hf].
  - exact Hs.
  - destruct Hs as (H & Hy & Hk). split; [exact H|]. split; [exact Hy|].
    intros r w'. apply IH, Hk.
Qed.

Lemma guarantees_catch {A} (w0 : world) (s : step A) (h : exn -> coro A) :
  guarantees R G w0 s -> (forall e, keeps R G (h e)) -> guarantees R G w0 (catch_step s h).
Proof.
  intros Hs Hh. revert w0 Hs. induction s as [w [a|e]|w y k IH]; intros w0 Hs; cbn in *.
  - exact Hs.
  - eapply guarantees_from; [exact Hs|apply Hh].
  - destruct Hs as (H & Hy & Hk). split; [exact H|]. split; [exact Hy|].
    intros r w'. apply IH, Hk.
Qed.

Lemma keeps_bind {A B} (m : coro A) (f : A -> coro B) :
  keeps R G m -> (forall a, keeps R G (f a)) -> keeps R G (m ≫= f).
Proof. intros Hm Hf w. apply guarantees_bind; auto. Qed.

Lemma keeps_try_except {A} (m : coro A) (h : exn -> coro A) :
  keeps R G m -> (forall e, keeps R G (h e)) -> keeps R G (try_except m h).
Proof. intros Hm Hh w. apply guarantees_catch; auto. Qed.

Lemma keeps_ret {A} (a : A) : keeps R G (mret a).
Proof. intros w. cbn. reflexivity. Qed.

Lemma keeps_raise {A} (e : exn) : keeps R G (raise (A := A) e).
Proof. intros w. cbn. reflexivity. Qed.

Lemma keeps_read {A} (f : world -> A) : keeps R G (read f).
Proof. intros w. cbn. reflexivity. Qed.

Lemma keeps_write (f : world -> world) : (forall w, R w (f w)) -> keeps R G (write f).
Proof. intros Hf w. apply Hf. Qed.

Lemma keeps_await_api (c : api_call) : (forall w, G w c) -> keeps R G (await_api c).
Proof.
  intros Hc w. cbn. split; [reflexivity|]. split; [apply Hc|].
  intros [|d] w'; cbn; reflexivity.
Qed.

Lemma keeps_await_sleep : keeps R G await_sleep.
Proof. intros w. cbn. split; [reflexivity|]. split; [exact I|]. intros r w'. cbn. reflexivity. Qed.

Lemma keeps_await_read {A} (f : world -> A) : keeps R G (await_read f).
Proof. intros w. cbn. split; [reflexivity|]. split; [exact I|]. intros r w'. cbn. reflexivity. Qed.

Lemma keeps_await_write (f : world -> world) :
  (forall w, R w (f w)) -> keeps R G (await_write f).
Proof. intros Hf w. cbn. split; [reflexivity|]. split; [exact I|]. intros r w'. apply Hf. Qed.

(** Run alone, the coroutine ends on a world related to the one it began on. *)
Lemma run_step_guarantees {A} (env : oracle) (s : step A) :
  forall n w0, guarantees R G w0 s -> R w0 (run_step env n s).1.2.
Proof.
  induction s as [w r|w y k IH]; intros n w0 Hs; cbn in *.
  - exact Hs.
  - destruct Hs as (H & _ & Hk). etransitivity; [exact H|]. destruct y as [c| |].
    + specialize (IH (env n c) w (S n) w (Hk _ _)).
      destruct (run_step env (S n) (k (env n c) w)) as [[tr w'] r]. exact IH.
    + apply IH, Hk.
    + apply IH, Hk.
Qed.

(** Under interleaving: when every coroutine in flight guarantees [R], so does
    every step of the scheduler, and the table stays that way. *)
Lemma sched_guarantees (c c' : config) :
  sched c c' ->
  Forall (slot_guarantees R G) (cfg_tasks c) ->
  R (cfg_world c) (cfg_world c') /\ Forall (slot_guarantees R G) (cfg_tasks c').
Proof.
  intros [i r c0 c0' Hres] Hts. unfold resume in Hres.
  destruct (cfg_tasks c0 !! i) as [[k|]|] eqn:Hk; try discriminate.
  assert (Hp : guarantees R G (cfg_world c0) (k r (cfg_world c0))).
  { eapply Forall_lookup_1 in Hts; [|exact Hk]. apply Hts. }
  destruct (k r (cfg_world c0)) as [w res|w y k']; injection Hres as <-; cbn in *.
  - split; [exact Hp|]. apply Forall_insert; [exact Hts|exact I].
  - destruct Hp as (H & _ & Hk'). split; [exact H|].
    apply Forall_insert; [exact Hts|]. exact Hk'.
Qed.

End Guarantees.

(** ** Only the administrator ever has a conversation record *)

Lemma idle_set_state w chat s :
  non_admin_idle w -> non_admin_idle (fsm_set_state (chat, ADMIN_ID) s w).
Proof.
  intros H c uid Hne. cbn. rewrite lookup_insert_ne by congruence. apply H, Hne.
Qed.

Lemma idle_update_data w chat k v :
  non_admin_idle w -> non_admin_idle (fsm_update_data (chat, ADMIN_ID) k v w).
Proof.
  intros H c uid Hne. cbn. rewrite lookup_insert_ne by congruence. apply H, Hne.
Qed.

Lemma idle_finish w key : non_admin_idle w -> non_admin_idle (fsm_finish key w).
Proof.
  intros H c uid Hne. cbn. rewrite lookup_delete_None. right. apply H, Hne.
Qed.

Lemma idle_same_fsm w w' : fsm w' = fsm w -> non_admin_idle w -> non_admin_idle w'.
Proof. intros E H c uid Hne. rewrite E. apply H, Hne. Qed.

Ltac keeps_tac side call :=
  repeat match goal with
  | |- PreOrder _ => apply _
  | |- forall _, keeps _ _ _ => intros ?; cbn beta
  | |- keeps _ _ (mret _) => apply keeps_ret
  | |- keeps _ _ (raise _) => apply keeps_raise
  | |- keeps _ _ (read _) => apply keeps_read
  | |- keeps _ _ (write _) => apply keeps_write
  | |- keeps _ _ (await_api _) => apply keeps_await_api
  | |- keeps _ _ await_sleep => apply keeps_await_sleep
  | |- keeps _ _ (await_read _) => apply keeps_await_read
  | |- keeps _ _ (await_write _) => apply keeps_await_write
  | |- keeps _ _ (_ ≫= _) => apply keeps_bind
  | |- keeps _ _ (try_except _ _) => apply keeps_try_except
  | |- keeps _ _ (let '(_, _) := ?x in _) => destruct x; cbn beta iota
  | |- keeps _ _ (match ?x with _ => _ end) => destruct x; cbn beta iota
  | |- forall _ : world, _ => first [solve [side] | solve [call]]
  end.

Ltac any_call_side := intros ?; exact I.

Ltac each_handler :=
  repeat (apply Forall_cons_2; [cbn [h_body]|]); [..|apply Forall_nil_2].

Ltac unfold_api :=
  unfold message_answer, message_reply, bot_send_message, cb_answer,
    edit_message_text, state_set, state_update_data, state_get_data,
    state_finish, subject_lookup.

Ltac admin_case u :=
  destruct (user_id u =? ADMIN_ID) eqn:Eadmin; cbn [negb];
  [apply Z.eqb_eq in Eadmin|apply Z.eqb_neq in Eadmin].

Ltac idle_side :=
  intros ?; unfold carries; intros ?;
  first [ apply idle_set_state | apply idle_update_data | apply idle_finish
        | eapply idle_same_fsm; [reflexivity|] ]; assumption.

Lemma broadcast_loop_keeps (R : relation world) `{!PreOrder R} text uids :
  (forall line w, R w (add_log line w)) ->
  forall sent failed, keeps R any_call (broadcast_loop text uids sent failed).
Proof.
  intros Hlog. induction uids as [|uid rest IH]; intros sent failed; cbn [broadcast_loop].
  - apply keeps_ret; assumption.
  - apply keeps_bind; [assumption| |].
    + unfold broadcast_one, bot_send_message.
      keeps_tac ltac:(intros ?; apply Hlog) any_call_side.
    + intros [s f]. apply IH.
Qed.

Lemma notify_keeps {E} (R : relation world) `{!PreOrder R} G
    (hs : list (handler E)) st (e : E) :
  Forall (fun h => keeps R G (h_body h e)) hs -> keeps R G (notify hs st e).
Proof.
  induction 1 as [|h hs Hh _ IH]; cbn [notify].
  - apply keeps_ret; assumption.
  - destruct (state_filter (h_state h) st); [|exact IH].
    destruct (h_filter h e) as [[|]|x]; [exact Hh|exact IH|apply keeps_raise; assumption].
Qed.

Lemma dispatch_keeps (R : relation world) `{!PreOrder R} G utcnow u :
  (forall m, u = Message m ->
     Forall (fun h => keeps R G (h_body h m)) (message_handlers utcnow)) ->
  (forall c, u = CallbackQuery c ->
     Forall (fun h => keeps R G (h_body h c)) callback_query_handlers) ->
  keeps R G (dispatch utcnow u).
Proof.
  intros Hm Hc w. destruct u as [m|cb]; cbn [dispatch].
  - apply notify_keeps; [assumption|]. apply Hm. reflexivity.
  - apply notify_keeps; [assumption|]. apply Hc. reflexivity.
Qed.

Lemma message_handlers_idle utcnow (m : message) :
  Forall (fun h => keeps (carries non_admin_idle) any_call (h_body h m))
    (message_handlers utcnow).
Proof.
  unfold message_handlers. each_handler.
  - unfold cmd_start; unfold_api. keeps_tac idle_side any_call_side.
  - unfold cmd_admin; unfold_api. admin_case (msg_from m); keeps_tac idle_side any_call_side.
  - unfold receive_broadcast_text, msg_key; unfold_api.
    admin_case (msg_from m); [rewrite Eadmin|]; keeps_tac idle_side any_call_side.
  - unfold receive_card_number, msg_key; unfold_api.
    admin_case (msg_from m); [rewrite Eadmin|]; keeps_tac idle_side any_call_side.
  - unfold receive_recipient_fio, msg_key; unfold_api.
    admin_case (msg_from m); [rewrite Eadmin|]; keeps_tac idle_side any_call_side.
  - unfold catch_all; unfold_api. keeps_tac idle_side any_call_side.
Qed.

Lemma callback_query_handlers_idle (c : callback_query) :
  Forall (fun h => keeps (carries non_admin_idle) any_call (h_body h c))
    callback_query_handlers.
Proof.
  unfold callback_query_handlers. each_handler.
  - unfold process_buy; unfold_api. keeps_tac idle_side any_call_side.
  - unfold process_subject; unfold_api. keeps_tac idle_side any_call_side.
  - unfold process_school; unfold_api. keeps_tac idle_side any_call_side.
  - unfold back_subjects; unfold_api. keeps_tac idle_side any_call_side.
  - unfold back_start; unfold_api. keeps_tac idle_side any_call_side.
  - unfold admin_broadcast, cb_key; unfold_api.
    admin_case (cb_from c); [rewrite Eadmin|]; keeps_tac idle_side any_call_side.
  - unfold broadcast_confirm_or_cancel, cb_key; unfold_api.
    admin_case (cb_from c); [rewrite Eadmin|]; keeps_tac idle_side any_call_side.
    apply broadcast_loop_keeps; [apply _|]. intros line w. unfold carries. apply idle_same_fsm. reflexivity.
  - unfold admin_set_card, cb_key; unfold_api.
    admin_case (cb_from c); [rewrite Eadmin|]; keeps_tac idle_side any_call_side.
Qed.

(** Every world the bot reaches has conversation records for the
    administrator only. *)
Lemma reachable_non_admin_idle w : reachable w -> non_admin_idle w.
Proof.
  induction 1 as [w Hw|w env utcnow u _ IH].
  - intros chat uid _. rewrite Hw. apply lookup_empty.
  - unfold run.
    refine (run_step_guarantees (carries non_admin_idle) any_call env _ 0 w _ IH).
    apply dispatch_keeps; [apply _|intros; apply message_handlers_idle
                          |intros; apply callback_query_handlers_idle].
Qed.

(** ** Routing *)

Lemma lower_admin_not_start (command : pystr) :
  bool_decide (lower command ∈ [lit "admin"]) = true ->
  bool_decide (lower command ∈ [lit "start"]) = false.
Proof.
  intros H. apply bool_decide_eq_true in H. apply list_elem_of_singleton in H.
  rewrite H. apply bool_decide_eq_false. intros Hin.
  apply list_elem_of_singleton in Hin. revert Hin. vm_compute. discriminate.
Qed.

Lemma on_command_admin_not_start (m : message) :
  on_command (lit "admin") m = Ok true -> on_command (lit "start") m = Ok false.
Proof.
  unfold on_command, command_filter. destruct (content_text m); [|discriminate].
  destruct (first_word _) as [[|prefix rest]|]; try discriminate.
  destruct (partition_at rest) as [command mention].
  destruct (truthy (Some mention) && _); [discriminate|].
  destruct (negb (prefix =? 47)%N); [discriminate|].
  intros [= H]. f_equal. apply lower_admin_not_start, H.
Qed.

(** Evaluates the payload filters once the payload is known. *)
Ltac eval_data_filters Hdata :=
  unfold data_is, data_startswith; rewrite Hdata;
  repeat match goal with
  | |- context [bool_decide (Some ?a = Some ?b)] =>
    let v := eval vm_compute in (bool_decide (Some a = Some b)) in
    change (bool_decide (Some a = Some b)) with v
  | |- context [truthy (Some ?a) && startswith ?p (default [] (Some ?a))] =>
    let v := eval vm_compute in (truthy (Some a) && startswith p (default [] (Some a))) in
    change (truthy (Some a) && startswith p (default [] (Some a))) with v
  end;
  cbn [orb andb].

Lemma route_admin_broadcast (cb : callback_query) (w : world) utcnow :
  fsm_get_state (cb_key cb) w = None ->
  cb_data cb = Some (lit "admin_broadcast") ->
  dispatch utcnow (CallbackQuery cb) w = admin_broadcast cb w.
Proof.
  intros Hst Hdata. cbn [dispatch]. rewrite Hst.
  unfold callback_query_handlers. cbn [notify h_state h_filter h_body state_filter].
  eval_data_filters Hdata. reflexivity.
Qed.

Lemma route_admin_set_card (cb : callback_query) (w : world) utcnow :
  fsm_get_state (cb_key cb) w = None ->
  cb_data cb = Some (lit "admin_set_card") ->
  dispatch utcnow (CallbackQuery cb) w = admin_set_card cb w.
Proof.
  intros Hst Hdata. cbn [dispatch]. rewrite Hst.
  unfold callback_query_handlers. cbn [notify h_state h_filter h_body state_filter].
  eval_data_filters Hdata. reflexivity.
Qed.

Lemma route_cmd_admin (m : message) (w : world) utcnow :
  fsm_get_state (msg_key m) w = None ->
  on_command (lit "admin") m = Ok true ->
  dispatch utcnow (Message m) w = cmd_admin m w.
Proof.
  intros Hst Hcmd. cbn [dispatch]. rewrite Hst.
  unfold message_handlers. cbn [notify h_state h_filter h_body state_filter].
  rewrite (on_command_admin_not_start _ Hcmd), Hcmd. reflexivity.
Qed.

Lemma idle_get_state (w : world) (key : Z * Z) :
  fsm w !! key = None -> fsm_get_state key w = None.
Proof. unfold fsm_get_state, get_session. intros ->. reflexivity. Qed.

(** ** Access control *)

(** C1: for every non-administrator, in every world the bot can reach, the
    admin command, the broadcast button and the set-payment-details button
    each produce exactly one access-denied notice and leave the whole world
    (conversation store and both tables) as it was; and that non-administrator
    has no conversation record, before and after. *)
Theorem C1_non_admin_denied (w : world) (env : oracle) (utcnow : pystr) :
  reachable w ->
  (forall m, user_id (msg_from m) <> ADMIN_ID ->
     on_command (lit "admin") m = Ok true ->
     (run env (dispatch utcnow (Message m)) w).1 =
     ([SendMessage (msg_chat m) (lit "Доступ запрещён.") None None
         (Some (message_id m))], w))
  /\ (forall cb, user_id (cb_from cb) <> ADMIN_ID ->
      cb_data cb = Some (lit "admin_broadcast")
      \/ cb_data cb = Some (lit "admin_set_card") ->
      (run env (dispatch utcnow (CallbackQuery cb)) w).1 =
      ([AnswerCallbackQuery (cb_id cb) (Some (lit "Нет доступа")) true], w))
  /\ (forall chat uid, uid <> ADMIN_ID ->
      fsm w !! (chat, uid) = None /\ fsm_get_state (chat, uid) w = None).
Proof.
  intros Hreach. pose proof (reachable_non_admin_idle w Hreach) as Hidle.
  split; [|split].
  - intros m Hne Hcmd. unfold run.
    rewrite route_cmd_admin; [|apply idle_get_state, Hidle, Hne|exact Hcmd].
    unfold cmd_admin. apply Z.eqb_neq in Hne. rewrite Hne. cbn.
    destruct (env 0%nat _); reflexivity.
  - intros cb Hne Hdata. unfold run.
    assert (Hst : fsm_get_state (cb_key cb) w = None) by apply idle_get_state, Hidle, Hne.
    apply Z.eqb_neq in Hne.
    destruct Hdata as [Hdata|Hdata].
    + rewrite route_admin_broadcast by assumption.
      unfold admin_broadcast. rewrite Hne. cbn. destruct (env 0%nat _); reflexivity.
    + rewrite route_admin_set_card by assumption.
      unfold admin_set_card. rewrite Hne. cbn. destruct (env 0%nat _); reflexivity.
  - intros chat uid Hne. split; [|apply idle_get_state]; apply Hidle, Hne.
Qed.

(** ** The broadcast loop *)

Lemma count_accepted_cons (r : reply) (rs : list reply) :
  count_accepted (r :: rs) = ((if is_accepted r then 1 else 0) + count_accepted rs)%N.
Proof.
  unfold count_accepted. rewrite filter_cons.
  destruct r; cbn; destruct (decide _); try congruence; cbn [length]; lia.
Qed.

Lemma count_refused_cons (r : reply) (rs : list reply) :
  count_refused (r :: rs) = ((if is_accepted r then 0 else 1) + count_refused rs)%N.
Proof.
  unfold count_refused. rewrite filter_cons.
  destruct r; cbn; destruct (decide _); try congruence; cbn [length]; lia.
Qed.

Lemma count_total (rs : list reply) :
  (count_accepted rs + count_refused rs)%N = N.of_nat (length rs).
Proof.
  induction rs as [|r rs IH]; [reflexivity|].
  rewrite count_accepted_cons, count_refused_cons. cbn [length].
  destruct r; cbn [is_accepted]; lia.
Qed.

Lemma deliveries_length env n text uids : length (deliveries env n text uids) = length uids.
Proof. revert n. induction uids as [|u us IH]; intros n; cbn; [|rewrite IH]; reflexivity. Qed.

Ltac coro_unfold :=
  unfold mbind, coro_bind, mret, coro_ret, raise, read, write, await_api,
    await_sleep, await_read, await_write.

Lemma broadcast_loop_run (env : oracle) (text : pystr) (uids : list Z) :
  forall n sent failed w,
  run_step env n (broadcast_loop text uids sent failed w) =
  (map (send_to text) uids,
   log_failures uids (deliveries env n text uids) w,
   Ok ((sent + count_accepted (deliveries env n text uids))%N,
       (failed + count_refused (deliveries env n text uids))%N)).
Proof.
  induction uids as [|uid rest IH]; intros n sent failed w.
  - cbn. rewrite !N.add_0_r. reflexivity.
  - cbn [broadcast_loop deliveries map]. unfold mbind, coro_bind.
    rewrite run_step_bind, count_accepted_cons, count_refused_cons.
    unfold broadcast_one, bot_send_message, try_except. coro_unfold.
    cbn [bind_step catch_step run_step]. fold (send_to text uid).
    destruct (env n (send_to text uid)) as [|d];
      cbn [bind_step catch_step run_step length is_accepted log_failures str_of_exn];
      replace (n + 1)%nat with (S n) by lia; rewrite IH;
      rewrite ?N.add_0_l, ?N.add_assoc; reflexivity.
Qed.

Lemma route_broadcast_confirm (cb : callback_query) (w : world) utcnow :
  fsm_get_state (cb_key cb) w = Some waiting_broadcast_confirm ->
  cb_data cb = Some (lit "broadcast_confirm") ->
  dispatch utcnow (CallbackQuery cb) w = broadcast_confirm_or_cancel cb w.
Proof.
  intros Hst Hdata. cbn [dispatch]. rewrite Hst.
  unfold callback_query_handlers.
  cbn [notify h_state h_filter h_body state_filter fsm_state_eqb].
  eval_data_filters Hdata. reflexivity.
Qed.

(** One confirmed broadcast, from the button press to the report. *)
Lemma broadcast_confirm_run (env : oracle) (cb : callback_query) (w : world) :
  user_id (cb_from cb) = ADMIN_ID ->
  cb_data cb = Some (lit "broadcast_confirm") ->
  env 0%nat (AnswerCallbackQuery (cb_id cb) (Some (lit "Запуск рассылки...")) false)
  = Accepted ->
  let text := dict_get (fsm_get_data (cb_key cb) w) K_broadcast_text in
  let ids := db_get_all_user_ids w in
  let rs := deliveries env 1 text ids in
  let report := send_to (report_text (count_accepted rs) (count_refused rs)) ADMIN_ID in
  let w1 := log_failures ids rs w in
  run_step env 0 (broadcast_confirm_or_cancel cb w) =
  (AnswerCallbackQuery (cb_id cb) (Some (lit "Запуск рассылки...")) false
     :: map (send_to text) ids ++ [report],
   match env (S (length ids)) report with
   | Accepted => fsm_finish (cb_key cb) w1
   | Refused _ => w1
   end,
   match env (S (length ids)) report with
   | Accepted => Ok tt
   | Refused d => Exc (ApiError d)
   end).
Proof.
  intros Hadmin Hdata Henv text ids rs report w1.
  unfold broadcast_confirm_or_cancel. rewrite Hadmin, Z.eqb_refl, Hdata. cbn [negb].
  replace (pystr_eqb (default [] (Some (lit "broadcast_confirm"))) (lit "broadcast_cancel"))
    with false by (vm_compute; reflexivity).
  unfold state_get_data, cb_answer, bot_send_message, state_finish. coro_unfold.
  cbn [bind_step run_step]. rewrite Henv. cbn [bind_step run_step].
  rewrite run_step_bind, broadcast_loop_run. fold text ids rs.
  rewrite !N.add_0_l, length_map. cbn [bind_step run_step Nat.add].
  fold (send_to (report_text (count_accepted rs) (count_refused rs)) ADMIN_ID). fold report.
  destruct (env _ report); reflexivity.
Qed.

Lemma startswith_app (p s : pystr) : startswith p (p ++ s) = true.
Proof. induction p as [|c p IH]; [reflexivity|]. cbn. rewrite N.eqb_refl. exact IH. Qed.

Lemma contains_app (p a b : pystr) : contains p (a ++ p ++ b) = true.
Proof.
  induction a as [|c a IH].
  - cbn [app]. destruct (p ++ b) eqn:E; cbn [contains]; rewrite <- E, startswith_app;
      reflexivity.
  - cbn [app contains]. rewrite IH. apply orb_true_r.
Qed.

Lemma report_text_counts (sent failed : N) :
  contains (str_of_N sent) (report_text sent failed) = true
  /\ contains (str_of_N failed) (report_text sent failed) = true.
Proof.
  unfold report_text. split.
  - apply contains_app.
  - rewrite !(assoc_L app _ _ (str_of_N failed ++ _)).
    rewrite (assoc_L app (lit "Готово. Отправлено: ")). apply contains_app.
Qed.

Lemma db_get_all_user_ids_NoDup (w : world) : NoDup (db_get_all_user_ids w).
Proof. apply NoDup_fst_map_to_list. Qed.

Lemma db_get_all_user_ids_spec (w : world) (uid : Z) :
  uid ∈ db_get_all_user_ids w <-> is_Some (users w !! uid).
Proof.
  unfold db_get_all_user_ids. rewrite list_elem_of_fmap. split.
  - intros [[k row] [-> Hin]]. apply elem_of_map_to_list in Hin. eauto.
  - intros [row Hrow]. exists (uid, row). split; [reflexivity|].
    apply elem_of_map_to_list, Hrow.
Qed.

(** ** Broadcast dispatch *)

(** C2: whatever the recipient list and whatever the platform answers to each
    delivery, the loop makes one call per recipient, in order, and returns
    normally with [sent] raised by the number of accepted deliveries and
    [failed] by the number of refused ones; and when the user table lists five
    identities and exactly the third delivery is refused, the confirmed
    dispatch calls all five and reports 4 sent and 1 not delivered. *)
Theorem C2_failure_counted_not_aborting :
  (forall (env : oracle) n text uids sent failed w,
     let rs := deliveries env n text uids in
     run_step env n (broadcast_loop text uids sent failed w) =
     (map (send_to text) uids, log_failures uids rs w,
      Ok ((sent + count_accepted rs)%N, (failed + count_refused rs)%N))
     /\ (count_accepted rs + count_refused rs)%N = N.of_nat (length uids))
  /\ (forall (env : oracle) utcnow cb w u1 u2 u3 u4 u5 d,
      user_id (cb_from cb) = ADMIN_ID ->
      fsm_get_state (cb_key cb) w = Some waiting_broadcast_confirm ->
      cb_data cb = Some (lit "broadcast_confirm") ->
      env 0%nat (AnswerCallbackQuery (cb_id cb) (Some (lit "Запуск рассылки...")) false)
      = Accepted ->
      db_get_all_user_ids w = [u1; u2; u3; u4; u5] ->
      deliveries env 1 (dict_get (fsm_get_data (cb_key cb) w) K_broadcast_text)
        [u1; u2; u3; u4; u5]
      = [Accepted; Accepted; Refused d; Accepted; Accepted] ->
      (run env (dispatch utcnow (CallbackQuery cb)) w).1.1 =
      AnswerCallbackQuery (cb_id cb) (Some (lit "Запуск рассылки...")) false
        :: map (send_to (dict_get (fsm_get_data (cb_key cb) w) K_broadcast_text))
             [u1; u2; u3; u4; u5]
        ++ [send_to (report_text 4 1) ADMIN_ID]).
Proof.
  split.
  - intros env n text uids sent failed w rs. split.
    + apply broadcast_loop_run.
    + unfold rs. rewrite count_total, deliveries_length. reflexivity.
  - intros env utcnow cb w u1 u2 u3 u4 u5 d Hadmin Hst Hdata Henv Hids Hrs.
    unfold run. rewrite route_broadcast_confirm by assumption.
    rewrite broadcast_confirm_run by assumption. rewrite Hids, Hrs. reflexivity.
Qed.

(** C6, as the code has it: the completion report is the last call of a
    confirmed dispatch, goes to the administrator, and is the fixed wording
    around the count sent and the count failed, both of which it therefore
    contains; the two add up to the number of recipients attempted, which is
    not itself part of the text. *)
Theorem C6_report_sent_and_failed (env : oracle) utcnow cb w :
  user_id (cb_from cb) = ADMIN_ID ->
  fsm_get_state (cb_key cb) w = Some waiting_broadcast_confirm ->
  cb_data cb = Some (lit "broadcast_confirm") ->
  env 0%nat (AnswerCallbackQuery (cb_id cb) (Some (lit "Запуск рассылки...")) false)
  = Accepted ->
  let ids := db_get_all_user_ids w in
  let rs := deliveries env 1 (dict_get (fsm_get_data (cb_key cb) w) K_broadcast_text) ids in
  let sent := count_accepted rs in
  let failed := count_refused rs in
  last (run env (dispatch utcnow (CallbackQuery cb)) w).1.1
  = Some (send_to (lit "Готово. Отправлено: " ++ str_of_N sent
                   ++ lit ". Не доставлено: " ++ str_of_N failed ++ lit ".") ADMIN_ID)
  /\ contains (str_of_N sent) (report_text sent failed) = true
  /\ contains (str_of_N failed) (report_text sent failed) = true
  /\ (sent + failed)%N = N.of_nat (length ids).
Proof.
  intros Hadmin Hst Hdata Henv ids rs sent failed.
  unfold run. rewrite route_broadcast_confirm by assumption.
  rewrite broadcast_confirm_run by assumption. cbn [fst].
  split; [|split; [|split]].
  - rewrite app_comm_cons, last_snoc. reflexivity.
  - apply report_text_counts.
  - apply report_text_counts.
  - unfold sent, failed, rs. rewrite count_total, deliveries_length. reflexivity.
Qed.

(** C10: a confirmed dispatch calls the platform once for each entry of the
    user-id listing, in order, between the start notice and the report; the
    listing holds every registered identity and none twice; and the reported
    counts add up to its length. *)
Theorem C10_each_registered_user_once (env : oracle) utcnow cb w :
  user_id (cb_from cb) = ADMIN_ID ->
  fsm_get_state (cb_key cb) w = Some waiting_broadcast_confirm ->
  cb_data cb = Some (lit "broadcast_confirm") ->
  env 0%nat (AnswerCallbackQuery (cb_id cb) (Some (lit "Запуск рассылки...")) false)
  = Accepted ->
  let text := dict_get (fsm_get_data (cb_key cb) w) K_broadcast_text in
  let ids := db_get_all_user_ids w in
  exists sent failed : N,
    (run env (dispatch utcnow (CallbackQuery cb)) w).1.1 =
    AnswerCallbackQuery (cb_id cb) (Some (lit "Запуск рассылки...")) false
      :: map (send_to text) ids ++ [send_to (report_text sent failed) ADMIN_ID]
    /\ (sent + failed)%N = N.of_nat (length ids)
    /\ NoDup ids
    /\ NoDup (map (send_to text) ids)
    /\ (forall uid, uid ∈ ids <-> is_Some (users w !! uid)).
Proof.
  intros Hadmin Hst Hdata Henv text ids.
  exists (count_accepted (deliveries env 1 text ids)),
         (count_refused (deliveries env 1 text ids)).
  unfold run. rewrite route_broadcast_confirm by assumption.
  rewrite broadcast_confirm_run by assumption. cbn [fst].
  split; [reflexivity|]. split; [rewrite count_total, deliveries_length; reflexivity|].
  split; [apply db_get_all_user_ids_NoDup|].
  split; [|apply db_get_all_user_ids_spec].
  assert (Hinj : Inj eq eq (send_to text)) by (intros a b [= ->]; reflexivity).
  apply (NoDup_fmap_2 (send_to text)), db_get_all_user_ids_NoDup.
Qed.

(** ** The admin text flows *)

Lemma truthy_Some (t : pystr) : t <> [] -> truthy (Some t) = true.
Proof. destruct t; [congruence|reflexivity]. Qed.

Lemma route_receive_broadcast_text (m : message) (w : world) utcnow t :
  fsm_get_state (msg_key m) w = Some waiting_broadcast_text ->
  msg_text m = Some t -> t <> [] ->
  dispatch utcnow (Message m) w = receive_broadcast_text m w.
Proof.
  intros Hst Ht Hne. cbn [dispatch]. rewrite Hst. unfold message_handlers.
  cbn [notify h_state h_filter h_body state_filter fsm_state_eqb].
  unfold content_text. rewrite Ht, truthy_Some by exact Hne. reflexivity.
Qed.

Lemma route_receive_card_number (m : message) (w : world) utcnow t :
  fsm_get_state (msg_key m) w = Some waiting_card_number ->
  msg_text m = Some t -> t <> [] ->
  dispatch utcnow (Message m) w = receive_card_number m w.
Proof.
  intros Hst Ht Hne. cbn [dispatch]. rewrite Hst. unfold message_handlers.
  cbn [notify h_state h_filter h_body state_filter fsm_state_eqb].
  unfold content_text. rewrite Ht, truthy_Some by exact Hne. reflexivity.
Qed.

Lemma route_receive_recipient_fio (m : message) (w : world) utcnow t :
  fsm_get_state (msg_key m) w = Some waiting_recipient_fio ->
  msg_text m = Some t -> t <> [] ->
  dispatch utcnow (Message m) w = receive_recipient_fio m w.
Proof.
  intros Hst Ht Hne. cbn [dispatch]. rewrite Hst. unfold message_handlers.
  cbn [notify h_state h_filter h_body state_filter fsm_state_eqb].
  unfold content_text. rewrite Ht, truthy_Some by exact Hne. reflexivity.
Qed.

Lemma get_session_insert (key : Z * Z) (s : session) (w : world) f :
  f (fsm w) = <[key := s]> (fsm w) ->
  get_session key (set_fsm f w) = s.
Proof. intros E. unfold get_session. cbn. rewrite E, lookup_insert_eq. reflexivity. Qed.

Lemma fsm_get_data_update (key : Z * Z) (k v : pystr) (w : world) :
  fsm_get_data key (fsm_update_data key k v w) = <[k := v]> (fsm_get_data key w).
Proof.
  unfold fsm_get_data, fsm_update_data.
  erewrite get_session_insert by reflexivity. reflexivity.
Qed.

Lemma fsm_get_data_set_state (key : Z * Z) s (w : world) :
  fsm_get_data key (fsm_set_state key s w) = fsm_get_data key w.
Proof.
  unfold fsm_get_data, fsm_set_state.
  erewrite get_session_insert by reflexivity. reflexivity.
Qed.

Lemma fsm_get_state_set_state (key : Z * Z) s (w : world) :
  fsm_get_state key (fsm_set_state key s w) = s.
Proof.
  unfold fsm_get_state, fsm_set_state.
  erewrite get_session_insert by reflexivity. reflexivity.
Qed.

Lemma dict_get_insert (d : gmap pystr pystr) (k v : pystr) : dict_get (<[k := v]> d) k = v.
Proof. unfold dict_get. rewrite lookup_insert_eq. reflexivity. Qed.

(** What each of the three text handlers does for the administrator. *)
Lemma receive_broadcast_text_run (env : oracle) (m : message) (w : world) t :
  user_id (msg_from m) = ADMIN_ID -> msg_text m = Some t ->
  let text := slice_to 4000 t in
  let preview := SendMessage (msg_chat m)
    (lit "Предпросмотр рассылки:" ++ nl ++ nl ++ text) None
    (Some broadcast_preview_keyboard) (Some (message_id m)) in
  let w1 := fsm_update_data (msg_key m) K_broadcast_text text w in
  run_step env 0 (receive_broadcast_text m w) =
  ([preview],
   match env 0%nat preview with
   | Accepted => fsm_set_state (msg_key m) (Some waiting_broadcast_confirm) w1
   | Refused _ => w1
   end,
   match env 0%nat preview with
   | Accepted => Ok tt
   | Refused d => Exc (ApiError d)
   end).
Proof.
  intros Hadmin Ht text preview w1.
  unfold receive_broadcast_text. rewrite Hadmin, Z.eqb_refl, Ht. cbn [negb].
  change (default [] (Some t)) with t.
  unfold state_update_data, message_reply, state_set. coro_unfold.
  cbn [bind_step run_step]. fold text. fold preview. fold w1.
  destruct (env 0%nat preview); reflexivity.
Qed.

Lemma receive_card_number_run (env : oracle) (m : message) (w : world) t :
  user_id (msg_from m) = ADMIN_ID -> msg_text m = Some t ->
  let prompt := SendMessage (msg_chat m) (lit "Теперь укажите ФИО получателя:") None None
    (Some (message_id m)) in
  let w1 := fsm_update_data (msg_key m) K_card_number (strip t) w in
  run_step env 0 (receive_card_number m w) =
  ([prompt],
   match env 0%nat prompt with
   | Accepted => fsm_set_state (msg_key m) (Some waiting_recipient_fio) w1
   | Refused _ => w1
   end,
   match env 0%nat prompt with
   | Accepted => Ok tt
   | Refused d => Exc (ApiError d)
   end).
Proof.
  intros Hadmin Ht prompt w1.
  unfold receive_card_number. rewrite Hadmin, Z.eqb_refl, Ht. cbn [negb].
  change (default [] (Some t)) with t.
  unfold state_update_data, message_reply, state_set. coro_unfold.
  cbn [bind_step run_step]. fold prompt. fold w1.
  destruct (env 0%nat prompt); reflexivity.
Qed.

Lemma receive_recipient_fio_run (env : oracle) (m : message) (w : world) t :
  user_id (msg_from m) = ADMIN_ID -> msg_text m = Some t ->
  let card := dict_get (fsm_get_data (msg_key m) w) K_card_number in
  let fio := strip t in
  let done := SendMessage (msg_chat m)
    (lit "Реквизиты обновлены:" ++ nl ++ card ++ nl ++ fio) None None
    (Some (message_id m)) in
  let w1 := db_set_setting K_recipient_fio fio (db_set_setting K_card_number card w) in
  run_step env 0 (receive_recipient_fio m w) =
  ([done],
   match env 0%nat done with
   | Accepted => fsm_finish (msg_key m) w1
   | Refused _ => w1
   end,
   match env 0%nat done with
   | Accepted => Ok tt
   | Refused d => Exc (ApiError d)
   end).
Proof.
  intros Hadmin Ht card fio done w1.
  unfold receive_recipient_fio. rewrite Hadmin, Z.eqb_refl, Ht. cbn [negb].
  change (default [] (Some t)) with t.
  unfold state_get_data, message_reply, state_finish. coro_unfold.
  cbn [bind_step run_step]. fold card. fold fio. fold done. fold w1.
  destruct (env 0%nat done); reflexivity.
Qed.

(** C4: the draft stored for the broadcast is the first 4000 characters of
    the text the administrator sent: exactly 4000 of them when the text is
    longer than that, the whole text otherwise. *)
Theorem C4_broadcast_draft_truncated (env : oracle) utcnow (m : message) (w : world) t :
  user_id (msg_from m) = ADMIN_ID ->
  fsm_get_state (msg_key m) w = Some waiting_broadcast_text ->
  msg_text m = Some t -> t <> [] ->
  let w' := (run env (dispatch utcnow (Message m)) w).1.2 in
  let draft := dict_get (fsm_get_data (msg_key m) w') K_broadcast_text in
  draft = firstn 4000 t
  /\ ((4000 < length t)%nat -> length draft = 4000%nat)
  /\ ((length t <= 4000)%nat -> draft = t).
Proof.
  intros Hadmin Hst Ht Hne w' draft.
  assert (Hdraft : draft = firstn 4000 t).
  { unfold draft, w', run. rewrite (route_receive_broadcast_text m w utcnow t) by assumption.
    rewrite (receive_broadcast_text_run env m w t) by assumption. cbn [fst snd].
    destruct (env 0%nat _);
      rewrite ?fsm_get_data_set_state, fsm_get_data_update, dict_get_insert; reflexivity. }
  split; [exact Hdraft|]. rewrite Hdraft. split; intros Hlen.
  - rewrite length_take. lia.
  - apply firstn_all2, Hlen.
Qed.

Lemma db_get_setting_set (k v : pystr) (w : world) :
  db_get_setting k (db_set_setting k v w) = v.
Proof. unfold db_get_setting, db_set_setting. cbn. rewrite lookup_insert_eq. reflexivity. Qed.

Lemma db_get_setting_set_ne (k k' v : pystr) (w : world) :
  k <> k' -> db_get_setting k' (db_set_setting k v w) = db_get_setting k' w.
Proof.
  intros Hne. unfold db_get_setting, db_set_setting. cbn.
  rewrite lookup_insert_ne by exact Hne. reflexivity.
Qed.

Lemma db_get_setting_same_settings (k : pystr) (w w' : world) :
  settings w' = settings w -> db_get_setting k w' = db_get_setting k w.
Proof. unfold db_get_setting. intros ->. reflexivity. Qed.

Lemma db_get_setting_finish (k : pystr) (key : Z * Z) (w : world) :
  db_get_setting k (fsm_finish key w) = db_get_setting k w.
Proof. reflexivity. Qed.

Lemma K_card_number_ne_fio : K_card_number <> K_recipient_fio.
Proof. vm_compute. discriminate. Qed.

(** C9, as the code has it: while the administrator's conversation is in one
    of the three text-awaiting states, every text message of the
    administrator goes to that state's handler and is used as the expected
    text, a slash-style command like any other text: it becomes the broadcast
    draft (cut at 4000), the payment-identifier draft (trimmed), or the
    persisted recipient name (trimmed). *)
Theorem C9_any_text_is_consumed (env : oracle) utcnow (m : message) (w : world) t :
  user_id (msg_from m) = ADMIN_ID ->
  msg_text m = Some t -> t <> [] ->
  let w' := (run env (dispatch utcnow (Message m)) w).1.2 in
  (fsm_get_state (msg_key m) w = Some waiting_broadcast_text ->
   dispatch utcnow (Message m) w = receive_broadcast_text m w
   /\ dict_get (fsm_get_data (msg_key m) w') K_broadcast_text = slice_to 4000 t)
  /\ (fsm_get_state (msg_key m) w = Some waiting_card_number ->
      dispatch utcnow (Message m) w = receive_card_number m w
      /\ dict_get (fsm_get_data (msg_key m) w') K_card_number = strip t)
  /\ (fsm_get_state (msg_key m) w = Some waiting_recipient_fio ->
      dispatch utcnow (Message m) w = receive_recipient_fio m w
      /\ db_get_setting K_recipient_fio w' = strip t).
Proof.
  intros Hadmin Ht Hne w'. unfold w', run. split; [|split]; intros Hst.
  - rewrite (route_receive_broadcast_text m w utcnow t) by assumption.
    split; [reflexivity|].
    rewrite (receive_broadcast_text_run env m w t) by assumption. cbn [fst snd].
    destruct (env 0%nat _);
      rewrite ?fsm_get_data_set_state, fsm_get_data_update, dict_get_insert; reflexivity.
  - rewrite (route_receive_card_number m w utcnow t) by assumption.
    split; [reflexivity|].
    rewrite (receive_card_number_run env m w t) by assumption. cbn [fst snd].
    destruct (env 0%nat _);
      rewrite ?fsm_get_data_set_state, fsm_get_data_update, dict_get_insert; reflexivity.
  - rewrite (route_receive_recipient_fio m w utcnow t) by assumption.
    split; [reflexivity|].
    rewrite (receive_recipient_fio_run env m w t) by assumption. cbn [fst snd].
    destruct (env 0%nat _);
      rewrite ?db_get_setting_finish;
      apply db_get_setting_set.
Qed.

(** ** Unrecognised input *)

Lemma route_catch_all (m : message) (w : world) utcnow :
  fsm_get_state (msg_key m) w = None ->
  on_command (lit "start") m = Ok false ->
  on_command (lit "admin") m = Ok false ->
  dispatch utcnow (Message m) w = catch_all m w.
Proof.
  intros Hst Hs Ha. cbn [dispatch]. rewrite Hst. unfold message_handlers.
  cbn [notify h_state h_filter h_body state_filter]. rewrite Hs, Ha. reflexivity.
Qed.

(** C8, as the code has it: a message that arrives while its sender has no
    conversation state and that is neither the start nor the admin command is
    answered with the fallback notice pointing to /start, unless its text
    begins with a slash, in which case nothing at all is sent; either way the
    world is left as it was. *)
Theorem C8_fallback_unless_slash (env : oracle) utcnow (m : message) (w : world) :
  fsm_get_state (msg_key m) w = None ->
  on_command (lit "start") m = Ok false ->
  on_command (lit "admin") m = Ok false ->
  (run env (dispatch utcnow (Message m)) w).1 =
  (if truthy (msg_text m) && startswith (lit "/") (default [] (msg_text m))
   then []
   else [SendMessage (msg_chat m)
           (lit "Команда не распознана. Нажмите /start чтобы вернуться в начало.")
           None None (Some (message_id m))],
   w).
Proof.
  intros Hst Hs Ha. unfold run. rewrite route_catch_all by assumption.
  unfold catch_all. destruct (truthy (msg_text m) && _).
  - reflexivity.
  - unfold message_reply. coro_unfold. cbn [run_step].
    destruct (env 0%nat _); reflexivity.
Qed.

(** ** Payment details *)

Ltac settings_side := intros ?; unfold carries; intros H; exact H.

Lemma message_handlers_settings S utcnow (m : message) :
  user_id (msg_from m) <> ADMIN_ID ->
  Forall (fun h => keeps (carries (settings_are S)) any_call (h_body h m))
    (message_handlers utcnow).
Proof.
  intros Hne. apply Z.eqb_neq in Hne.
  unfold message_handlers.
  repeat (apply Forall_cons_2; [cbn [h_body]|]); [..|apply Forall_nil_2].
  - unfold cmd_start; unfold_api. keeps_tac settings_side any_call_side.
  - unfold cmd_admin; unfold_api. rewrite Hne; cbn [negb]. keeps_tac settings_side any_call_side.
  - unfold receive_broadcast_text; unfold_api. rewrite Hne; cbn [negb]. keeps_tac settings_side any_call_side.
  - unfold receive_card_number; unfold_api. rewrite Hne; cbn [negb]. keeps_tac settings_side any_call_side.
  - unfold receive_recipient_fio; unfold_api. rewrite Hne; cbn [negb]. keeps_tac settings_side any_call_side.
  - unfold catch_all; unfold_api. keeps_tac settings_side any_call_side.
Qed.

Lemma callback_query_handlers_settings S (c : callback_query) :
  Forall (fun h => keeps (carries (settings_are S)) any_call (h_body h c))
    callback_query_handlers.
Proof.
  unfold callback_query_handlers. each_handler.
  - unfold process_buy; unfold_api. keeps_tac settings_side any_call_side.
  - unfold process_subject; unfold_api. keeps_tac settings_side any_call_side.
  - unfold process_school; unfold_api. keeps_tac settings_side any_call_side.
  - unfold back_subjects; unfold_api. keeps_tac settings_side any_call_side.
  - unfold back_start; unfold_api. keeps_tac settings_side any_call_side.
  - unfold admin_broadcast; unfold_api. keeps_tac settings_side any_call_side.
  - unfold broadcast_confirm_or_cancel; unfold_api. keeps_tac settings_side any_call_side.
    apply broadcast_loop_keeps; [apply _|]. intros line w H. exact H.
  - unfold admin_set_card; unfold_api. keeps_tac settings_side any_call_side.
Qed.

(** Only a message of the administrator can change the settings table. *)
Lemma quiet_keeps_settings S utcnow (u : update) :
  quiet u -> keeps (carries (settings_are S)) any_call (dispatch utcnow u).
Proof.
  intros Hq. apply dispatch_keeps; [apply _| |].
  - intros m ->. apply message_handlers_settings, Hq.
  - intros c _. apply callback_query_handlers_settings.
Qed.

Lemma run_updates_quiet (env : oracle) (us : list (pystr * update)) (w : world) :
  Forall (fun u => quiet u.2) us -> settings (run_updates env us w).2 = settings w.
Proof.
  revert w. induction us as [|[utcnow u] us IH]; intros w Hq; [reflexivity|].
  apply Forall_cons_1 in Hq as [Hu Hus]. cbn [run_updates].
  pose proof (run_step_guarantees (carries (settings_are (settings w))) any_call env
                (dispatch utcnow u w) 0 w (quiet_keeps_settings _ utcnow u Hu w) eq_refl)
    as Hw.
  unfold run. destruct (run_step env 0 (dispatch utcnow u w)) as [[tr w'] r].
  specialize (IH w' Hus). destruct (run_updates env us w') as [trs w'']. cbn in *.
  rewrite IH. exact Hw.
Qed.

Lemma split_at_app (sep : N) (h t : pystr) :
  sep ∉ h -> split_at sep (h ++ sep :: t) = (h, Some t).
Proof.
  induction h as [|c h IH]; intros Hnot; cbn [app split_at].
  - rewrite N.eqb_refl. reflexivity.
  - apply not_elem_of_cons in Hnot as [Hc Hh].
    destruct (N.eqb_spec c sep) as [->|_]; [congruence|].
    rewrite IH by exact Hh. reflexivity.
Qed.

Lemma assoc_SUBJECTS_key (key title : pystr) (price : N) :
  assoc key SUBJECTS = Some (title, price) -> 124%N ∉ key.
Proof.
  unfold SUBJECTS. cbn [assoc]. unfold pystr_eqb.
  repeat (case_bool_decide as E; [intros _; rewrite <- E; compute_done|clear E]).
  discriminate.
Qed.

Lemma split_school_payload (key school : pystr) :
  124%N ∉ key ->
  split_max 124 2 (school_payload key school) = [lit "school"; key; school].
Proof.
  intros Hkey. unfold school_payload.
  change (lit "school|") with (lit "school" ++ [124%N]). change (lit "|") with [124%N].
  rewrite <- (assoc_L app (lit "school")). cbn [split_max app].
  rewrite split_at_app by compute_done.
  rewrite split_at_app by exact Hkey. reflexivity.
Qed.

Lemma route_process_school (cb : callback_query) (w : world) utcnow key school :
  fsm_get_state (cb_key cb) w = None ->
  cb_data cb = Some (school_payload key school) ->
  dispatch utcnow (CallbackQuery cb) w = process_school cb w.
Proof.
  intros Hst Hdata. cbn [dispatch]. rewrite Hst. unfold callback_query_handlers.
  cbn [notify h_state h_filter h_body state_filter].
  unfold data_is, data_startswith. rewrite Hdata. unfold school_payload.
  change (lit "school|") with ([115; 99; 104; 111; 111; 108; 124]%N).
  rewrite bool_decide_eq_false_2 by (intros [= H]; revert H; vm_compute; discriminate).
  change (lit "subj|") with ([115; 117; 98; 106; 124]%N).
  cbn [app truthy startswith default from_option id N.eqb Pos.eqb andb].
  reflexivity.
Qed.

Lemma process_school_run (env : oracle) (cb : callback_query) (w : world)
    key school title price :
  cb_data cb = Some (school_payload key school) ->
  assoc key SUBJECTS = Some (title, price) ->
  env 0%nat (AnswerCallbackQuery (cb_id cb) None false) = Accepted ->
  (run_step env 0 (process_school cb w)).1 =
  ([AnswerCallbackQuery (cb_id cb) None false;
    EditMessageText (cb_chat cb) (cb_message_id cb)
      (product_text title school price
         (db_get_setting K_card_number w) (db_get_setting K_recipient_fio w))
      Markdown (Some product_keyboard)],
   w).
Proof.
  intros Hdata Hassoc Henv.
  unfold process_school. rewrite Hdata.
  change (default [] (Some (school_payload key school))) with (school_payload key school).
  rewrite split_school_payload by (eapply assoc_SUBJECTS_key, Hassoc).
  unfold subject_lookup. rewrite Hassoc.
  unfold cb_answer, edit_message_text. coro_unfold.
  cbn [bind_step run_step]. rewrite Henv. cbn [bind_step run_step].
  destruct (env 1%nat _); reflexivity.
Qed.

(** The product text, spelled out: the card number and the recipient name
    stand on two lines of their own under the payment-details heading. *)
Lemma product_text_layout (title school : pystr) (price : N) (card fio : pystr) :
  product_text title school price card fio
  = lit "*Товар:* " ++ title ++ lit " — " ++ school ++ nl
    ++ lit "*Цена:* " ++ str_of_N price ++ lit "₽" ++ nl ++ nl
    ++ lit "*Реквизиты для оплаты:*" ++ nl ++ card ++ nl ++ fio ++ nl ++ nl
    ++ lit "После оплаты пришлите, пожалуйста, чек менеджеру @qwuzinw." ++ nl
    ++ lit "Мы пришлем доступ в течение рабочего времени.".
Proof.
  unfold product_text, MANAGER_USERNAME.
  change (lit "После оплаты пришлите, пожалуйста, чек менеджеру @qwuzinw.")
    with (lit "После оплаты пришлите, пожалуйста, чек менеджеру @" ++ lit "qwuzinw" ++ lit ".").
  rewrite <- !(assoc_L app). reflexivity.
Qed.

(** The product text contains the card number and the recipient name, one
    after the other under the payment-details heading. *)
Lemma product_text_shows (title school : pystr) (price : N) (card fio : pystr) :
  contains (lit "*Реквизиты для оплаты:*" ++ nl ++ card ++ nl ++ fio ++ nl)
    (product_text title school price card fio) = true
  /\ contains card (product_text title school price card fio) = true
  /\ contains fio (product_text title school price card fio) = true.
Proof.
  rewrite product_text_layout.
  set (tail := nl ++ lit "После оплаты пришлите, пожалуйста, чек менеджеру @qwuzinw." ++ nl
               ++ lit "Мы пришлем доступ в течение рабочего времени.").
  set (head := lit "*Товар:* " ++ title ++ lit " — " ++ school ++ nl
               ++ lit "*Цена:* " ++ str_of_N price ++ lit "₽" ++ nl ++ nl).
  split; [|split].
  - replace (lit "*Товар:* " ++ _)
      with (head ++ (lit "*Реквизиты для оплаты:*" ++ nl ++ card ++ nl ++ fio ++ nl) ++ tail)
      by (subst head tail; rewrite <- !(assoc_L app); reflexivity).
    apply contains_app.
  - replace (lit "*Товар:* " ++ _)
      with ((head ++ lit "*Реквизиты для оплаты:*" ++ nl) ++ card ++ (nl ++ fio ++ nl ++ tail))
      by (subst head tail; rewrite <- !(assoc_L app); reflexivity).
    apply contains_app.
  - replace (lit "*Товар:* " ++ _)
      with ((head ++ lit "*Реквизиты для оплаты:*" ++ nl ++ card ++ nl) ++ fio ++ (nl ++ tail))
      by (subst head tail; rewrite <- !(assoc_L app); reflexivity).
    apply contains_app.
Qed.

(** C3: when the administrator, asked for the payment identifier, sends one
    text and then, asked for the recipient name, a second one, the settings
    table ends up holding the first text trimmed under [card_number] and the
    second trimmed under [recipient_fio]; and after any further updates that
    are not messages of the administrator, a product-detail render for any
    user and any catalogue entry shows exactly these two values, read from
    the table at that moment: the text of the render, given here character
    for character, has the trimmed identifier and the trimmed name on the two
    lines under the payment-details heading, and so contains both. *)
Theorem C3_payment_details_persisted_and_shown
    (env1 env2 : oracle) now1 now2 (m1 m2 : message) (w : world) t1 t2 :
  user_id (msg_from m1) = ADMIN_ID ->
  msg_from m2 = msg_from m1 -> msg_chat m2 = msg_chat m1 ->
  fsm_get_state (msg_key m1) w = Some waiting_card_number ->
  msg_text m1 = Some t1 -> t1 <> [] ->
  msg_text m2 = Some t2 -> t2 <> [] ->
  env1 0%nat (SendMessage (msg_chat m1) (lit "Теперь укажите ФИО получателя:") None None
                (Some (message_id m1))) = Accepted ->
  let w1 := (run env1 (dispatch now1 (Message m1)) w).1.2 in
  let w2 := (run env2 (dispatch now2 (Message m2)) w1).1.2 in
  db_get_setting K_card_number w2 = strip t1
  /\ db_get_setting K_recipient_fio w2 = strip t2
  /\ forall (env3 : oracle) (later : list (pystr * update)),
     Forall (fun u => quiet u.2) later ->
     let w3 := (run_updates env3 later w2).2 in
     forall (env4 : oracle) now cb key school title price,
     fsm_get_state (cb_key cb) w3 = None ->
     cb_data cb = Some (school_payload key school) ->
     assoc key SUBJECTS = Some (title, price) ->
     env4 0%nat (AnswerCallbackQuery (cb_id cb) None false) = Accepted ->
     let text :=
       lit "*Товар:* " ++ title ++ lit " — " ++ school ++ nl
       ++ lit "*Цена:* " ++ str_of_N price ++ lit "₽" ++ nl ++ nl
       ++ lit "*Реквизиты для оплаты:*" ++ nl ++ strip t1 ++ nl ++ strip t2 ++ nl ++ nl
       ++ lit "После оплаты пришлите, пожалуйста, чек менеджеру @qwuzinw." ++ nl
       ++ lit "Мы пришлем доступ в течение рабочего времени." in
     (run env4 (dispatch now (CallbackQuery cb)) w3).1.1 =
     [AnswerCallbackQuery (cb_id cb) None false;
      EditMessageText (cb_chat cb) (cb_message_id cb) text Markdown (Some product_keyboard)]
     /\ contains (lit "*Реквизиты для оплаты:*" ++ nl ++ strip t1 ++ nl ++ strip t2 ++ nl)
          text = true
     /\ contains (strip t1) text = true
     /\ contains (strip t2) text = true.
Proof.
  intros Hadmin Hfrom Hchat Hst Ht1 Hne1 Ht2 Hne2 Henv1 w1 w2.
  assert (Hkey : msg_key m2 = msg_key m1) by (unfold msg_key; rewrite Hfrom, Hchat; reflexivity).
  assert (Hw1 : w1 = fsm_set_state (msg_key m1) (Some waiting_recipient_fio)
                       (fsm_update_data (msg_key m1) K_card_number (strip t1) w)).
  { unfold w1, run. rewrite (route_receive_card_number m1 w now1 t1) by assumption.
    rewrite (receive_card_number_run env1 m1 w t1) by assumption. cbn [fst snd].
    rewrite Henv1. reflexivity. }
  assert (Hcard : db_get_setting K_card_number w2 = strip t1
                  /\ db_get_setting K_recipient_fio w2 = strip t2).
  { unfold w2, run.
    rewrite (route_receive_recipient_fio m2 w1 now2 t2);
      [|rewrite Hkey, Hw1; apply fsm_get_state_set_state|assumption..].
    rewrite (receive_recipient_fio_run env2 m2 w1 t2);
      [|rewrite Hfrom; assumption|assumption]. cbn [fst snd].
    rewrite Hkey.
    assert (Hd : dict_get (fsm_get_data (msg_key m1) w1) K_card_number = strip t1).
    { rewrite Hw1, fsm_get_data_set_state, fsm_get_data_update. apply dict_get_insert. }
    rewrite Hd.
    destruct (env2 0%nat _);
      rewrite ?db_get_setting_finish;
      (split;
       [rewrite db_get_setting_set_ne by (apply not_eq_sym, K_card_number_ne_fio)|];
       apply db_get_setting_set). }
  destruct Hcard as [Hcard Hfio]. split; [exact Hcard|]. split; [exact Hfio|].
  intros env3 later Hquiet w3 env4 now cb key school title price Hidle Hdata Hassoc Henv4
    text.
  assert (Hsame : settings w3 = settings w2) by apply run_updates_quiet, Hquiet.
  unfold run. rewrite (route_process_school cb w3 now key school) by assumption.
  subst text. rewrite <- product_text_layout.
  split; [|apply product_text_shows].
  rewrite (process_school_run env4 cb w3 key school title price) by assumption.
  cbn [fst]. rewrite !(db_get_setting_same_settings _ _ w3 Hsame), Hcard, Hfio.
  reflexivity.
Qed.

(** ** The two writes of the payment details, under interleaving *)

Lemma guarantees_mono {A} (R R' : relation world) (G G' : world -> api_call -> Prop)
    (w0 : world) (s : step A) :
  (forall a b, R a b -> R' a b) -> (forall w c, G w c -> G' w c) ->
  guarantees R G w0 s -> guarantees R' G' w0 s.
Proof.
  intros HR HG. revert w0. induction s as [w r|w y k IH]; intros w0; cbn.
  - apply HR.
  - intros (H & Hy & Hk). split; [apply HR, H|]. split.
    + destruct y; [apply HG, Hy|exact I|exact I].
    + intros r w'. apply IH, Hk.
Qed.

Lemma keeps_read_bind {A B} (R : relation world) G (f : world -> A) (g : A -> coro B) :
  (forall w, guarantees R G w (g (f w) w)) -> keeps R G (read f ≫= g).
Proof. intros H w. apply H. Qed.

Lemma not_product_keyboard (kb : keyboard) :
  (row_width kb, length (inline_keyboard kb)) <> (1%nat, 2%nat) ->
  Some kb <> Some product_keyboard.
Proof. intros Hne [= ->]. apply Hne. reflexivity. Qed.

Ltac show_side :=
  intros ?; unfold shows_current, shows;
  first [ exact I
        | intros Hkb; exfalso; revert Hkb; apply not_product_keyboard;
          vm_compute; discriminate ].

Ltac same_store_side := intros ?; split; reflexivity.

Lemma process_school_shows_current (cb : callback_query) :
  keeps same_store shows_current (process_school cb).
Proof.
  unfold process_school; unfold_api.
  apply keeps_bind; [apply _|apply keeps_await_api; [apply _|show_side]|]. intros _.
  destruct (split_max 124 2 _) as [|x0 [|key [|school [|x3 l]]]];
    try (apply keeps_raise; apply _).
  destruct (assoc key SUBJECTS) as [[title price]|]; [|apply keeps_raise; apply _].
  change (mret (title, price) ≫= _)
    with (read (db_get_setting K_card_number) ≫= fun card =>
          read (db_get_setting K_recipient_fio) ≫= fun fio =>
          await_api (EditMessageText (cb_chat cb) (cb_message_id cb)
                       (product_text title school price card fio) Markdown
                       (Some product_keyboard))).
  apply keeps_read_bind. intros w. cbn. split; [reflexivity|]. split.
  - intros _. exists title, school, price. reflexivity.
  - intros [|d] w'; cbn; reflexivity.
Qed.

Lemma message_handlers_others utcnow (m : message) :
  user_id (msg_from m) <> ADMIN_ID ->
  Forall (fun h => keeps same_store shows_current (h_body h m)) (message_handlers utcnow).
Proof.
  intros Hne. apply Z.eqb_neq in Hne. unfold message_handlers. each_handler.
  - unfold cmd_start; unfold_api. keeps_tac same_store_side show_side.
  - unfold cmd_admin; unfold_api. rewrite Hne; cbn [negb].
    keeps_tac same_store_side show_side.
  - unfold receive_broadcast_text; unfold_api. rewrite Hne; cbn [negb].
    keeps_tac same_store_side show_side.
  - unfold receive_card_number; unfold_api. rewrite Hne; cbn [negb].
    keeps_tac same_store_side show_side.
  - unfold receive_recipient_fio; unfold_api. rewrite Hne; cbn [negb].
    keeps_tac same_store_side show_side.
  - unfold catch_all; unfold_api. keeps_tac same_store_side show_side.
Qed.

Lemma callback_query_handlers_others (c : callback_query) :
  user_id (cb_from c) <> ADMIN_ID ->
  Forall (fun h => keeps same_store shows_current (h_body h c)) callback_query_handlers.
Proof.
  intros Hne. apply Z.eqb_neq in Hne. unfold callback_query_handlers. each_handler.
  - unfold process_buy; unfold_api. keeps_tac same_store_side show_side.
  - unfold process_subject; unfold_api. keeps_tac same_store_side show_side.
  - apply process_school_shows_current.
  - unfold back_subjects; unfold_api. keeps_tac same_store_side show_side.
  - unfold back_start; unfold_api. keeps_tac same_store_side show_side.
  - unfold admin_broadcast; unfold_api. rewrite Hne; cbn [negb].
    keeps_tac same_store_side show_side.
  - unfold broadcast_confirm_or_cancel; unfold_api. rewrite Hne; cbn [negb].
    keeps_tac same_store_side show_side.
  - unfold admin_set_card; unfold_api. rewrite Hne; cbn [negb].
    keeps_tac same_store_side show_side.
Qed.

(** The handler of another user's update leaves the settings table and the
    conversation store alone, and whatever product details it renders are the
    ones in the table at that moment. *)
Lemma others_keep_store utcnow (u : update) :
  from_others u -> keeps same_store shows_current (dispatch utcnow u).
Proof.
  intros Hu. apply dispatch_keeps; [apply _| |].
  - intros m ->. apply message_handlers_others, Hu.
  - intros c ->. apply callback_query_handlers_others, Hu.
Qed.

Lemma same_store_settings (w w' : world) : same_store w w' -> same_settings w w'.
Proof. intros [Hs _]. exact Hs. Qed.

Lemma trace_emitted (P : api_call -> Prop) (tr : list api_call) (y : yield) :
  Forall P tr -> match y with Api c => P c | _ => True end -> Forall P (tr ++ emitted y).
Proof.
  intros Htr Hy. apply Forall_app. split; [exact Htr|].
  destruct y; cbn; [apply Forall_singleton, Hy|apply Forall_nil_2..].
Qed.


Lemma fsm_get_data_same_fsm (key : Z * Z) (w w' : world) :
  fsm w' = fsm w -> fsm_get_data key w' = fsm_get_data key w.
Proof. unfold fsm_get_data, get_session. intros ->. reflexivity. Qed.

Lemma fsm_get_state_same_fsm (key : Z * Z) (w w' : world) :
  fsm w' = fsm w -> fsm_get_state key w' = fsm_get_state key w.
Proof. unfold fsm_get_state, get_session. intros ->. reflexivity. Qed.


(** * Further properties of the code *)

(** ** The two tables *)

Lemma insert_or_ignore_lookup (k v k' : pystr) (t : gmap pystr pystr) :
  insert_or_ignore k v t !! k'
  = if decide (k = k') then Some (default v (t !! k)) else t !! k'.
Proof.
  unfold insert_or_ignore. destruct (t !! k) as [old|] eqn:E; cbn.
  - destruct (decide (k = k')) as [<-|_]; [exact E|reflexivity].
  - apply lookup_insert.
Qed.

(** X1: [init_db] seeds each of the two settings only where it is missing: a
    value already in the table is kept, a missing one reads as its
    placeholder afterwards, no other key and no user row is touched, and
    running it again changes nothing. *)
Theorem X1_init_db_seeds_missing_keys_only (w : world) :
  (forall v, settings w !! K_card_number = Some v ->
     db_get_setting K_card_number (init_db w) = v)
  /\ (settings w !! K_card_number = None ->
      db_get_setting K_card_number (init_db w) = lit "0000 0000 0000 0000")
  /\ (forall v, settings w !! K_recipient_fio = Some v ->
      db_get_setting K_recipient_fio (init_db w) = v)
  /\ (settings w !! K_recipient_fio = None ->
      db_get_setting K_recipient_fio (init_db w) = lit "Ф.И.О. Получателя")
  /\ (forall k, k <> K_card_number -> k <> K_recipient_fio ->
      settings (init_db w) !! k = settings w !! k)
  /\ users (init_db w) = users w
  /\ fsm (init_db w) = fsm w
  /\ init_db (init_db w) = init_db w.
Proof.
  assert (Hlook : forall k, settings (init_db w) !! k
            = if decide (K_recipient_fio = k)
              then Some (default (lit "Ф.И.О. Получателя") (settings w !! K_recipient_fio))
              else if decide (K_card_number = k)
              then Some (default (lit "0000 0000 0000 0000") (settings w !! K_card_number))
              else settings w !! k).
  { intros k. unfold init_db. cbn [settings set_settings].
    rewrite !insert_or_ignore_lookup.
    destruct (decide (K_recipient_fio = k)) as [<-|Hk]; [|reflexivity].
    rewrite decide_False by apply K_card_number_ne_fio. reflexivity. }
  unfold db_get_setting. repeat split.
  - intros v Hv. rewrite Hlook, decide_False by (apply not_eq_sym, K_card_number_ne_fio).
    rewrite decide_True, Hv by reflexivity. reflexivity.
  - intros Hv. rewrite Hlook, decide_False by (apply not_eq_sym, K_card_number_ne_fio).
    rewrite decide_True, Hv by reflexivity. reflexivity.
  - intros v Hv. rewrite Hlook, decide_True, Hv by reflexivity. reflexivity.
  - intros Hv. rewrite Hlook, decide_True, Hv by reflexivity. reflexivity.
  - intros k Hc Hf. rewrite Hlook, !decide_False by congruence. reflexivity.
  - assert (Hs : settings (init_db (init_db w)) = settings (init_db w)).
    { apply map_eq. intros k. unfold init_db at 1. cbn [settings set_settings].
      rewrite !insert_or_ignore_lookup, !Hlook.
      pose proof K_card_number_ne_fio as Hne.
      repeat case_decide; try congruence; reflexivity. }
    unfold init_db at 1, set_settings. fold (init_db w).
    change (insert_or_ignore _ _ (insert_or_ignore _ _ (settings (init_db w))))
      with (settings (init_db (init_db w))).
    rewrite Hs. destruct (init_db w). reflexivity.
Qed.

(** X2: the settings table is an overwrite-by-key store: a value set is the
    value read, setting one key leaves every other key as it was, a key that
    was never set reads as the empty string, the last of two writes to a key
    wins, and writing touches neither the users table nor the conversation
    store. *)
Theorem X2_settings_set_then_get (k k' v v' : pystr) (w : world) :
  db_get_setting k (db_set_setting k v w) = v
  /\ (k <> k' -> db_get_setting k' (db_set_setting k v w) = db_get_setting k' w)
  /\ (settings w !! k = None -> db_get_setting k w = [])
  /\ db_set_setting k v' (db_set_setting k v w) = db_set_setting k v' w
  /\ users (db_set_setting k v w) = users w
  /\ fsm (db_set_setting k v w) = fsm w.
Proof.
  unfold db_get_setting, db_set_setting, set_settings. cbn. repeat split.
  - rewrite lookup_insert_eq. reflexivity.
  - intros Hne. rewrite lookup_insert_ne by exact Hne. reflexivity.
  - intros ->. reflexivity.
  - rewrite insert_insert_eq. reflexivity.
Qed.

(** X3: registering a user is an upsert on the user id: afterwards the id is
    listed exactly once, every other id is listed as before, the listing grows
    by one for a new id and keeps its length for a known one, the row holds
    the new display fields and time stamp, and registering twice leaves what
    the second registration alone would. *)
Theorem X3_db_add_user_upserts (u : user) (t1 t2 : pystr) (w : world) :
  let w' := db_add_user u t1 w in
  user_id u ∈ db_get_all_user_ids w'
  /\ NoDup (db_get_all_user_ids w')
  /\ (forall i, i <> user_id u -> (i ∈ db_get_all_user_ids w' <-> i ∈ db_get_all_user_ids w))
  /\ (user_id u ∈ db_get_all_user_ids w ->
      length (db_get_all_user_ids w') = length (db_get_all_user_ids w))
  /\ (user_id u ∉ db_get_all_user_ids w ->
      length (db_get_all_user_ids w') = S (length (db_get_all_user_ids w)))
  /\ users w' !! user_id u
     = Some {| row_username := or_empty (username u); row_first_name := first_name u;
               row_last_name := or_empty (last_name u); row_registered_at := t1 |}
  /\ db_add_user u t2 (db_add_user u t1 w) = db_add_user u t2 w
  /\ settings w' = settings w.
Proof.
  intros w'. unfold w'.
  assert (Hlen : forall x, length (db_get_all_user_ids x) = size (users x)).
  { intros x. unfold db_get_all_user_ids. rewrite length_fmap. apply length_map_to_list. }
  repeat split.
  - apply db_get_all_user_ids_spec. cbn. rewrite lookup_insert_eq. eauto.
  - apply db_get_all_user_ids_NoDup.
  - rewrite !db_get_all_user_ids_spec. cbn. rewrite lookup_insert_ne by congruence. auto.
  - rewrite !db_get_all_user_ids_spec. cbn. rewrite lookup_insert_ne by congruence. auto.
  - rewrite db_get_all_user_ids_spec, !Hlen. cbn. apply map_size_insert_Some.
  - rewrite db_get_all_user_ids_spec, !Hlen, <- eq_None_not_Some. cbn.
    apply map_size_insert_None.
  - cbn. apply lookup_insert_eq.
  - unfold db_add_user, set_users. cbn. rewrite insert_insert_eq. reflexivity.
Qed.

Lemma route_cmd_start (m : message) (w : world) utcnow :
  fsm_get_state (msg_key m) w = None ->
  on_command (lit "start") m = Ok true ->
  dispatch utcnow (Message m) w = cmd_start utcnow m w.
Proof.
  intros Hst Hcmd. cbn [dispatch]. rewrite Hst. unfold message_handlers.
  cbn [notify h_state h_filter h_body state_filter]. rewrite Hcmd. reflexivity.
Qed.

(** X4: the start command from a sender with no conversation state registers
    the sender before anything is sent: whatever the platform answers, the
    only call is the welcome message with the start keyboard, and the world
    afterwards is the one before with the sender's row upserted. *)
Theorem X4_start_registers_then_welcomes (env : oracle) utcnow (m : message) (w : world) :
  fsm_get_state (msg_key m) w = None ->
  on_command (lit "start") m = Ok true ->
  (run env (dispatch utcnow (Message m)) w).1
  = ([SendMessage (msg_chat m) welcome_text Markdown (Some make_start_keyboard) None],
     db_add_user (msg_from m) utcnow w).
Proof.
  intros Hst Hcmd. unfold run. rewrite route_cmd_start by assumption.
  unfold cmd_start, message_answer. coro_unfold. cbn [bind_step run_step].
  destruct (env 0%nat _); reflexivity.
Qed.

(** ** What no handler does *)

#[local] Instance keeps_rows_preorder : PreOrder keeps_rows.
Proof.
  split.
  - intros w. split; intros ? H; exact H.
  - intros w1 w2 w3 [Hu12 Hs12] [Hu23 Hs23]. split; intros ? H; auto.
Qed.

Lemma run_updates_guarantees (R : relation world) `{!PreOrder R} G (env : oracle)
    (us : list (pystr * update)) (w : world) :
  Forall (fun u => keeps R G (dispatch u.1 u.2)) us -> R w (run_updates env us w).2.
Proof.
  revert w. induction us as [|[utcnow u] us IH]; intros w Hus; [reflexivity|].
  apply Forall_cons_1 in Hus as [Hu Hus]. cbn [run_updates].
  pose proof (run_step_guarantees R G env (dispatch utcnow u w) 0 w (Hu w)) as Hw.
  unfold run. destruct (run_step env 0 (dispatch utcnow u w)) as [[tr w'] r].
  specialize (IH w' Hus). destruct (run_updates env us w') as [trs w'']. cbn in *.
  etransitivity; eassumption.
Qed.

Lemma pool_guarantees (R : relation world) `{!PreOrder R} G
    (us : list (pystr * update)) (w : world) (c : config) :
  Forall (fun u => keeps R G (dispatch u.1 u.2)) us ->
  rtc sched (pool us w) c -> R w (cfg_world c).
Proof.
  intros Hus Hsteps.
  assert (Hinit : Forall (slot_guarantees R G) (cfg_tasks (pool us w))).
  { cbn. apply Forall_fmap. eapply Forall_impl; [exact Hus|]. intros u Hu r w'. apply Hu. }
  change w with (cfg_world (pool us w)) at 1.
  induction Hsteps as [c0|c0 c1 c2 Hstep _ IH]; [reflexivity|].
  destruct (sched_guarantees R G c0 c1 Hstep Hinit) as [H01 H1].
  etransitivity; [exact H01|]. apply IH, H1.
Qed.

Lemma is_Some_insert `{Countable K} {A} (m : gmap K A) (k j : K) (v : A) :
  is_Some (m !! j) -> is_Some (<[k := v]> m !! j).
Proof.
  intros Hj. destruct (decide (k = j)) as [->|Hkj].
  - rewrite lookup_insert_eq. eauto.
  - rewrite lookup_insert_ne by exact Hkj. exact Hj.
Qed.

Ltac rows_side :=
  intros ?; split; intros ? Hrow; cbn;
  first [exact Hrow | apply is_Some_insert; exact Hrow].

Lemma dispatch_keeps_rows utcnow (u : update) :
  keeps keeps_rows any_call (dispatch utcnow u).
Proof.
  apply dispatch_keeps; [apply _| |].
  - intros m _. unfold message_handlers. each_handler.
    + unfold cmd_start; unfold_api. keeps_tac rows_side any_call_side.
    + unfold cmd_admin; unfold_api. keeps_tac rows_side any_call_side.
    + unfold receive_broadcast_text; unfold_api. keeps_tac rows_side any_call_side.
    + unfold receive_card_number; unfold_api. keeps_tac rows_side any_call_side.
    + unfold receive_recipient_fio; unfold_api. keeps_tac rows_side any_call_side.
    + unfold catch_all; unfold_api. keeps_tac rows_side any_call_side.
  - intros c _. unfold callback_query_handlers. each_handler.
    + unfold process_buy; unfold_api. keeps_tac rows_side any_call_side.
    + unfold process_subject; unfold_api. keeps_tac rows_side any_call_side.
    + unfold process_school; unfold_api. keeps_tac rows_side any_call_side.
    + unfold back_subjects; unfold_api. keeps_tac rows_side any_call_side.
    + unfold back_start; unfold_api. keeps_tac rows_side any_call_side.
    + unfold admin_broadcast; unfold_api. keeps_tac rows_side any_call_side.
    + unfold broadcast_confirm_or_cancel; unfold_api.
      keeps_tac rows_side any_call_side.
      apply broadcast_loop_keeps; [apply _|]. intros line w. split; intros ? H; exact H.
    + unfold admin_set_card; unfold_api. keeps_tac rows_side any_call_side.
Qed.

(** X5: no handler ever deletes a row of either table: whoever is registered
    stays registered, and every settings key that is there stays there,
    through any sequence of updates handled one after the other and through
    any interleaving of their handlers, whatever the platform answers. *)
Theorem X5_rows_are_never_deleted (us : list (pystr * update)) (w : world) :
  (forall env : oracle, keeps_rows w (run_updates env us w).2)
  /\ (forall c, rtc sched (pool us w) c -> keeps_rows w (cfg_world c)).
Proof.
  assert (Hus : Forall (fun u => keeps keeps_rows any_call (dispatch u.1 u.2)) us).
  { apply Forall_forall. intros u _. apply dispatch_keeps_rows. }
  split.
  - intros env. exact (run_updates_guarantees keeps_rows any_call env us w Hus).
  - intros c Hc. exact (pool_guarantees keeps_rows any_call us w c Hus Hc).
Qed.

(** X6: updates sent by anyone but the administrator, handled one after the
    other or interleaved, change neither the settings table nor any
    conversation record. *)
Theorem X6_others_change_no_setting_no_session (us : list (pystr * update)) (w : world) :
  Forall (fun u => from_others u.2) us ->
  (forall env : oracle,
     settings (run_updates env us w).2 = settings w /\ fsm (run_updates env us w).2 = fsm w)
  /\ (forall c, rtc sched (pool us w) c ->
      settings (cfg_world c) = settings w /\ fsm (cfg_world c) = fsm w).
Proof.
  intros Hothers.
  assert (Hus : Forall (fun u => keeps same_store shows_current (dispatch u.1 u.2)) us).
  { eapply Forall_impl; [exact Hothers|]. intros [now u] Hu. apply others_keep_store, Hu. }
  split.
  - intros env. exact (run_updates_guarantees same_store shows_current env us w Hus).
  - intros c Hc. exact (pool_guarantees same_store shows_current us w c Hus Hc).
Qed.

(** X8: a non-administrator never gets a conversation record, also when the
    handlers of any updates run interleaved at their awaits. *)
Theorem X8_non_admin_idle_under_interleaving (us : list (pystr * update)) (w : world)
    (c : config) :
  non_admin_idle w -> rtc sched (pool us w) c -> non_admin_idle (cfg_world c).
Proof.
  intros Hidle Hc.
  refine (pool_guarantees (carries non_admin_idle) any_call us w c _ Hc Hidle).
  apply Forall_forall. intros [now u] _.
  apply dispatch_keeps; [apply _|intros; apply message_handlers_idle
                        |intros; apply callback_query_handlers_idle].
Qed.

Lemma notify_cons_keeps {E} (R : relation world) `{!PreOrder R} G
    (h : handler E) (hs : list (handler E)) st (e : E) :
  keeps R G (h_body h e) -> keeps R G (notify hs st e) -> keeps R G (notify (h :: hs) st e).
Proof.
  intros Hh Hhs. cbn [notify].
  destruct (state_filter (h_state h) st); [|exact Hhs].
  destruct (h_filter h e) as [[|]|x]; [exact Hh|exact Hhs|apply keeps_raise; assumption].
Qed.

Lemma state_filter_Some (a : fsm_state) (st : option fsm_state) :
  state_filter (Some a) st = true -> st = Some a.
Proof. destruct st as [b|]; [|discriminate]. destruct a, b; (discriminate || reflexivity). Qed.

(** Every message handler but [receive_recipient_fio] leaves the settings
    table alone, whoever the sender is. *)
Lemma messages_but_fio_settings S utcnow (m : message) (st : option fsm_state) :
  ~ (st = Some waiting_recipient_fio /\ content_text m = true) ->
  keeps (carries (settings_are S)) any_call (notify (message_handlers utcnow) st m).
Proof.
  intros Hno. unfold message_handlers.
  apply notify_cons_keeps; [apply _|cbn [h_body]; unfold cmd_start; unfold_api;
                                    keeps_tac settings_side any_call_side|].
  apply notify_cons_keeps; [apply _|cbn [h_body]; unfold cmd_admin; unfold_api;
                                    keeps_tac settings_side any_call_side|].
  apply notify_cons_keeps; [apply _|cbn [h_body]; unfold receive_broadcast_text; unfold_api;
                                    keeps_tac settings_side any_call_side|].
  apply notify_cons_keeps; [apply _|cbn [h_body]; unfold receive_card_number; unfold_api;
                                    keeps_tac settings_side any_call_side|].
  assert (Hlast : keeps (carries (settings_are S)) any_call
                    (notify [ {| h_state := None; h_filter := fun _ : message => Ok true;
                                 h_body := catch_all |} ] st m)).
  { apply notify_cons_keeps; [apply _| |apply keeps_ret; apply _].
    cbn [h_body]; unfold catch_all; unfold_api. keeps_tac settings_side any_call_side. }
  cbn [notify h_state h_filter h_body] in *.
  destruct (state_filter (Some waiting_recipient_fio) st) eqn:Est; [|exact Hlast].
  destruct (content_text m) eqn:Etext; [|exact Hlast].
  destruct Hno. split; [apply state_filter_Some, Est|reflexivity].
Qed.

Lemma dispatch_but_fio_settings S utcnow (u : update) (w : world) :
  ~ completes_payment_details u w ->
  guarantees (carries (settings_are S)) any_call w (dispatch utcnow u w).
Proof.
  intros Hno. destruct u as [m|cb]; cbn [dispatch].
  - destruct (decide (user_id (msg_from m) = ADMIN_ID)) as [Hadmin|Hother].
    + apply messages_but_fio_settings. intros [Hst Htext]. apply Hno. cbn. auto.
    + apply notify_keeps; [apply _|]. apply message_handlers_settings, Hother.
  - apply notify_keeps; [apply _|]. apply callback_query_handlers_settings.
Qed.

Lemma completes_payment_details_cases (u : update) (w : world) :
  completes_payment_details u w \/ ~ completes_payment_details u w.
Proof.
  destruct u as [m|cb]; cbn; [|right; tauto].
  destruct (decide (user_id (msg_from m) = ADMIN_ID)); [|right; tauto].
  destruct (fsm_get_state (msg_key m) w) as [[]|];
    try (right; intros (_ & ? & _); discriminate).
  destruct (content_text m); [left; auto|right; intros (_ & _ & ?); discriminate].
Qed.

(** X7: the settings table has one writer.  If handling an update changes
    the settings table, whatever the platform answers, then the update is a
    text message of the administrator received while the recipient name is
    awaited; no other message, no button and no state does it. *)
Theorem X7_settings_change_only_on_recipient_name (env : oracle) utcnow (u : update)
    (w : world) :
  settings (run env (dispatch utcnow u) w).1.2 <> settings w ->
  completes_payment_details u w.
Proof.
  intros Hchanged.
  destruct (completes_payment_details_cases u w) as [Hyes|Hno]; [exact Hyes|].
  destruct Hchanged. unfold run.
  exact (run_step_guarantees (carries (settings_are (settings w))) any_call env
           (dispatch utcnow u w) 0 w (dispatch_but_fio_settings _ utcnow u w Hno) eq_refl).
Qed.

(** ** Conversations *)

Lemma route_broadcast_cancel (cb : callback_query) (w : world) utcnow :
  fsm_get_state (cb_key cb) w = Some waiting_broadcast_confirm ->
  cb_data cb = Some (lit "broadcast_cancel") ->
  dispatch utcnow (CallbackQuery cb) w = broadcast_confirm_or_cancel cb w.
Proof.
  intros Hst Hdata. cbn [dispatch]. rewrite Hst.
  unfold callback_query_handlers.
  cbn [notify h_state h_filter h_body state_filter fsm_state_eqb].
  eval_data_filters Hdata. reflexivity.
Qed.

Lemma fsm_finish_clears (key : Z * Z) (w : world) :
  fsm_get_state key (fsm_finish key w) = None /\ fsm_get_data key (fsm_finish key w) = ∅.
Proof.
  unfold fsm_get_state, fsm_get_data, get_session, fsm_finish. cbn.
  rewrite lookup_delete_eq. split; reflexivity.
Qed.

(** X9: when the administrator cancels a drafted broadcast, the conversation
    record (state and draft) is dropped before anything is sent, so it is
    gone whatever the platform answers; the only calls are the
    acknowledgement of the button and, if that one is accepted, the notice to
    the administrator, so no recipient is written to; both tables stay as
    they were. *)
Theorem X9_cancel_discards_draft (env : oracle) utcnow (cb : callback_query) (w : world) :
  user_id (cb_from cb) = ADMIN_ID ->
  fsm_get_state (cb_key cb) w = Some waiting_broadcast_confirm ->
  cb_data cb = Some (lit "broadcast_cancel") ->
  let ack := AnswerCallbackQuery (cb_id cb) (Some (lit "Рассылка отменена")) false in
  let out := run env (dispatch utcnow (CallbackQuery cb)) w in
  out.1.2 = fsm_finish (cb_key cb) w
  /\ fsm_get_state (cb_key cb) out.1.2 = None
  /\ fsm_get_data (cb_key cb) out.1.2 = ∅
  /\ out.1.1 = ack :: match env 0%nat ack with
                      | Accepted => [send_to (lit "Отменено.") ADMIN_ID]
                      | Refused _ => []
                      end.
Proof.
  intros Hadmin Hst Hdata ack out.
  assert (Hout : out.1 = (ack :: match env 0%nat ack with
                                 | Accepted => [send_to (lit "Отменено.") ADMIN_ID]
                                 | Refused _ => []
                                 end, fsm_finish (cb_key cb) w)).
  { subst out. unfold run. rewrite (route_broadcast_cancel cb w utcnow Hst Hdata).
    unfold broadcast_confirm_or_cancel. rewrite Hadmin, Z.eqb_refl, Hdata. cbn [negb].
    replace (pystr_eqb (default [] (Some (lit "broadcast_cancel"))) (lit "broadcast_cancel"))
      with true by (vm_compute; reflexivity).
    unfold state_finish, cb_answer, bot_send_message. coro_unfold.
    cbn [bind_step run_step]. fold ack.
    destruct (env 0%nat ack); cbn [bind_step run_step]; [|reflexivity].
    destruct (env 1%nat _); reflexivity. }
  rewrite Hout. cbn [fst snd].
  destruct (fsm_finish_clears (cb_key cb) w) as [H1 H2]. auto.
Qed.

(** X10: while a conversation state is set, input that is not the one
    awaited is dropped without any call and without any change: every message
    that is not a text in a text-awaiting state (so every message while the
    confirmation is awaited, and every photo or sticker in any state), and
    every button press that is not confirm or cancel while the confirmation
    is awaited (so every menu and admin button in any state). *)
Theorem X10_active_state_drops_other_input (env : oracle) utcnow (w : world)
    (st : fsm_state) :
  (forall m, fsm_get_state (msg_key m) w = Some st ->
     ~ (awaits_text st /\ content_text m = true) ->
     run env (dispatch utcnow (Message m)) w = ([], w, Ok tt))
  /\ (forall cb, fsm_get_state (cb_key cb) w = Some st ->
        ~ (st = waiting_broadcast_confirm
           /\ (cb_data cb = Some (lit "broadcast_cancel")
               \/ cb_data cb = Some (lit "broadcast_confirm"))) ->
        run env (dispatch utcnow (CallbackQuery cb)) w = ([], w, Ok tt)).
Proof.
  split.
  - intros m Hst Hno. unfold run. cbn [dispatch]. rewrite Hst.
    unfold message_handlers, awaits_text in *.
    cbn [notify h_state h_filter h_body state_filter].
    destruct st; cbn [fsm_state_eqb]; try reflexivity;
      (destruct (content_text m); [destruct Hno; auto|reflexivity]).
  - intros cb Hst Hno. unfold run. cbn [dispatch]. rewrite Hst.
    unfold callback_query_handlers.
    cbn [notify h_state h_filter h_body state_filter].
    destruct st; cbn [fsm_state_eqb]; try reflexivity.
    unfold data_is.
    rewrite !bool_decide_eq_false_2 by (intros H; apply Hno; auto).
    reflexivity.
Qed.

Ltac purchase_side :=
  intros ?; unfold carries, no_purchase_state; intros Hinv key';
  specialize (Hinv key'); revert Hinv;
  unfold fsm_get_state, get_session, fsm_set_state, fsm_update_data, fsm_finish;
  cbn [fsm set_fsm set_users set_settings db_add_user db_set_setting add_log];
  try match goal with
      | |- context [<[?k := _]> _ !! key'] =>
        destruct (decide (k = key')) as [<-|Hk];
        [rewrite lookup_insert_eq|rewrite lookup_insert_ne by exact Hk]
      | |- context [delete ?k _ !! key'] =>
        destruct (decide (k = key')) as [<-|Hk];
        [rewrite lookup_delete_eq|rewrite lookup_delete_ne by exact Hk]
      end;
  cbn [default from_option id sess_state empty_session];
  first [ tauto | intros _; split; discriminate ].

Lemma dispatch_keeps_no_purchase_state utcnow (u : update) :
  keeps (carries no_purchase_state) any_call (dispatch utcnow u).
Proof.
  apply dispatch_keeps; [apply _| |].
  - intros m _. unfold message_handlers. each_handler.
    + unfold cmd_start; unfold_api. keeps_tac purchase_side any_call_side.
    + unfold cmd_admin; unfold_api. keeps_tac purchase_side any_call_side.
    + unfold receive_broadcast_text; unfold_api. keeps_tac purchase_side any_call_side.
    + unfold receive_card_number; unfold_api. keeps_tac purchase_side any_call_side.
    + unfold receive_recipient_fio; unfold_api. keeps_tac purchase_side any_call_side.
    + unfold catch_all; unfold_api. keeps_tac purchase_side any_call_side.
  - intros c _. unfold callback_query_handlers. each_handler.
    + unfold process_buy; unfold_api. keeps_tac purchase_side any_call_side.
    + unfold process_subject; unfold_api. keeps_tac purchase_side any_call_side.
    + unfold process_school; unfold_api. keeps_tac purchase_side any_call_side.
    + unfold back_subjects; unfold_api. keeps_tac purchase_side any_call_side.
    + unfold back_start; unfold_api. keeps_tac purchase_side any_call_side.
    + unfold admin_broadcast; unfold_api. keeps_tac purchase_side any_call_side.
    + unfold broadcast_confirm_or_cancel; unfold_api.
      keeps_tac purchase_side any_call_side.
      apply broadcast_loop_keeps; [apply _|]. intros line w H. exact H.
    + unfold admin_set_card; unfold_api. keeps_tac purchase_side any_call_side.
Qed.

(** X11: the two states of [PurchaseStates] are declared and never entered:
    starting from a conversation store without them, no sequence of updates
    and no interleaving of their handlers puts any conversation into
    [waiting_subject] or [waiting_school]; browsing the catalogue keeps no
    state at all. *)
Theorem X11_purchase_states_never_entered (us : list (pystr * update)) (w : world) :
  no_purchase_state w ->
  (forall env : oracle, no_purchase_state (run_updates env us w).2)
  /\ (forall c, rtc sched (pool us w) c -> no_purchase_state (cfg_world c)).
Proof.
  intros Hinv.
  assert (Hus : Forall (fun u => keeps (carries no_purchase_state) any_call
                                   (dispatch u.1 u.2)) us).
  { apply Forall_forall. intros u _. apply dispatch_keeps_no_purchase_state. }
  split.
  - intros env.
    exact (run_updates_guarantees (carries no_purchase_state) any_call env us w Hus Hinv).
  - intros c Hc.
    exact (pool_guarantees (carries no_purchase_state) any_call us w c Hus Hc Hinv).
Qed.

(** ** The catalogue *)

Lemma split_at_none (sep : N) (s : pystr) : sep ∉ s -> split_at sep s = (s, None).
Proof.
  induction s as [|c s IH]; intros Hnot; cbn [split_at]; [reflexivity|].
  apply not_elem_of_cons in Hnot as [Hc Hs].
  destruct (N.eqb_spec c sep) as [->|_]; [congruence|].
  rewrite IH by exact Hs. reflexivity.
Qed.

Lemma split_subject_payload (rest : pystr) :
  split_max 124 1 (lit "subj|" ++ rest) = [lit "subj"; rest].
Proof.
  change (lit "subj|") with (lit "subj" ++ [124%N]).
  rewrite <- (assoc_L app (lit "subj")). cbn [split_max app].
  rewrite split_at_app by compute_done. reflexivity.
Qed.

Lemma route_process_subject (cb : callback_query) (w : world) utcnow rest :
  fsm_get_state (cb_key cb) w = None ->
  cb_data cb = Some (lit "subj|" ++ rest) ->
  dispatch utcnow (CallbackQuery cb) w = process_subject cb w.
Proof.
  intros Hst Hdata. cbn [dispatch]. rewrite Hst. unfold callback_query_handlers.
  cbn [notify h_state h_filter h_body state_filter].
  unfold data_is, data_startswith. rewrite Hdata.
  change (lit "subj|") with ([115; 117; 98; 106; 124]%N).
  rewrite bool_decide_eq_false_2 by (intros [= H]; revert H; vm_compute; discriminate).
  cbn [app truthy startswith default from_option id N.eqb Pos.eqb andb].
  reflexivity.
Qed.

Lemma route_school_prefix (cb : callback_query) (w : world) utcnow rest :
  fsm_get_state (cb_key cb) w = None ->
  cb_data cb = Some (lit "school|" ++ rest) ->
  dispatch utcnow (CallbackQuery cb) w = process_school cb w.
Proof.
  intros Hst Hdata. cbn [dispatch]. rewrite Hst. unfold callback_query_handlers.
  cbn [notify h_state h_filter h_body state_filter].
  unfold data_is, data_startswith. rewrite Hdata.
  change (lit "school|") with ([115; 99; 104; 111; 111; 108; 124]%N).
  rewrite bool_decide_eq_false_2 by (intros [= H]; revert H; vm_compute; discriminate).
  change (lit "subj|") with ([115; 117; 98; 106; 124]%N).
  cbn [app truthy startswith default from_option id N.eqb Pos.eqb andb].
  reflexivity.
Qed.

(** X12: a button payload the catalogue does not know makes the handler
    raise right after the acknowledgement, before anything is edited and
    without any change: a subject payload with an unknown key raises
    [KeyError] for that key, a program payload with only one field after the
    prefix raises [ValueError], and a program payload with an unknown subject
    key raises [KeyError]. *)
Theorem X12_unknown_payload_raises (env : oracle) utcnow (cb : callback_query) (w : world)
    (rest : pystr) :
  fsm_get_state (cb_key cb) w = None ->
  env 0%nat (AnswerCallbackQuery (cb_id cb) None false) = Accepted ->
  let out := run env (dispatch utcnow (CallbackQuery cb)) w in
  let ack := AnswerCallbackQuery (cb_id cb) None false in
  (cb_data cb = Some (lit "subj|" ++ rest) -> assoc rest SUBJECTS = None ->
   out = ([ack], w, Exc (KeyError rest)))
  /\ (cb_data cb = Some (lit "school|" ++ rest) -> 124%N ∉ rest ->
      out = ([ack], w, Exc ValueError))
  /\ (forall school, cb_data cb = Some (school_payload rest school) ->
      124%N ∉ rest -> assoc rest SUBJECTS = None ->
      out = ([ack], w, Exc (KeyError rest))).
Proof.
  intros Hst Henv out ack. subst out. unfold run. split; [|split].
  - intros Hdata Hkey. rewrite (route_process_subject cb w utcnow rest Hst Hdata).
    unfold process_subject. rewrite Hdata.
    change (default [] (Some (lit "subj|" ++ rest))) with (lit "subj|" ++ rest).
    rewrite split_subject_payload. unfold subject_lookup. rewrite Hkey.
    unfold cb_answer. coro_unfold. cbn [bind_step run_step]. rewrite Henv. reflexivity.
  - intros Hdata Hrest. rewrite (route_school_prefix cb w utcnow rest Hst Hdata).
    unfold process_school. rewrite Hdata.
    change (default [] (Some (lit "school|" ++ rest))) with (lit "school|" ++ rest).
    change (lit "school|") with (lit "school" ++ [124%N]).
    rewrite <- (assoc_L app (lit "school")). cbn [split_max app].
    rewrite split_at_app by compute_done. rewrite split_at_none by exact Hrest.
    unfold cb_answer. coro_unfold. cbn [bind_step run_step]. rewrite Henv. reflexivity.
  - intros school Hdata Hrest Hkey.
    rewrite (route_process_school cb w utcnow rest school Hst Hdata).
    unfold process_school. rewrite Hdata.
    change (default [] (Some (school_payload rest school))) with (school_payload rest school).
    rewrite split_school_payload by exact Hrest.
    unfold subject_lookup. rewrite Hkey.
    unfold cb_answer. coro_unfold. cbn [bind_step run_step]. rewrite Henv. reflexivity.
Qed.

Lemma buttons_kb_add (kb : keyboard) (b : button) : buttons (kb_add kb b) = buttons kb ++ [b].
Proof. unfold buttons, kb_add. cbn [inline_keyboard]. rewrite concat_app. reflexivity. Qed.

Lemma buttons_kb_insert (kb : keyboard) (b : button) :
  buttons (kb_insert kb b) = buttons kb ++ [b].
Proof.
  unfold kb_insert. destruct (rev (inline_keyboard kb)) as [|last_row before] eqn:Erev;
    [apply buttons_kb_add|].
  destruct (length last_row <? row_width kb)%nat; [|apply buttons_kb_add].
  apply (f_equal (@rev _)) in Erev. rewrite rev_involutive in Erev. cbn in Erev.
  unfold buttons. cbn [inline_keyboard]. rewrite Erev, !concat_app. cbn [concat].
  rewrite !app_nil_r, <- (assoc_L app). reflexivity.
Qed.

Lemma buttons_fold_left {A} (g : keyboard -> A -> keyboard) (f : A -> button) (l : list A) :
  (forall kb x, buttons (g kb x) = buttons kb ++ [f x]) ->
  forall kb, buttons (fold_left g l kb) = buttons kb ++ map f l.
Proof.
  intros Hg. induction l as [|x l IH]; intros kb; cbn [fold_left map].
  - rewrite app_nil_r. reflexivity.
  - rewrite IH, Hg, <- (assoc_L app). reflexivity.
Qed.

Lemma SUBJECTS_assoc (key title : pystr) (price : N) :
  (key, (title, price)) ∈ SUBJECTS -> assoc key SUBJECTS = Some (title, price).
Proof.
  unfold SUBJECTS. intros Hin.
  repeat (apply elem_of_cons in Hin as [Hin|Hin];
          [injection Hin as -> -> ->; vm_compute; reflexivity|]).
  apply elem_of_nil in Hin. destruct Hin.
Qed.

Lemma process_subject_run (env : oracle) (cb : callback_query) (w : world)
    key title price :
  cb_data cb = Some (lit "subj|" ++ key) ->
  assoc key SUBJECTS = Some (title, price) ->
  env 0%nat (AnswerCallbackQuery (cb_id cb) None false) = Accepted ->
  (run_step env 0 (process_subject cb w)).1 =
  ([AnswerCallbackQuery (cb_id cb) None false;
    EditMessageText (cb_chat cb) (cb_message_id cb)
      (lit "Предмет: *" ++ title ++ lit "*" ++ nl ++ lit "Выберите программу:")
      Markdown (Some (make_schools_keyboard key))],
   w).
Proof.
  intros Hdata Hassoc Henv.
  unfold process_subject. rewrite Hdata.
  change (default [] (Some (lit "subj|" ++ key))) with (lit "subj|" ++ key).
  rewrite split_subject_payload. unfold subject_lookup. rewrite Hassoc.
  unfold cb_answer, edit_message_text. coro_unfold.
  cbn [bind_step run_step]. rewrite Henv. cbn [bind_step run_step].
  destruct (env 1%nat _); reflexivity.
Qed.

(** X13: the catalogue menus and their handlers agree on the payload format.
    For every entry of [SUBJECTS] the subjects keyboard has a button labelled
    with its title and price whose payload, pressed, is parsed back to that
    entry and answered with its title and the programs keyboard of that
    subject; and for every program of [SCHOOLS] that keyboard has a button
    whose payload, pressed, is parsed back to the same subject and program
    and answered with the product text of that entry, never with an
    exception. *)
Theorem X13_catalogue_buttons_resolve (env : oracle) utcnow (cb : callback_query)
    (w : world) (key title : pystr) (price : N) :
  (key, (title, price)) ∈ SUBJECTS ->
  fsm_get_state (cb_key cb) w = None ->
  env 0%nat (AnswerCallbackQuery (cb_id cb) None false) = Accepted ->
  let ack := AnswerCallbackQuery (cb_id cb) None false in
  let out := run env (dispatch utcnow (CallbackQuery cb)) w in
  InlineKeyboardButton (title ++ lit " — " ++ str_of_N price ++ lit "₽") (lit "subj|" ++ key)
    ∈ buttons make_subjects_keyboard
  /\ (cb_data cb = Some (lit "subj|" ++ key) ->
      out.1 = ([ack;
                EditMessageText (cb_chat cb) (cb_message_id cb)
                  (lit "Предмет: *" ++ title ++ lit "*" ++ nl ++ lit "Выберите программу:")
                  Markdown (Some (make_schools_keyboard key))], w))
  /\ (forall school, school ∈ SCHOOLS ->
      InlineKeyboardButton (capitalize school) (school_payload key school)
        ∈ buttons (make_schools_keyboard key)
      /\ (cb_data cb = Some (school_payload key school) ->
          out.1 = ([ack;
                    EditMessageText (cb_chat cb) (cb_message_id cb)
                      (product_text title school price
                         (db_get_setting K_card_number w)
                         (db_get_setting K_recipient_fio w))
                      Markdown (Some product_keyboard)], w))).
Proof.
  intros Hin Hst Henv ack out. subst out. unfold run.
  pose proof (SUBJECTS_assoc key title price Hin) as Hassoc.
  split; [|split].
  - unfold make_subjects_keyboard. cbv zeta. rewrite buttons_kb_add.
    rewrite (buttons_fold_left _
               (fun '(key, (title, price)) =>
                  InlineKeyboardButton (title ++ lit " — " ++ str_of_N price ++ lit "₽")
                    (lit "subj|" ++ key)))
      by (intros kb [k [t p]]; apply buttons_kb_insert).
    apply elem_of_app. left. apply elem_of_app. right.
    apply list_elem_of_fmap. exists (key, (title, price)). split; [reflexivity|exact Hin].
  - intros Hdata. rewrite (route_process_subject cb w utcnow key Hst Hdata).
    apply (process_subject_run env cb w key title price Hdata Hassoc Henv).
  - intros school Hschool. split.
    + unfold make_schools_keyboard. cbv zeta. rewrite buttons_kb_add.
      rewrite (buttons_fold_left _
                 (fun s => InlineKeyboardButton (capitalize s) (school_payload key s)))
        by (intros kb s; apply buttons_kb_insert).
      apply elem_of_app. left. apply elem_of_app. right.
      apply list_elem_of_fmap. exists school. split; [reflexivity|exact Hschool].
    + intros Hdata. rewrite (route_process_school cb w utcnow key school Hst Hdata).
      apply (process_school_run env cb w key school title price Hdata Hassoc Henv).
Qed.

(** ** The broadcast from start to end *)

Lemma log_failures_tables (ids : list Z) (rs : list reply) (w : world) :
  settings (log_failures ids rs w) = settings w
  /\ users (log_failures ids rs w) = users w
  /\ fsm (log_failures ids rs w) = fsm w.
Proof.
  revert rs w. induction ids as [|uid ids IH]; intros rs w; [cbn; auto|].
  destruct rs as [|[|d] rs]; cbn [log_failures]; [auto|apply IH|].
  destruct (IH rs (add_log (lit "Failed to send to " ++ str_of_Z uid ++ lit ": " ++ d) w))
    as (-> & -> & ->). auto.
Qed.

Lemma log_failures_logged (ids : list Z) (rs : list reply) (w : world) :
  length rs = length ids ->
  exists lines,
    logged (log_failures ids rs w) = logged w ++ lines
    /\ N.of_nat (length lines) = count_refused rs
    /\ Forall (fun line => startswith (lit "Failed to send to ") line = true) lines.
Proof.
  revert rs w. induction ids as [|uid ids IH]; intros rs w Hlen.
  - destruct rs; [|discriminate]. exists []. cbn. rewrite app_nil_r. auto.
  - destruct rs as [|r rs]; [discriminate|]. injection Hlen as Hlen.
    rewrite count_refused_cons. destruct r as [|d]; cbn [log_failures is_accepted].
    + destruct (IH rs w Hlen) as (lines & Hlog & Hcount & Hall).
      exists lines. rewrite Hlog, Hcount. auto.
    + destruct (IH rs (add_log (lit "Failed to send to " ++ str_of_Z uid ++ lit ": " ++ d) w)
                  Hlen) as (lines & Hlog & Hcount & Hall).
      exists ((lit "Failed to send to " ++ str_of_Z uid ++ lit ": " ++ d) :: lines).
      rewrite Hlog. cbn [logged add_log length]. rewrite <- (assoc_L app).
      split; [reflexivity|]. split; [rewrite <- Hcount; lia|].
      apply Forall_cons_2; [apply startswith_app|exact Hall].
Qed.

(** X14: a broadcast changes neither table and no conversation but the
    administrator's own, whatever the platform answers to the deliveries and
    to the report; it adds to the log exactly one line for each recipient the
    platform refused, and nothing for the others. *)
Theorem X14_broadcast_touches_only_the_log (env : oracle) utcnow (cb : callback_query)
    (w : world) :
  user_id (cb_from cb) = ADMIN_ID ->
  fsm_get_state (cb_key cb) w = Some waiting_broadcast_confirm ->
  cb_data cb = Some (lit "broadcast_confirm") ->
  env 0%nat (AnswerCallbackQuery (cb_id cb) (Some (lit "Запуск рассылки...")) false)
  = Accepted ->
  let text := dict_get (fsm_get_data (cb_key cb) w) K_broadcast_text in
  let rs := deliveries env 1 text (db_get_all_user_ids w) in
  let w' := (run env (dispatch utcnow (CallbackQuery cb)) w).1.2 in
  settings w' = settings w
  /\ users w' = users w
  /\ (forall key, key <> cb_key cb -> fsm w' !! key = fsm w !! key)
  /\ exists lines,
       logged w' = logged w ++ lines
       /\ N.of_nat (length lines) = count_refused rs
       /\ Forall (fun line => startswith (lit "Failed to send to ") line = true) lines.
Proof.
  intros Hadmin Hst Hdata Henv text rs w'. subst w'. unfold run.
  rewrite (route_broadcast_confirm cb w utcnow Hst Hdata).
  rewrite (broadcast_confirm_run env cb w Hadmin Hdata Henv). cbn [fst snd].
  fold text. fold rs.
  destruct (log_failures_tables (db_get_all_user_ids w) rs w) as (Hs & Hu & Hf).
  destruct (log_failures_logged (db_get_all_user_ids w) rs w) as (lines & Hlog & Hrest);
    [apply deliveries_length|].
  destruct (env (S _) _); cbn [fsm_finish set_fsm settings users fsm logged];
    rewrite ?Hs, ?Hu, ?Hf; (split; [reflexivity|]); (split; [reflexivity|]);
    (split; [|exists lines; split; [exact Hlog|exact Hrest]]); intros key Hkey;
    [rewrite lookup_delete_ne by congruence|]; reflexivity.
Qed.

(** X15: the conversation is closed only after the report has been sent.
    If the platform refuses the report, the handler ends with that error, the
    administrator's conversation is still awaiting the confirmation with the
    same draft, and a second press of the confirm button delivers the draft
    to every registered user once more. *)
Theorem X15_refused_report_leaves_broadcast_armed (env env' : oracle) utcnow utcnow'
    (cb : callback_query) (w : world) (d : pystr) :
  user_id (cb_from cb) = ADMIN_ID ->
  fsm_get_state (cb_key cb) w = Some waiting_broadcast_confirm ->
  cb_data cb = Some (lit "broadcast_confirm") ->
  let ack := AnswerCallbackQuery (cb_id cb) (Some (lit "Запуск рассылки...")) false in
  let text := dict_get (fsm_get_data (cb_key cb) w) K_broadcast_text in
  let ids := db_get_all_user_ids w in
  let rs := deliveries env 1 text ids in
  let report := send_to (report_text (count_accepted rs) (count_refused rs)) ADMIN_ID in
  env 0%nat ack = Accepted ->
  env (S (length ids)) report = Refused d ->
  env' 0%nat ack = Accepted ->
  let out := run env (dispatch utcnow (CallbackQuery cb)) w in
  out.2 = Exc (ApiError d)
  /\ fsm_get_state (cb_key cb) out.1.2 = Some waiting_broadcast_confirm
  /\ fsm_get_data (cb_key cb) out.1.2 = fsm_get_data (cb_key cb) w
  /\ exists report',
       (run env' (dispatch utcnow' (CallbackQuery cb)) out.1.2).1.1
       = ack :: map (send_to text) ids ++ [report'].
Proof.
  intros Hadmin Hst Hdata ack text ids rs report Henv Hrefused Henv' out.
  assert (Hout : out = (ack :: map (send_to text) ids ++ [report],
                        log_failures ids rs w, Exc (ApiError d))).
  { subst out. unfold run. rewrite (route_broadcast_confirm cb w utcnow Hst Hdata).
    rewrite (broadcast_confirm_run env cb w Hadmin Hdata Henv). cbn zeta.
    fold text. fold ids. fold rs. fold report. rewrite Hrefused. reflexivity. }
  rewrite Hout. cbn [fst snd].
  destruct (log_failures_tables ids rs w) as (Hs & Hu & Hf).
  assert (Hst' : fsm_get_state (cb_key cb) (log_failures ids rs w)
                 = Some waiting_broadcast_confirm)
    by (rewrite (fsm_get_state_same_fsm _ _ _ Hf); exact Hst).
  assert (Hdata' : fsm_get_data (cb_key cb) (log_failures ids rs w)
                   = fsm_get_data (cb_key cb) w)
    by exact (fsm_get_data_same_fsm _ _ _ Hf).
  split; [reflexivity|]. split; [exact Hst'|]. split; [exact Hdata'|].
  unfold run. rewrite (route_broadcast_confirm cb _ utcnow' Hst' Hdata).
  rewrite (broadcast_confirm_run env' cb _ Hadmin Hdata Henv'). cbn [fst snd].
  rewrite Hdata'. unfold db_get_all_user_ids. rewrite Hu.
  eexists. reflexivity.
Qed.

Lemma admin_broadcast_run (env : oracle) (cb : callback_query) (w : world) :
  user_id (cb_from cb) = ADMIN_ID ->
  let ack := AnswerCallbackQuery (cb_id cb) None false in
  let prompt := send_to (lit "Отправьте текст для рассылки (макс 4000 символов).") ADMIN_ID in
  env 0%nat ack = Accepted -> env 1%nat prompt = Accepted ->
  run_step env 0 (admin_broadcast cb w) =
  ([ack; prompt], fsm_set_state (cb_key cb) (Some waiting_broadcast_text) w, Ok tt).
Proof.
  intros Hadmin ack prompt Hack Hprompt.
  unfold admin_broadcast. rewrite Hadmin, Z.eqb_refl. cbn [negb].
  unfold cb_answer, bot_send_message, state_set. coro_unfold.
  cbn [bind_step run_step]. fold ack. rewrite Hack. cbn [bind_step run_step].
  fold (send_to (lit "Отправьте текст для рассылки (макс 4000 символов).") ADMIN_ID).
  fold prompt. rewrite Hprompt. reflexivity.
Qed.

(** X16: the whole broadcast conversation.  When the administrator, with no
    conversation open, presses the broadcast button, sends a text and presses
    confirm, and the platform accepts the prompts, the preview and the
    report, then every user registered at the start is sent the first 4000
    characters of that text, the report counts the accepted and the refused
    deliveries, and the conversation is closed again with no draft left;
    both tables are as they were. *)
Theorem X16_broadcast_conversation (env1 env2 env3 : oracle) now1 now2 now3
    (cb1 cb2 : callback_query) (m : message) (w : world) (t : pystr) :
  user_id (cb_from cb1) = ADMIN_ID -> user_id (msg_from m) = ADMIN_ID ->
  user_id (cb_from cb2) = ADMIN_ID ->
  msg_key m = cb_key cb1 -> cb_key cb2 = cb_key cb1 ->
  fsm_get_state (cb_key cb1) w = None ->
  cb_data cb1 = Some (lit "admin_broadcast") ->
  msg_text m = Some t -> t <> [] ->
  cb_data cb2 = Some (lit "broadcast_confirm") ->
  let text := slice_to 4000 t in
  let ids := db_get_all_user_ids w in
  let rs := deliveries env3 1 text ids in
  let report := send_to (report_text (count_accepted rs) (count_refused rs)) ADMIN_ID in
  let ack := AnswerCallbackQuery (cb_id cb2) (Some (lit "Запуск рассылки...")) false in
  env1 0%nat (AnswerCallbackQuery (cb_id cb1) None false) = Accepted ->
  env1 1%nat (send_to (lit "Отправьте текст для рассылки (макс 4000 символов).") ADMIN_ID)
  = Accepted ->
  env2 0%nat (SendMessage (msg_chat m) (lit "Предпросмотр рассылки:" ++ nl ++ nl ++ text)
                None (Some broadcast_preview_keyboard) (Some (message_id m))) = Accepted ->
  env3 0%nat ack = Accepted ->
  env3 (S (length ids)) report = Accepted ->
  let w1 := (run env1 (dispatch now1 (CallbackQuery cb1)) w).1.2 in
  let w2 := (run env2 (dispatch now2 (Message m)) w1).1.2 in
  let out := run env3 (dispatch now3 (CallbackQuery cb2)) w2 in
  out.1.1 = ack :: map (send_to text) ids ++ [report]
  /\ out.2 = Ok tt
  /\ fsm_get_state (cb_key cb1) out.1.2 = None
  /\ fsm_get_data (cb_key cb1) out.1.2 = ∅
  /\ settings out.1.2 = settings w
  /\ users out.1.2 = users w.
Proof.
  intros Hadmin1 Hadminm Hadmin2 Hkeym Hkey2 Hst Hdata1 Ht Hne Hdata2
    text ids rs report ack Hack1 Hprompt Hpreview Hack3 Hreport w1 w2 out.
  assert (Hw1 : w1 = fsm_set_state (cb_key cb1) (Some waiting_broadcast_text) w).
  { subst w1. unfold run. rewrite (route_admin_broadcast cb1 w now1 Hst Hdata1).
    rewrite (admin_broadcast_run env1 cb1 w Hadmin1 Hack1 Hprompt). reflexivity. }
  assert (Hw2 : w2 = fsm_set_state (cb_key cb1) (Some waiting_broadcast_confirm)
                       (fsm_update_data (cb_key cb1) K_broadcast_text text w1)).
  { subst w2. unfold run.
    rewrite (route_receive_broadcast_text m w1 now2 t)
      by (rewrite ?Hkeym, ?Hw1; auto using fsm_get_state_set_state).
    rewrite (receive_broadcast_text_run env2 m w1 t Hadminm Ht). cbn zeta.
    fold text. rewrite Hpreview, Hkeym. reflexivity. }
  assert (Hst2 : fsm_get_state (cb_key cb2) w2 = Some waiting_broadcast_confirm)
    by (rewrite Hkey2, Hw2; apply fsm_get_state_set_state).
  assert (Htext : dict_get (fsm_get_data (cb_key cb2) w2) K_broadcast_text = text)
    by (rewrite Hkey2, Hw2, fsm_get_data_set_state, fsm_get_data_update;
        apply dict_get_insert).
  assert (Hids : db_get_all_user_ids w2 = ids) by (rewrite Hw2, Hw1; reflexivity).
  assert (Hout : out = (ack :: map (send_to text) ids ++ [report],
                        fsm_finish (cb_key cb1) (log_failures ids rs w2), Ok tt)).
  { subst out. unfold run. rewrite (route_broadcast_confirm cb2 w2 now3 Hst2 Hdata2).
    rewrite (broadcast_confirm_run env3 cb2 w2 Hadmin2 Hdata2 Hack3). cbn zeta.
    rewrite Htext, Hids, Hkey2. fold rs. fold report. rewrite Hreport. reflexivity. }
  rewrite Hout. cbn [fst snd].
  destruct (fsm_finish_clears (cb_key cb1) (log_failures ids rs w2)) as [Hclear1 Hclear2].
  destruct (log_failures_tables ids rs w2) as (Hs & Hu & _).
  repeat split; [exact Hclear1|exact Hclear2| |].
  - cbn [fsm_finish set_fsm settings]. rewrite Hs, Hw2, Hw1. reflexivity.
  - cbn [fsm_finish set_fsm users]. rewrite Hu, Hw2, Hw1. reflexivity.
Qed.

(** ** The admin panel *)

Lemma route_cb_in_state_None (cb : callback_query) (w : world) utcnow :
  fsm_get_state (cb_key cb) w = None ->
  dispatch utcnow (CallbackQuery cb) w = notify callback_query_handlers None cb w.
Proof. intros Hst. cbn [dispatch]. rewrite Hst. reflexivity. Qed.

Lemma admin_set_card_run (env : oracle) (cb : callback_query) (w : world) :
  user_id (cb_from cb) = ADMIN_ID ->
  let ack := AnswerCallbackQuery (cb_id cb) None false in
  let prompt :=
    send_to (lit "Введите номер карты (или реквизиты) — отправьте одним сообщением:")
      ADMIN_ID in
  env 0%nat ack = Accepted -> env 1%nat prompt = Accepted ->
  run_step env 0 (admin_set_card cb w) =
  ([ack; prompt], fsm_set_state (cb_key cb) (Some waiting_card_number) w, Ok tt).
Proof.
  intros Hadmin ack prompt Hack Hprompt.
  unfold admin_set_card. rewrite Hadmin, Z.eqb_refl. cbn [negb].
  unfold cb_answer, bot_send_message, state_set. coro_unfold.
  cbn [bind_step run_step]. fold ack. rewrite Hack. cbn [bind_step run_step].
  fold (send_to (lit "Введите номер карты (или реквизиты) — отправьте одним сообщением:")
          ADMIN_ID).
  fold prompt. rewrite Hprompt. reflexivity.
Qed.

(** X17: the keyboards of the admin flows and the filters of their handlers
    agree on the payloads.  Pressed by the administrator with no conversation
    open, each button of the admin panel opens a conversation: its state
    becomes one that awaits a text, and nothing else changes.  Pressed while
    the confirmation is awaited, each button of the preview keyboard is taken
    by [broadcast_confirm_or_cancel]. *)
Theorem X17_admin_buttons_resolve (env : oracle) utcnow (cb : callback_query) (w : world)
    (b : button) :
  user_id (cb_from cb) = ADMIN_ID ->
  cb_data cb = btn_callback_data b ->
  (b ∈ buttons make_admin_keyboard ->
   fsm_get_state (cb_key cb) w = None ->
   env 0%nat (AnswerCallbackQuery (cb_id cb) None false) = Accepted ->
   (forall text, env 1%nat (send_to text ADMIN_ID) = Accepted) ->
   let out := run env (dispatch utcnow (CallbackQuery cb)) w in
   out.2 = Ok tt
   /\ exists st, awaits_text st
                 /\ out.1.2 = fsm_set_state (cb_key cb) (Some st) w
                 /\ fsm_get_state (cb_key cb) out.1.2 = Some st)
  /\ (b ∈ buttons broadcast_preview_keyboard ->
      fsm_get_state (cb_key cb) w = Some waiting_broadcast_confirm ->
      dispatch utcnow (CallbackQuery cb) w = broadcast_confirm_or_cancel cb w).
Proof.
  intros Hadmin Hdata. split.
  - intros Hb Hst Hack Hprompt out. subst out. unfold run.
    unfold make_admin_keyboard in Hb. rewrite !buttons_kb_add in Hb.
    change (buttons (InlineKeyboardMarkup 1)) with (@nil button) in Hb. cbn [app] in Hb.
    apply elem_of_cons in Hb as [->|Hb]; [|apply elem_of_cons in Hb as [->|Hb]];
      cbn [btn_callback_data InlineKeyboardButton] in Hdata.
    + rewrite (route_admin_broadcast cb w utcnow Hst Hdata).
      rewrite (admin_broadcast_run env cb w Hadmin Hack (Hprompt _)). cbn [fst snd].
      split; [reflexivity|]. exists waiting_broadcast_text.
      unfold awaits_text. auto using fsm_get_state_set_state.
    + rewrite (route_admin_set_card cb w utcnow Hst Hdata).
      rewrite (admin_set_card_run env cb w Hadmin Hack (Hprompt _)). cbn [fst snd].
      split; [reflexivity|]. exists waiting_card_number.
      unfold awaits_text. auto using fsm_get_state_set_state.
    + apply elem_of_nil in Hb. destruct Hb.
  - intros Hb Hst.
    unfold broadcast_preview_keyboard in Hb. rewrite !buttons_kb_add in Hb.
    change (buttons (InlineKeyboardMarkup 3)) with (@nil button) in Hb. cbn [app] in Hb.
    apply elem_of_cons in Hb as [->|Hb]; [|apply elem_of_cons in Hb as [->|Hb]];
      cbn [btn_callback_data InlineKeyboardButton] in Hdata.
    + apply route_broadcast_confirm; assumption.
    + apply route_broadcast_cancel; assumption.
    + apply elem_of_nil in Hb. destruct Hb.
Qed.

(** X18: the payment details are written before the confirmation is sent.
    If the platform refuses the confirmation, the handler ends with that
    error and both values are stored all the same, while the conversation
    still awaits the recipient name with the card number it had noted. *)
Theorem X18_details_written_before_confirmation (env : oracle) utcnow (m : message)
    (w : world) (t d : pystr) :
  user_id (msg_from m) = ADMIN_ID ->
  fsm_get_state (msg_key m) w = Some waiting_recipient_fio ->
  msg_text m = Some t -> t <> [] ->
  let card := dict_get (fsm_get_data (msg_key m) w) K_card_number in
  let fio := strip t in
  env 0%nat (SendMessage (msg_chat m) (lit "Реквизиты обновлены:" ++ nl ++ card ++ nl ++ fio)
               None None (Some (message_id m))) = Refused d ->
  let out := run env (dispatch utcnow (Message m)) w in
  out.2 = Exc (ApiError d)
  /\ db_get_setting K_card_number out.1.2 = card
  /\ db_get_setting K_recipient_fio out.1.2 = fio
  /\ fsm_get_state (msg_key m) out.1.2 = Some waiting_recipient_fio
  /\ fsm_get_data (msg_key m) out.1.2 = fsm_get_data (msg_key m) w.
Proof.
  intros Hadmin Hst Ht Hne card fio Hrefused out. subst out. unfold run.
  rewrite (route_receive_recipient_fio m w utcnow t Hst Ht Hne).
  rewrite (receive_recipient_fio_run env m w t Hadmin Ht). cbn zeta.
  fold card. fold fio. rewrite Hrefused. cbn [fst snd].
  split; [reflexivity|]. split; [|split; [|split]].
  - rewrite db_get_setting_set_ne by (intros E; symmetry in E; exact (K_card_number_ne_fio E)).
    apply db_get_setting_set.
  - apply db_get_setting_set.
  - rewrite <- Hst. apply fsm_get_state_same_fsm. reflexivity.
  - apply fsm_get_data_same_fsm. reflexivity.
Qed.

(** ** Browsing *)

Ltac eq_side := intros ?; reflexivity.

Lemma callbacks_browsing_keep (cb : callback_query) :
  ~ (user_id (cb_from cb) = ADMIN_ID
     /\ (cb_data cb = Some (lit "admin_broadcast")
         \/ cb_data cb = Some (lit "admin_set_card"))) ->
  keeps eq any_call (notify callback_query_handlers None cb).
Proof.
  intros Hno. unfold callback_query_handlers.
  apply notify_cons_keeps; [apply _|cbn [h_body]; unfold process_buy; unfold_api;
                                    keeps_tac eq_side any_call_side|].
  apply notify_cons_keeps; [apply _|cbn [h_body]; unfold process_subject; unfold_api;
                                    keeps_tac eq_side any_call_side|].
  apply notify_cons_keeps; [apply _|cbn [h_body]; unfold process_school; unfold_api;
                                    keeps_tac eq_side any_call_side|].
  apply notify_cons_keeps; [apply _|cbn [h_body]; unfold back_subjects; unfold_api;
                                    keeps_tac eq_side any_call_side|].
  apply notify_cons_keeps; [apply _|cbn [h_body]; unfold back_start; unfold_api;
                                    keeps_tac eq_side any_call_side|].
  cbn [notify h_state h_filter h_body state_filter]. unfold data_is.
  assert (Hother : (user_id (cb_from cb) =? ADMIN_ID) = true ->
                   bool_decide (cb_data cb = Some (lit "admin_broadcast")) = false
                   /\ bool_decide (cb_data cb = Some (lit "admin_set_card")) = false).
  { intros Hadmin%Z.eqb_eq. split; apply bool_decide_eq_false_2; intros H; apply Hno; auto. }
  destruct (user_id (cb_from cb) =? ADMIN_ID) eqn:Eadmin.
  - destruct (Hother eq_refl) as [-> ->]. apply keeps_ret. apply _.
  - repeat case_bool_decide; unfold admin_broadcast, admin_set_card; rewrite ?Eadmin;
      cbn [negb]; unfold_api; keeps_tac eq_side any_call_side.
Qed.

(** X19: browsing keeps no state.  A button press from a sender with no
    conversation open leaves the whole world (both tables, every
    conversation, the log) exactly as it was, whatever the payload and
    whatever the platform answers, unless it is the administrator pressing
    one of the two buttons of the admin panel. *)
Theorem X19_browsing_is_stateless (env : oracle) utcnow (cb : callback_query) (w : world) :
  fsm_get_state (cb_key cb) w = None ->
  ~ (user_id (cb_from cb) = ADMIN_ID
     /\ (cb_data cb = Some (lit "admin_broadcast")
         \/ cb_data cb = Some (lit "admin_set_card"))) ->
  (run env (dispatch utcnow (CallbackQuery cb)) w).1.2 = w.
Proof.
  intros Hst Hno. unfold run. rewrite (route_cb_in_state_None cb w utcnow Hst).
  symmetry.
  exact (run_step_guarantees eq any_call env _ 0 w (callbacks_browsing_keep cb Hno w)).
Qed.

(** ** Checks that never fire *)

#[local] Instance any_change_preorder : PreOrder any_change.
Proof. split; [intros w|intros w1 w2 w3 _ _]; exact I. Qed.

(** Run alone, the coroutine makes only calls its guarantee allows. *)
Lemma run_step_calls {A} (R : relation world) (P : api_call -> Prop) (env : oracle)
    (s : step A) :
  forall n w0, guarantees R (fun _ => P) w0 s -> Forall P (run_step env n s).1.1.
Proof.
  induction s as [w r|w y k IH]; intros n w0 Hs; cbn in *.
  - apply Forall_nil_2.
  - destruct Hs as (_ & Hy & Hk). destruct y as [c| |].
    + specialize (IH (env n c) w (S n) w (Hk _ _)).
      destruct (run_step env (S n) (k (env n c) w)) as [[tr w'] r].
      apply Forall_cons_2; [exact Hy|exact IH].
    + apply (IH _ _ _ w), Hk.
    + apply (IH _ _ _ w), Hk.
Qed.

Lemma broadcast_loop_keeps_calls (R : relation world) `{!PreOrder R} G text uids :
  (forall line w, R w (add_log line w)) ->
  (forall w uid, G w (SendMessage uid text None None None)) ->
  forall sent failed, keeps R G (broadcast_loop text uids sent failed).
Proof.
  intros Hlog Hcall. induction uids as [|uid rest IH]; intros sent failed;
    cbn [broadcast_loop].
  - apply keeps_ret; assumption.
  - apply keeps_bind; [assumption| |].
    + unfold broadcast_one, bot_send_message.
      keeps_tac ltac:(intros ?; apply Hlog) ltac:(intros ?; apply Hcall).
    + intros [s f]. apply IH.
Qed.

Ltac change_side := intros ?; exact I.

Ltac deny_side :=
  intros ?; cbn [is_text_denial];
  first [ solve [intros []] | intros Hdeny; vm_compute in Hdeny; discriminate Hdeny ].

Lemma callbacks_never_deny_text (cb : callback_query) :
  Forall (fun h => keeps any_change (fun _ c => ~ is_text_denial c) (h_body h cb))
    callback_query_handlers.
Proof.
  unfold callback_query_handlers. each_handler.
  - unfold process_buy; unfold_api. keeps_tac change_side deny_side.
  - unfold process_subject; unfold_api. keeps_tac change_side deny_side.
  - unfold process_school; unfold_api. keeps_tac change_side deny_side.
  - unfold back_subjects; unfold_api. keeps_tac change_side deny_side.
  - unfold back_start; unfold_api. keeps_tac change_side deny_side.
  - unfold admin_broadcast; unfold_api. keeps_tac change_side deny_side.
  - unfold broadcast_confirm_or_cancel; unfold_api. keeps_tac change_side deny_side.
    apply broadcast_loop_keeps_calls; [apply _|intros; exact I|intros ? ? []].
  - unfold admin_set_card; unfold_api. keeps_tac change_side deny_side.
Qed.

Lemma admin_messages_never_deny_text utcnow (m : message) :
  user_id (msg_from m) = ADMIN_ID ->
  Forall (fun h => keeps any_change (fun _ c => ~ is_text_denial c) (h_body h m))
    (message_handlers utcnow).
Proof.
  intros Hadmin. unfold message_handlers. each_handler.
  - unfold cmd_start; unfold_api. keeps_tac change_side deny_side.
  - unfold cmd_admin; unfold_api. keeps_tac change_side deny_side.
  - unfold receive_broadcast_text; unfold_api. rewrite Hadmin, Z.eqb_refl; cbn [negb].
    keeps_tac change_side deny_side.
  - unfold receive_card_number; unfold_api. rewrite Hadmin, Z.eqb_refl; cbn [negb].
    keeps_tac change_side deny_side.
  - unfold receive_recipient_fio; unfold_api. rewrite Hadmin, Z.eqb_refl; cbn [negb].
    keeps_tac change_side deny_side.
  - unfold catch_all; unfold_api. keeps_tac change_side deny_side.
Qed.

Lemma idle_messages_never_deny_text utcnow (m : message) :
  keeps any_change (fun _ c => ~ is_text_denial c) (notify (message_handlers utcnow) None m).
Proof.
  unfold message_handlers. cbn [notify h_state h_filter h_body state_filter].
  destruct (on_command (lit "start") m) as [[|]|x].
  - unfold cmd_start; unfold_api. keeps_tac change_side deny_side.
  - destruct (on_command (lit "admin") m) as [[|]|x].
    + unfold cmd_admin; unfold_api. keeps_tac change_side deny_side.
    + unfold catch_all; unfold_api. keeps_tac change_side deny_side.
    + apply keeps_raise; apply _.
  - apply keeps_raise; apply _.
Qed.

(** X20: the access checks of the three text handlers never fire.  In every
    world the bot can reach, no update whatsoever makes it reply with their
    denial notice: only the administrator can be in a conversation state, so
    the branch of [receive_broadcast_text], [receive_card_number] and
    [receive_recipient_fio] for other senders is never taken. *)
Theorem X20_text_handlers_never_deny (env : oracle) utcnow (u : update) (w : world) :
  reachable w ->
  Forall (fun c => ~ is_text_denial c) (run env (dispatch utcnow u) w).1.1.
Proof.
  intros Hreach. pose proof (reachable_non_admin_idle w Hreach) as Hidle.
  unfold run. apply (run_step_calls any_change _ env _ 0 w).
  destruct u as [m|cb]; cbn [dispatch].
  - destruct (decide (user_id (msg_from m) = ADMIN_ID)) as [Hadmin|Hother].
    + apply notify_keeps; [apply _|]. apply admin_messages_never_deny_text, Hadmin.
    + rewrite (idle_get_state w (msg_key m)) by (apply Hidle, Hother).
      apply idle_messages_never_deny_text.
  - apply notify_keeps; [apply _|]. apply callbacks_never_deny_text.
Qed.

(** ** Messages outside a conversation *)

#[local] Instance only_row_preorder (uid : Z) : PreOrder (only_row uid).
Proof.
  split.
  - intros w. unfold only_row. auto.
  - intros w1 w2 w3 (Hs12 & Hf12 & Hl12 & Hu12) (Hs23 & Hf23 & Hl23 & Hu23).
    unfold only_row. rewrite Hs23, Hf23, Hl23.
    repeat split; try assumption. intros i Hi. rewrite Hu23, Hu12 by exact Hi. reflexivity.
Qed.

Ltac only_row_side :=
  intros ?; unfold only_row; cbn; repeat split;
  intros i Hi; rewrite lookup_insert_ne by congruence; reflexivity.

(** X21: a message from a sender with no conversation open changes nothing
    but, at most, the sender's own row of the users table: the settings, every
    conversation, the log and every other user's row are as they were,
    whatever the platform answers; and unless the message is the start
    command nothing changes at all. *)
Theorem X21_idle_message_changes_own_row_only (env : oracle) utcnow (m : message)
    (w : world) :
  fsm_get_state (msg_key m) w = None ->
  let w' := (run env (dispatch utcnow (Message m)) w).1.2 in
  only_row (user_id (msg_from m)) w w'
  /\ (on_command (lit "start") m <> Ok true -> w' = w).
Proof.
  intros Hst w'. subst w'. unfold run. cbn [dispatch]. rewrite Hst.
  split.
  - apply (run_step_guarantees (only_row (user_id (msg_from m))) any_call).
    generalize w. change (keeps (only_row (user_id (msg_from m))) any_call
                            (notify (message_handlers utcnow) None m)).
    unfold message_handlers. cbn [notify h_state h_filter h_body state_filter].
    destruct (on_command (lit "start") m) as [[|]|x].
    + unfold cmd_start; unfold_api. keeps_tac only_row_side any_call_side.
    + destruct (on_command (lit "admin") m) as [[|]|x].
      * unfold cmd_admin; unfold_api. keeps_tac only_row_side any_call_side.
      * unfold catch_all; unfold_api. keeps_tac only_row_side any_call_side.
      * apply keeps_raise; apply _.
    + apply keeps_raise; apply _.
  - intros Hcmd. symmetry. apply (run_step_guarantees eq any_call).
    generalize w. change (keeps eq any_call (notify (message_handlers utcnow) None m)).
    unfold message_handlers. cbn [notify h_state h_filter h_body state_filter].
    destruct (on_command (lit "start") m) as [[|]|x]; [congruence| |].
    + destruct (on_command (lit "admin") m) as [[|]|x].
      * unfold cmd_admin; unfold_api. keeps_tac eq_side any_call_side.
      * unfold catch_all; unfold_api. keeps_tac eq_side any_call_side.
      * apply keeps_raise; apply _.
    + apply keeps_raise; apply _.
Qed.

(** ** Registrations in flight *)

Lemma pool_slots (R : relation world) G (us : list (pystr * update)) (w : world) :
  Forall (fun u => keeps R G (dispatch u.1 u.2)) us ->
  Forall (slot_guarantees R G) (cfg_tasks (pool us w)).
Proof.
  intros Hus. cbn. apply Forall_fmap. eapply Forall_impl; [exact Hus|].
  intros u Hu r w'. apply Hu.
Qed.

Lemma dispatch_keeps_idle utcnow (u : update) :
  keeps (carries non_admin_idle) any_call (dispatch utcnow u).
Proof.
  apply dispatch_keeps; [apply _|intros; apply message_handlers_idle
                        |intros; apply callback_query_handlers_idle].
Qed.

Lemma start_ok_step utcnow (m : message) (i : nat) (c c' : config) :
  user_id (msg_from m) <> ADMIN_ID ->
  on_command (lit "start") m = Ok true ->
  start_ok utcnow m i c -> sched c c' -> start_ok utcnow m i c'.
Proof.
  intros Hother Hcmd (Hidle & Hrows & Hidles & Hslot) Hstep.
  destruct (sched_guarantees keeps_rows any_call c c' Hstep Hrows) as [[Hkeep _] Hrows'].
  destruct (sched_guarantees (carries non_admin_idle) any_call c c' Hstep Hidles)
    as [Hidle' Hidles'].
  split; [exact (Hidle' Hidle)|]. split; [exact Hrows'|]. split; [exact Hidles'|].
  inversion Hstep as [j r c0 c0' Hres]; subst c0 c0'; clear Hstep.
  unfold resume in Hres. unfold start_in_flight in *.
  destruct (cfg_tasks c !! j) as [[k|]|] eqn:Hj; try discriminate.
  assert (Hlen : (j < length (cfg_tasks c))%nat) by (eapply lookup_lt_Some, Hj).
  destruct (decide (i = j)) as [->|Hij].
  - pose proof (eq_ind _ (start_slot utcnow m (cfg_world c)) Hslot _ Hj) as Hk.
    cbn [start_slot] in Hk. clear Hslot. destruct Hk as [->|Hreg].
    + unfold spawn in Hres.
      rewrite (route_cmd_start m (cfg_world c) utcnow) in Hres
        by (try apply idle_get_state, Hidle; assumption).
      unfold cmd_start, message_answer in Hres. coro_unfold. cbn [bind_step] in Hres.
      injection Hres as <-. cbn [cfg_tasks cfg_world].
      rewrite list_lookup_insert_eq by exact Hlen. right.
      cbn. rewrite lookup_insert_eq. eauto.
    + destruct (k r (cfg_world c)) as [w' res|w' y k']; injection Hres as <-;
        cbn [cfg_tasks cfg_world] in *; rewrite list_lookup_insert_eq by exact Hlen;
        cbn [start_slot]; [|right]; apply Hkeep, Hreg.
  - assert (Hsame : cfg_tasks c' !! i = cfg_tasks c !! i).
    { destruct (k r (cfg_world c)) as [w' res|w' y k']; injection Hres as <-;
        cbn [cfg_tasks]; apply list_lookup_insert_ne; congruence. }
    rewrite Hsame. destruct (cfg_tasks c !! i) as [[k0|]|]; cbn [start_slot] in *;
      [|apply Hkeep, Hslot|exact Hslot].
    destruct Hslot as [->|Hreg]; [left; reflexivity|right; apply Hkeep, Hreg].
Qed.

(** X22: no registration is lost when updates are handled concurrently.
    The start command of a non-administrator, in flight together with the
    handlers of any other updates, registers its sender in its first stretch,
    before its first await: in every interleaving, once that handler has
    finished its sender is registered, whatever the other handlers did in
    between and whatever the platform answered. *)
Theorem X22_concurrent_start_registers (us : list (pystr * update)) (w : world) (i : nat)
    utcnow (m : message) (c : config) :
  non_admin_idle w ->
  us !! i = Some (utcnow, Message m) ->
  user_id (msg_from m) <> ADMIN_ID ->
  on_command (lit "start") m = Ok true ->
  rtc sched (pool us w) c ->
  cfg_tasks c !! i = Some None ->
  is_Some (users (cfg_world c) !! user_id (msg_from m)).
Proof.
  intros Hidle Hi Hother Hcmd Hsteps Hdone.
  assert (Hinit : start_ok utcnow m i (pool us w)).
  { split; [exact Hidle|]. split; [|split].
    - apply pool_slots, Forall_forall. intros u _. apply dispatch_keeps_rows.
    - apply pool_slots, Forall_forall. intros u _. apply dispatch_keeps_idle.
    - unfold start_in_flight. cbn [pool cfg_tasks]. rewrite list_lookup_fmap, Hi.
      left. reflexivity. }
  assert (Hend : start_ok utcnow m i c).
  { revert Hinit. clear Hdone. induction Hsteps as [c0|c0 c1 c2 Hstep _ IH]; [auto|].
    intros H0. apply IH. eapply start_ok_step; eassumption. }
  destruct Hend as (_ & _ & _ & Hslot). unfold start_in_flight in Hslot.
  rewrite Hdone in Hslot. exact Hslot.
Qed.

(** ** Who is written to *)

Ltac answers_side := intros ?; cbn [answers]; auto.

(** X23: an update from anyone but the administrator is only ever answered
    to its sender: in every world, whatever state the store is in and
    whatever the platform answers, each call it causes is a message to the
    chat it came from, an edit of the message whose button was pressed, or
    the acknowledgement of that press; it never makes the bot write to
    another chat. *)
Theorem X23_others_are_only_answered (env : oracle) utcnow (u : update) (w : world) :
  from_others u ->
  Forall (answers u) (run env (dispatch utcnow u) w).1.1.
Proof.
  intros Hother. unfold run. apply (run_step_calls any_change _ env _ 0 w).
  apply dispatch_keeps; [apply _| |].
  - intros m ->. cbn [from_others] in Hother. apply Z.eqb_neq in Hother.
    unfold message_handlers. each_handler.
    + unfold cmd_start; unfold_api. keeps_tac change_side answers_side.
    + unfold cmd_admin; unfold_api. keeps_tac change_side answers_side.
    + unfold receive_broadcast_text; unfold_api. rewrite Hother; cbn [negb].
      keeps_tac change_side answers_side.
    + unfold receive_card_number; unfold_api. rewrite Hother; cbn [negb].
      keeps_tac change_side answers_side.
    + unfold receive_recipient_fio; unfold_api. rewrite Hother; cbn [negb].
      keeps_tac change_side answers_side.
    + unfold catch_all; unfold_api. keeps_tac change_side answers_side.
  - intros c ->. cbn [from_others] in Hother. apply Z.eqb_neq in Hother.
    unfold callback_query_handlers. each_handler.
    + unfold process_buy; unfold_api. keeps_tac change_side answers_side.
    + unfold process_subject; unfold_api. keeps_tac change_side answers_side.
    + unfold process_school; unfold_api. keeps_tac change_side answers_side.
    + unfold back_subjects; unfold_api. keeps_tac change_side answers_side.
    + unfold back_start; unfold_api. keeps_tac change_side answers_side.
    + unfold admin_broadcast; unfold_api. rewrite Hother; cbn [negb].
      keeps_tac change_side answers_side.
    + unfold broadcast_confirm_or_cancel; unfold_api. rewrite Hother; cbn [negb].
      keeps_tac change_side answers_side.
    + unfold admin_set_card; unfold_api. rewrite Hother; cbn [negb].
      keeps_tac change_side answers_side.
Qed.

(** ** The completion step among other updates *)

#[local] Instance only_session_preorder (own : Z * Z) : PreOrder (only_session own).
Proof.
  split.
  - intros w. split; [reflexivity|]. intros; reflexivity.
  - intros w1 w2 w3 [Hs12 Hf12] [Hs23 Hf23]. split; [congruence|].
    intros key Hkey. rewrite Hf23, Hf12 by exact Hkey. reflexivity.
Qed.

#[local] Instance keeps_session_preorder (key : Z * Z) : PreOrder (keeps_session key).
Proof.
  split.
  - intros w. split; reflexivity.
  - intros w1 w2 w3 [Hs12 Hf12] [Hs23 Hf23]. split; congruence.
Qed.

Lemma keeps_mono {A} (R R' : relation world) (G G' : world -> api_call -> Prop)
    (m : coro A) :
  (forall a b, R a b -> R' a b) -> (forall w c, G w c -> G' w c) ->
  keeps R G m -> keeps R' G' m.
Proof. intros HR HG Hm w. eapply guarantees_mono; [exact HR|exact HG|apply Hm]. Qed.

Lemma guarantees_weaken {A} (R R' : relation world) (G : world -> api_call -> Prop)
    (w0 : world) (s : step A) :
  (forall a b, R a b -> R' a b) -> guarantees R G w0 s -> guarantees R' G w0 s.
Proof. intros HR. apply guarantees_mono; [exact HR|auto]. Qed.

Lemma same_store_only_session (own : Z * Z) (w w' : world) :
  same_store w w' -> only_session own w w'.
Proof. intros [Hs Hf]. split; [exact Hs|]. intros key _. rewrite Hf. reflexivity. Qed.

Ltac only_session_side :=
  intros ?; split; [reflexivity|]; intros key Hkey; cbn;
  first [ reflexivity
        | rewrite lookup_insert_ne by congruence; reflexivity
        | rewrite lookup_delete_ne by congruence; reflexivity ].

Lemma callbacks_only_session (cb : callback_query) :
  Forall (fun h => keeps (only_session (cb_key cb)) shows_current (h_body h cb))
    callback_query_handlers.
Proof.
  unfold callback_query_handlers. each_handler.
  - unfold process_buy; unfold_api. keeps_tac only_session_side show_side.
  - unfold process_subject; unfold_api. keeps_tac only_session_side show_side.
  - apply (keeps_mono same_store _ shows_current shows_current);
      [intros a b; apply same_store_only_session|auto|].
    apply process_school_shows_current.
  - unfold back_subjects; unfold_api. keeps_tac only_session_side show_side.
  - unfold back_start; unfold_api. keeps_tac only_session_side show_side.
  - unfold admin_broadcast; unfold_api. keeps_tac only_session_side show_side.
  - unfold broadcast_confirm_or_cancel; unfold_api.
    keeps_tac only_session_side show_side.
    apply broadcast_loop_keeps_calls; [apply _| |].
    + intros line w. split; [reflexivity|]. intros; reflexivity.
    + intros w uid. exact I.
  - unfold admin_set_card; unfold_api. keeps_tac only_session_side show_side.
Qed.

(** A message of the administrator that is not a text is taken by no handler
    but [catch_all], and by that one only when no state is set. *)
Lemma admin_non_text_only_session utcnow (m : message) (st : option fsm_state) :
  content_text m = false ->
  keeps (only_session (msg_key m)) shows_current (notify (message_handlers utcnow) st m).
Proof.
  intros Htext. unfold message_handlers.
  cbn [notify h_state h_filter h_body]. unfold on_command. rewrite Htext.
  destruct st as [[]|]; cbn [state_filter fsm_state_eqb];
    try (apply keeps_ret; apply _).
  unfold catch_all; unfold_api. keeps_tac only_session_side show_side.
Qed.

(** The handler of an update that is not a text message of the administrator
    leaves the settings table alone and changes no conversation but its own;
    whatever product details it renders are the ones in the table at that
    moment. *)
Lemma dispatch_only_session utcnow (u : update) :
  no_admin_text u -> keeps (only_session (update_key u)) shows_current (dispatch utcnow u).
Proof.
  intros Hu. destruct u as [m|cb]; cbn [update_key].
  - destruct (decide (user_id (msg_from m) = ADMIN_ID)) as [Hadmin|Hother].
    + intros w. cbn [dispatch]. apply admin_non_text_only_session, Hu, Hadmin.
    + apply (keeps_mono same_store _ shows_current shows_current);
        [intros a b; apply same_store_only_session|auto|].
      apply others_keep_store, Hother.
  - intros w. cbn [dispatch]. apply notify_keeps; [apply _|]. apply callbacks_only_session.
Qed.

Lemma other_ok_settings (key : Z * Z) (slot : option thread) :
  other_ok key slot -> slot_guarantees same_settings shows_current slot.
Proof.
  intros [Hg|(utcnow & u & -> & Hu & _)].
  - destruct slot as [k|]; [|exact I]. intros r w.
    eapply guarantees_weaken; [|apply Hg]. intros a b [Hs _]. exact Hs.
  - intros r w. unfold spawn.
    eapply guarantees_weaken; [|apply (dispatch_only_session utcnow u Hu)].
    intros a b [Hs _]. exact Hs.
Qed.

Lemma fsm_get_state_session (key : Z * Z) (w w' : world) :
  fsm w' !! key = fsm w !! key -> fsm_get_state key w' = fsm_get_state key w.
Proof. unfold fsm_get_state, get_session. intros ->. reflexivity. Qed.

Lemma fsm_get_data_session (key : Z * Z) (w w' : world) :
  fsm w' !! key = fsm w !! key -> fsm_get_data key w' = fsm_get_data key w.
Proof. unfold fsm_get_data, get_session. intros ->. reflexivity. Qed.

(** While the recipient name is awaited in a conversation, every further
    update of that conversation that is not a text message is dropped. *)
Lemma dropped_while_name_awaited utcnow (u : update) (w : world) :
  no_admin_text u ->
  (update_key u).2 = ADMIN_ID ->
  fsm_get_state (update_key u) w = Some waiting_recipient_fio ->
  dispatch utcnow u w = Done w (Ok tt).
Proof.
  intros Hu Hadmin Hst. destruct u as [m|cb]; cbn [update_key dispatch] in *; rewrite Hst.
  - unfold message_handlers.
    cbn [notify h_state h_filter h_body state_filter fsm_state_eqb].
    rewrite (Hu Hadmin). reflexivity.
  - unfold callback_query_handlers.
    cbn [notify h_state h_filter h_body state_filter fsm_state_eqb]. reflexivity.
Qed.

Lemma payment_details_same (w0 w : world) :
  settings w = settings w0 -> payment_details w = payment_details w0.
Proof.
  intros Hs. unfold payment_details.
  rewrite !(db_get_setting_same_settings _ w0 w Hs). reflexivity.
Qed.

Lemma payment_details_after (card fio : pystr) (w0 w : world) :
  after_write card fio w0 w -> payment_details w = (card, fio).
Proof.
  unfold after_write, payment_details, db_get_setting, both_updated. intros ->.
  rewrite lookup_insert_ne by (apply not_eq_sym, K_card_number_ne_fio).
  rewrite !lookup_insert_eq. reflexivity.
Qed.

Lemma after_write_set (key : Z * Z) (card fio : pystr) (w0 w : world) :
  before_write key w0 w ->
  after_write card fio w0
    (db_set_setting K_recipient_fio fio (db_set_setting K_card_number card w)).
Proof. intros [Hs _]. unfold after_write, both_updated. cbn. rewrite Hs. reflexivity. Qed.

(** Old or new: what the table holds once nothing will write it any more. *)
Lemma settled_same_settings (card fio : pystr) (w0 w w' : world) :
  settings w = settings w0 \/ after_write card fio w0 w ->
  same_settings w w' ->
  settings w' = settings w0 \/ after_write card fio w0 w'.
Proof. unfold after_write, same_settings. intros [H|H] Hs; [left|right]; congruence. Qed.

Lemma settled_shows (card fio : pystr) (w0 w : world) (call : api_call) :
  settings w = settings w0 \/ after_write card fio w0 w ->
  shows_current w call ->
  shows (payment_details w0) call \/ shows (card, fio) call.
Proof.
  unfold shows_current. intros [H|H] Hshow.
  - left. rewrite (payment_details_same _ _ H) in Hshow. exact Hshow.
  - right. rewrite (payment_details_after _ _ _ _ H) in Hshow. exact Hshow.
Qed.

(** One step of the scheduler keeps the configuration in order. *)
Lemma race_ok_step (key : Z * Z) (card fio : pystr) (w0 : world) (c c' : config) :
  key.2 = ADMIN_ID ->
  fsm_get_state key w0 = Some waiting_recipient_fio ->
  race_ok key card fio w0 c -> sched c c' -> race_ok key card fio w0 c'.
Proof.
  intros Hadmin Hst [Htr Hphase] Hstep.
  inversion Hstep as [i r c0 c0' Hres]; subst c0 c0'; clear Hstep.
  unfold resume in Hres.
  destruct Hphase as [(k & others & Htasks & Hbefore & Hoth & Hstage)|[Hset Hall]].
  - rewrite Htasks in Hres. destruct i as [|j]; cbn [lookup list_lookup] in Hres.
    + (* the completion step runs *)
      destruct Hstage as [Hns|Hwn].
      * destruct (Hns r _ Hbefore) as (k' & Hk & Hwn). rewrite Hk in Hres.
        injection Hres as <-. cbn. rewrite app_nil_r. split; [exact Htr|].
        left. exists k', others. auto.
      * destruct (Hwn r _ Hbefore) as [(d & Hk)|(call & k' & Hk & Hshow & Hg)];
          rewrite Hk in Hres; injection Hres as <-; cbn.
        -- split; [exact Htr|]. right. split; [left; apply Hbefore|].
           apply Forall_cons_2; [exact I|].
           eapply Forall_impl; [exact Hoth|apply other_ok_settings].
        -- split; [apply Forall_app; split;
                   [exact Htr|apply Forall_singleton; left; apply Hshow]|].
           right. split; [right; eapply after_write_set, Hbefore|].
           apply Forall_cons_2; [exact Hg|].
           eapply Forall_impl; [exact Hoth|apply other_ok_settings].
    + (* the handler of another update runs *)
      destruct (others !! j) as [[k0|]|] eqn:Hj; try discriminate.
      destruct (Forall_lookup_1 _ _ _ _ Hoth Hj) as [Hg|(utcnow & u & Hk0 & Hu & Hkey)].
      * specialize (Hg r (cfg_world c)).
        destruct (k0 r (cfg_world c)) as [w res|w y k']; injection Hres as <-;
          cbn in Hg |- *.
        -- split; [exact Htr|]. left. exists k, (<[j := None]> others).
           split; [reflexivity|]. split; [etransitivity; eassumption|].
           split; [apply Forall_insert; [exact Hoth|left; exact I]|exact Hstage].
        -- destruct Hg as (HR & Hy & Hk').
           assert (Hw : before_write key w0 w) by (etransitivity; eassumption).
           split.
           { apply trace_emitted; [exact Htr|]. destruct y; [|exact I..].
             eapply settled_shows; [left; apply Hw|exact Hy]. }
           left. exists k, (<[j := Some k']> others).
           split; [reflexivity|]. split; [exact Hw|].
           split; [apply Forall_insert; [exact Hoth|left; exact Hk']|exact Hstage].
      * injection Hk0 as ->. unfold spawn in Hres.
        rewrite (dropped_while_name_awaited utcnow u (cfg_world c)) in Hres;
          [|exact Hu|rewrite Hkey; exact Hadmin
           |rewrite Hkey, (fsm_get_state_session key w0 _ (proj2 Hbefore)); exact Hst].
        injection Hres as <-. cbn. split; [exact Htr|]. left.
        exists k, (<[j := None]> others).
        split; [reflexivity|]. split; [exact Hbefore|].
        split; [apply Forall_insert; [exact Hoth|left; exact I]|exact Hstage].
  - (* nothing will write the table any more *)
    destruct (cfg_tasks c !! i) as [[k|]|] eqn:Hi; try discriminate.
    pose proof (Forall_lookup_1 _ _ _ _ Hall Hi r (cfg_world c)) as Hg.
    destruct (k r (cfg_world c)) as [w res|w y k']; injection Hres as <-; cbn in Hg |- *.
    + split; [exact Htr|]. right.
      split; [eapply settled_same_settings; eassumption|].
      apply Forall_insert; [exact Hall|exact I].
    + destruct Hg as (HR & Hy & Hk').
      assert (Hw : settings w = settings w0 \/ after_write card fio w0 w)
        by (eapply settled_same_settings; eassumption).
      split.
      { apply trace_emitted; [exact Htr|]. destruct y; [|exact I..].
        eapply settled_shows; [exact Hw|exact Hy]. }
      right. split; [exact Hw|]. apply Forall_insert; [exact Hall|exact Hk'].
Qed.

Lemma race_ok_steps (key : Z * Z) (card fio : pystr) (w0 : world) (c c' : config) :
  key.2 = ADMIN_ID ->
  fsm_get_state key w0 = Some waiting_recipient_fio ->
  rtc sched c c' -> race_ok key card fio w0 c -> race_ok key card fio w0 c'.
Proof.
  intros Hadmin Hst. induction 1 as [|c1 c2 c3 Hstep _ IH]; [auto|].
  intros H. eapply IH, race_ok_step; eassumption.
Qed.

(** The administrator's handler, not yet started, is at the first stage:
    unless the second write fails after the first went through, it writes
    both keys in one stretch or none. *)
Lemma receive_recipient_fio_not_started (faults : nat -> option pystr) utcnow
    (m : message) (t : pystr) (w0 : world) :
  user_id (msg_from m) = ADMIN_ID ->
  msg_text m = Some t -> t <> [] ->
  fsm_get_state (msg_key m) w0 = Some waiting_recipient_fio ->
  (faults 0%nat = None -> faults 1%nat = None) ->
  not_started (msg_key m) (dict_get (fsm_get_data (msg_key m) w0) K_card_number)
    (strip t) w0 (spawn (dispatch_db faults utcnow (Message m))).
Proof.
  intros Hadmin Ht Hne Hst Hfaults r w [Hs Hf]. unfold spawn. cbn [dispatch_db].
  rewrite (fsm_get_state_session _ w0 w Hf), Hst. unfold message_handlers_db.
  cbn [notify h_state h_filter h_body state_filter fsm_state_eqb].
  unfold content_text. rewrite Ht, truthy_Some by exact Hne.
  unfold receive_recipient_fio_db. rewrite Hadmin, Z.eqb_refl, Ht. cbn [negb].
  change (default [] (Some t)) with t.
  unfold state_get_data, message_reply, state_finish. coro_unfold. cbn [bind_step].
  eexists. split; [reflexivity|].
  intros r1 w1 [Hs1 Hf1]. cbn [bind_step].
  rewrite (fsm_get_data_session _ w0 w1 Hf1). unfold db_set_setting_call.
  destruct (faults 0%nat) as [d|] eqn:E0.
  - left. exists d. reflexivity.
  - rewrite (Hfaults eq_refl). right. coro_unfold. cbn [bind_step].
    eexists _, _. split; [reflexivity|]. split; [intros pair; exact I|].
    intros r2 w2. destruct r2 as [|d]; cbn.
    + split; [reflexivity|]. split; [exact I|]. intros r3 w3. cbn. reflexivity.
    + reflexivity.
Qed.

Lemma in_flight_race_ok (faults : nat -> option pystr) utcnow (m : message) (t : pystr)
    (others : list (pystr * update)) (w0 : world) :
  user_id (msg_from m) = ADMIN_ID ->
  msg_text m = Some t -> t <> [] ->
  fsm_get_state (msg_key m) w0 = Some waiting_recipient_fio ->
  (faults 0%nat = None -> faults 1%nat = None) ->
  Forall (fun u => no_admin_text u.2) others ->
  race_ok (msg_key m) (dict_get (fsm_get_data (msg_key m) w0) K_card_number) (strip t) w0
    (in_flight faults utcnow m others w0).
Proof.
  intros Hadmin Ht Hne Hst Hfaults Hoth. split; [apply Forall_nil_2|].
  left. eexists _, _. split; [reflexivity|]. split; [reflexivity|]. split.
  - apply Forall_fmap. eapply Forall_impl; [exact Hoth|].
    intros [now u] Hu. cbn in Hu |- *.
    destruct (decide (update_key u = msg_key m)) as [Hkey|Hkey].
    + right. exists now, u. auto.
    + left. intros r w. unfold spawn.
      eapply guarantees_weaken; [|apply (dispatch_only_session now u Hu)].
      intros a b [Hs Hf]. split; [exact Hs|]. apply Hf. congruence.
  - left. eapply receive_recipient_fio_not_started; eassumption.
Qed.

(** With no failing write, the dispatcher with the failure path is the
    dispatcher. *)
Lemma dispatch_db_no_fault utcnow (u : update) (w : world) :
  dispatch_db no_fault utcnow u w = dispatch utcnow u w.
Proof. reflexivity. Qed.

(** When the second write fails after the first has gone through, the step
    ends with the database error before anything is sent: the card number is
    written, the recipient name is not, and the conversation stays open. *)
Lemma second_write_failure_is_partial (faults : nat -> option pystr) (env : oracle) utcnow
    (m : message) (t d : pystr) (w : world) :
  user_id (msg_from m) = ADMIN_ID ->
  msg_text m = Some t -> t <> [] ->
  fsm_get_state (msg_key m) w = Some waiting_recipient_fio ->
  faults 0%nat = None -> faults 1%nat = Some d ->
  run env (dispatch_db faults utcnow (Message m)) w
  = ([], db_set_setting K_card_number (dict_get (fsm_get_data (msg_key m) w) K_card_number) w,
     Exc (OperationalError d)).
Proof.
  intros Hadmin Ht Hne Hst H0 H1. unfold run. cbn [dispatch_db]. rewrite Hst.
  unfold message_handlers_db.
  cbn [notify h_state h_filter h_body state_filter fsm_state_eqb].
  unfold content_text. rewrite Ht, truthy_Some by exact Hne.
  unfold receive_recipient_fio_db. rewrite Hadmin, Z.eqb_refl, Ht, H0, H1. cbn [negb].
  reflexivity.
Qed.

(** C7: let the administrator's recipient-name message be handled while the
    handlers of any number of other updates are in flight (any updates of
    anyone, the administrator's buttons included, but no further text message
    of the administrator), interleaved at the awaits in any order and with
    any answers from the platform, and let the second write not fail once the
    first has gone through.  In every configuration that can arise, the
    settings table is either exactly as it was or has both keys replaced (the
    identifier by the draft, the name by the trimmed text); and every
    product-detail render made so far shows either the old identifier with
    the old name or the new identifier with the new name. *)
Theorem C7_both_keys_or_neither (faults : nat -> option pystr) utcnow (m : message)
    (t : pystr) (others : list (pystr * update)) (w0 : world) (c : config) :
  user_id (msg_from m) = ADMIN_ID ->
  msg_text m = Some t -> t <> [] ->
  fsm_get_state (msg_key m) w0 = Some waiting_recipient_fio ->
  (faults 0%nat = None -> faults 1%nat = None) ->
  Forall (fun u => no_admin_text u.2) others ->
  rtc sched (in_flight faults utcnow m others w0) c ->
  let card := dict_get (fsm_get_data (msg_key m) w0) K_card_number in
  let fio := strip t in
  (settings (cfg_world c) = settings w0
   \/ settings (cfg_world c) = <[K_recipient_fio := fio]> (<[K_card_number := card]> (settings w0)))
  /\ (payment_details (cfg_world c) = payment_details w0
      \/ payment_details (cfg_world c) = (card, fio))
  /\ Forall (fun call => shows (payment_details w0) call \/ shows (card, fio) call)
       (cfg_trace c).
Proof.
  intros Hadmin Ht Hne Hst Hfaults Hoth Hsteps card fio.
  pose proof (race_ok_steps (msg_key m) card fio w0 _ _ Hadmin Hst Hsteps
                (in_flight_race_ok faults utcnow m t others w0
                   Hadmin Ht Hne Hst Hfaults Hoth)) as [Htr Hphase].
  assert (Hset : settings (cfg_world c) = settings w0 \/ after_write card fio w0 (cfg_world c)).
  { destruct Hphase as [(k & tasks & _ & [Hs _] & _)|[Hset _]]; [left; exact Hs|exact Hset]. }
  split; [exact Hset|]. split; [|exact Htr].
  destruct Hset as [Hs|Ha].
  - left. apply payment_details_same, Hs.
  - right. eapply payment_details_after, Ha.
Qed.

End Bot.

(** * The string model on samples *)

Example lit_decodes_utf8 : lit "Нет" = [1053; 1077; 1090]%N /\ lit "₽" = [8381%N].
Proof. split; reflexivity. Qed.

Example str_of_N_samples :
  str_of_N 4000 = lit "4000" /\ str_of_N 0 = lit "0" /\ str_of_N 999 = lit "999"
  /\ str_of_N 18446744073709551616 = lit "18446744073709551616"
  /\ str_of_Z (-42) = lit "-42".
Proof. repeat split. Qed.

Example strip_sample : strip (lit "  4000 1234 " ++ nl) = lit "4000 1234".
Proof. reflexivity. Qed.

Example split_sample :
  split_max 124 2 (lit "school|math_p|a|b") = [lit "school"; lit "math_p"; lit "a|b"].
Proof. reflexivity. Qed.

Example capitalize_sample : capitalize (lit "пифагор") = lit "Пифагор".
Proof. reflexivity. Qed.

Example command_filter_samples :
  on_command (lit "bot") (lit "start") (demo_message 5 "/START@Bot now") = Ok true
  /\ on_command (lit "bot") (lit "start") (demo_message 5 "/start@other") = Ok false
  /\ on_command (lit "bot") (lit "admin") (demo_message 5 "admin") = Ok false.
Proof. repeat split. Qed.

(** * The properties on the sample data *)

Lemma C1_non_admin_denied_witness :
  (run all_accepted (dispatch 1 (lit "bot") demo_now (Message (demo_message 101 "/admin")))
     demo_db).1
  = ([SendMessage 101 (lit "Доступ запрещён.") None None (Some 7)], demo_db)
  /\ (run all_accepted
        (dispatch 1 (lit "bot") demo_now (CallbackQuery (demo_press 101 "admin_set_card")))
        demo_db).1
     = ([AnswerCallbackQuery (lit "q1") (Some (lit "Нет доступа")) true], demo_db).
Proof.
  pose proof (C1_non_admin_denied 1 (lit "bot") demo_db all_accepted demo_now
                (reach_start 1 (lit "bot") demo_db eq_refl)) as (Hmsg & Hcb & _).
  split.
  - apply (Hmsg (demo_message 101 "/admin")); [discriminate|vm_compute; reflexivity].
  - apply (Hcb (demo_press 101 "admin_set_card")); [discriminate|right; reflexivity].
Defined.

Lemma C2_failure_counted_not_aborting_witness :
  (run (refuse_nth 3)
     (dispatch 1 (lit "bot") demo_now (CallbackQuery (demo_press 1 "broadcast_confirm")))
     demo_confirm_world).1.1 =
  AnswerCallbackQuery (lit "q1") (Some (lit "Запуск рассылки...")) false
    :: map (send_to (lit "Hello")) [103; 101; 105; 102; 104]
    ++ [send_to (report_text 4 1) 1].
Proof.
  apply (proj2 (C2_failure_counted_not_aborting 1 (lit "bot")) (refuse_nth 3) demo_now
           (demo_press 1 "broadcast_confirm") demo_confirm_world 103 101 105 102 104
           (lit "Forbidden: bot was blocked by the user"));
    vm_compute; reflexivity.
Defined.

Lemma C3_payment_details_persisted_and_shown_witness :
  let w := demo_in_state waiting_card_number ∅ in
  let w1 := (run all_accepted
               (dispatch 1 (lit "bot") demo_now (Message (demo_message 1 " 4000 1234 "))) w).1.2 in
  let w2 := (run all_accepted
               (dispatch 1 (lit "bot") demo_now (Message (demo_message 1 "Ivan Petrov "))) w1).1.2 in
  let w3 := (run_updates 1 (lit "bot") all_accepted
               [(demo_now, Message (demo_message 101 "/start"))] w2).2 in
  let text :=
    lit "*Товар:* Русский язык — пифагор" ++ nl
    ++ lit "*Цена:* 499₽" ++ nl ++ nl
    ++ lit "*Реквизиты для оплаты:*" ++ nl
    ++ lit "4000 1234" ++ nl
    ++ lit "Ivan Petrov" ++ nl ++ nl
    ++ lit "После оплаты пришлите, пожалуйста, чек менеджеру @qwuzinw." ++ nl
    ++ lit "Мы пришлем доступ в течение рабочего времени." in
  db_get_setting K_card_number w2 = lit "4000 1234"
  /\ db_get_setting K_recipient_fio w2 = lit "Ivan Petrov"
  /\ (run all_accepted
        (dispatch 1 (lit "bot") demo_now
           (CallbackQuery (demo_press 102 "school|rus|пифагор"))) w3).1.1
     = [AnswerCallbackQuery (lit "q1") None false;
        EditMessageText 102 8 text (Some (lit "Markdown")) (Some product_keyboard)]
  /\ contains (lit "4000 1234") text = true
  /\ contains (lit "Ivan Petrov") text = true.
Proof.
  intros w w1 w2 w3 text.
  destruct (C3_payment_details_persisted_and_shown 1 (lit "bot") all_accepted all_accepted
              demo_now demo_now (demo_message 1 " 4000 1234 ") (demo_message 1 "Ivan Petrov ")
              w (lit " 4000 1234 ") (lit "Ivan Petrov "))
    as (Hcard & Hfio & Hshown);
    [reflexivity|reflexivity|reflexivity|reflexivity|reflexivity|vm_compute; discriminate
    |reflexivity|vm_compute; discriminate|reflexivity|].
  split; [exact Hcard|]. split; [exact Hfio|].
  pose proof (Hshown all_accepted [(demo_now, Message (demo_message 101 "/start"))]
                ltac:(repeat constructor; discriminate) all_accepted demo_now
                (demo_press 102 "school|rus|пифагор") (lit "rus") (lit "пифагор")
                (lit "Русский язык") 499%N
                ltac:(vm_compute; reflexivity) ltac:(vm_compute; reflexivity)
                ltac:(vm_compute; reflexivity) ltac:(vm_compute; reflexivity))
    as (Htrace & _ & Hc & Hf).
  split; [|split].
  - vm_compute in Htrace |- *. exact Htrace.
  - vm_compute in Hc |- *. exact Hc.
  - vm_compute in Hf |- *. exact Hf.
Defined.

Lemma C4_broadcast_draft_truncated_witness :
  let w := demo_in_state waiting_broadcast_text ∅ in
  let long := repeat 97%N 4001 in
  let m := {| message_id := 7; msg_from := demo_user 1; msg_chat := 1;
              msg_text := Some long |} in
  let w' := (run all_accepted (dispatch 1 (lit "bot") demo_now (Message m)) w).1.2 in
  length (dict_get (fsm_get_data (1, 1) w') K_broadcast_text) = 4000%nat.
Proof.
  intros w long m w'.
  apply (C4_broadcast_draft_truncated 1 (lit "bot") all_accepted demo_now m w long);
    [reflexivity|reflexivity|reflexivity|discriminate|].
  unfold long. rewrite repeat_length. lia.
Defined.

Lemma C6_report_sent_and_failed_witness :
  last (run (refuse_nth 3)
          (dispatch 1 (lit "bot") demo_now (CallbackQuery (demo_press 1 "broadcast_confirm")))
          demo_confirm_world).1.1
  = Some (send_to (lit "Готово. Отправлено: 4. Не доставлено: 1.") 1).
Proof.
  apply (C6_report_sent_and_failed 1 (lit "bot") (refuse_nth 3) demo_now
           (demo_press 1 "broadcast_confirm") demo_confirm_world);
    vm_compute; reflexivity.
Defined.

(** C6 as stated fails: with five recipients, the third refused, the dispatch
    completes and its report is the text below, in which the total attempted,
    5, does not occur. *)
Lemma C6_counterexample :
  let trace := (run (refuse_nth 3)
                  (dispatch 1 (lit "bot") demo_now
                     (CallbackQuery (demo_press 1 "broadcast_confirm")))
                  demo_confirm_world).1.1 in
  length (db_get_all_user_ids demo_confirm_world) = 5%nat
  /\ last trace = Some (send_to (lit "Готово. Отправлено: 4. Не доставлено: 1.") 1)
  /\ contains (str_of_N 5) (lit "Готово. Отправлено: 4. Не доставлено: 1.") = false.
Proof. vm_compute. repeat split. Qed.

Lemma C8_fallback_unless_slash_witness :
  (run all_accepted (dispatch 1 (lit "bot") demo_now (Message (demo_message 101 "hello")))
     demo_db).1
  = ([SendMessage 101
        (lit "Команда не распознана. Нажмите /start чтобы вернуться в начало.")
        None None (Some 7)], demo_db).
Proof.
  apply (C8_fallback_unless_slash 1 (lit "bot") all_accepted demo_now
           (demo_message 101 "hello") demo_db); vm_compute; reflexivity.
Defined.

(** C8 as stated fails: an unknown command from a user with no conversation
    state matches neither command handler, and nothing at all is sent back. *)
Lemma C8_counterexample :
  let m := demo_message 101 "/foo" in
  fsm_get_state (msg_key m) demo_db = None
  /\ on_command (lit "bot") (lit "start") m = Ok false
  /\ on_command (lit "bot") (lit "admin") m = Ok false
  /\ run all_accepted (dispatch 1 (lit "bot") demo_now (Message m)) demo_db
     = ([], demo_db, Ok tt).
Proof. vm_compute. repeat split. Qed.

Lemma C9_any_text_is_consumed_witness :
  let w := demo_in_state waiting_broadcast_text ∅ in
  let m := demo_message 1 "/start" in
  let w' := (run all_accepted (dispatch 1 (lit "bot") demo_now (Message m)) w).1.2 in
  dispatch 1 (lit "bot") demo_now (Message m) w = receive_broadcast_text 1 m w
  /\ dict_get (fsm_get_data (1, 1) w') K_broadcast_text = lit "/start".
Proof.
  intros w m w'.
  apply (C9_any_text_is_consumed 1 (lit "bot") all_accepted demo_now m w (lit "/start"));
    [reflexivity|reflexivity|vm_compute; discriminate|reflexivity].
Defined.

(** C9 as stated fails: while the payment identifier is awaited, the
    administrator's [/start] is not handled as the start command (nobody is
    registered, no welcome is sent) but stored as the identifier, and the
    flow moves on to the recipient name. *)
Lemma C9_counterexample :
  let w := demo_in_state waiting_card_number ∅ in
  let m := demo_message 1 "/start" in
  let out := run all_accepted (dispatch 1 (lit "bot") demo_now (Message m)) w in
  startswith (lit "/") (lit "/start") = true
  /\ out.1.1 = [SendMessage 1 (lit "Теперь укажите ФИО получателя:") None None (Some 7)]
  /\ dict_get (fsm_get_data (1, 1) out.1.2) K_card_number = lit "/start"
  /\ fsm_get_state (1, 1) out.1.2 = Some waiting_recipient_fio
  /\ users out.1.2 = users w.
Proof. vm_compute. repeat split. Qed.

Lemma C10_each_registered_user_once_witness :
  exists sent failed : N,
    (run (refuse_nth 3)
       (dispatch 1 (lit "bot") demo_now (CallbackQuery (demo_press 1 "broadcast_confirm")))
       demo_confirm_world).1.1 =
    AnswerCallbackQuery (lit "q1") (Some (lit "Запуск рассылки...")) false
      :: map (send_to (dict_get (fsm_get_data (1, 1) demo_confirm_world) K_broadcast_text))
           (db_get_all_user_ids demo_confirm_world)
      ++ [send_to (report_text sent failed) 1]
    /\ (sent + failed)%N = N.of_nat (length (db_get_all_user_ids demo_confirm_world))
    /\ NoDup (db_get_all_user_ids demo_confirm_world)
    /\ NoDup (map (send_to (dict_get (fsm_get_data (1, 1) demo_confirm_world)
                              K_broadcast_text))
                (db_get_all_user_ids demo_confirm_world))
    /\ (forall uid, uid ∈ db_get_all_user_ids demo_confirm_world
                    <-> is_Some (users demo_confirm_world !! uid)).
Proof.
  apply (C10_each_registered_user_once 1 (lit "bot") (refuse_nth 3) demo_now
           (demo_press 1 "broadcast_confirm") demo_confirm_world);
    vm_compute; reflexivity.
Defined.

Lemma C7_both_keys_or_neither_witness :
  let w0 := demo_in_state waiting_recipient_fio {[ K_card_number := lit "4000 1234" ]} in
  from_option
    (fun c =>
       (settings (cfg_world c) = settings w0
        \/ settings (cfg_world c)
           = <[K_recipient_fio := lit "Ivan Petrov"]>
               (<[K_card_number := lit "4000 1234"]> (settings w0)))
       /\ cfg_trace c
          = [SendMessage 1
               (lit "Реквизиты обновлены:" ++ nl ++ lit "4000 1234" ++ nl ++ lit "Ivan Petrov")
               None None (Some 7);
             AnswerCallbackQuery (lit "q1") None false;
             EditMessageText 102 8
               (lit "*Товар:* Русский язык — пифагор" ++ nl
                ++ lit "*Цена:* 499₽" ++ nl ++ nl
                ++ lit "*Реквизиты для оплаты:*" ++ nl
                ++ lit "4000 1234" ++ nl
                ++ lit "Ivan Petrov" ++ nl ++ nl
                ++ lit "После оплаты пришлите, пожалуйста, чек менеджеру @qwuzinw." ++ nl
                ++ lit "Мы пришлем доступ в течение рабочего времени.")
               (Some (lit "Markdown")) (Some product_keyboard)])
    False
    (((((resume 0 Accepted
           (in_flight 1 (lit "bot") no_fault demo_now (demo_message 1 " Ivan Petrov")
              [(demo_now, CallbackQuery (demo_press 102 "school|rus|пифагор"));
               (demo_now, CallbackQuery (demo_press 1 "school|rus|пифагор"))] w0)
         ≫= resume 2 Accepted) ≫= resume 0 Accepted) ≫= resume 1 Accepted)
      ≫= resume 1 Accepted)).
Proof.
  intros w0.
  set (others := [(demo_now, CallbackQuery (demo_press 102 "school|rus|пифагор"));
                  (demo_now, CallbackQuery (demo_press 1 "school|rus|пифагор"))]).
  set (c0 := in_flight 1 (lit "bot") no_fault demo_now (demo_message 1 " Ivan Petrov")
               others w0).
  match goal with
  | |- from_option (fun c => _ /\ cfg_trace c = ?tr) False ?chain =>
    assert (Htrace : from_option (fun c => cfg_trace c = tr) False chain)
      by (vm_compute; reflexivity)
  end.
  destruct (resume 0 Accepted c0) as [c1|] eqn:E1; [|destruct Htrace].
  cbn [mbind option_bind] in *.
  destruct (resume 2 Accepted c1) as [c2|] eqn:E2; [|destruct Htrace].
  cbn [mbind option_bind] in *.
  destruct (resume 0 Accepted c2) as [c3|] eqn:E3; [|destruct Htrace].
  cbn [mbind option_bind] in *.
  destruct (resume 1 Accepted c3) as [c4|] eqn:E4; [|destruct Htrace].
  cbn [mbind option_bind] in *.
  destruct (resume 1 Accepted c4) as [c5|] eqn:E5; [|destruct Htrace].
  cbn [from_option] in *.
  assert (Hsteps : rtc sched c0 c5).
  { eapply rtc_l; [exact (sched_resume 0 Accepted c0 c1 E1)|].
    eapply rtc_l; [exact (sched_resume 2 Accepted c1 c2 E2)|].
    eapply rtc_l; [exact (sched_resume 0 Accepted c2 c3 E3)|].
    eapply rtc_l; [exact (sched_resume 1 Accepted c3 c4 E4)|].
    eapply rtc_l; [exact (sched_resume 1 Accepted c4 c5 E5)|]. apply rtc_refl. }
  destruct (C7_both_keys_or_neither 1 (lit "bot") no_fault demo_now
              (demo_message 1 " Ivan Petrov") (lit " Ivan Petrov") others w0 c5)
    as (Hsettings & _ & _);
    [reflexivity|reflexivity|vm_compute; discriminate|vm_compute; reflexivity
    |reflexivity
    |repeat (apply Forall_cons_2; [exact I|]); apply Forall_nil_2
    |exact Hsteps|].
  split; [exact Hsettings|exact Htrace].
Defined.

(** The second write fails after the first has gone through: the step ends
    with the database error, the table holds the new card number with the old
    recipient name, and the next product-detail render shows that pair. *)
Lemma C7_counterexample :
  let w0 := demo_in_state waiting_recipient_fio {[ K_card_number := lit "4000 1234" ]} in
  from_option
    (fun c =>
       payment_details w0 = (lit "0000 0000 0000 0000", lit "Ф.И.О. Получателя")
       /\ payment_details (cfg_world c) = (lit "4000 1234", lit "Ф.И.О. Получателя")
       /\ payment_details (cfg_world c) <> payment_details w0
       /\ payment_details (cfg_world c) <> (lit "4000 1234", lit "Ivan Petrov")
       /\ cfg_trace c
          = [AnswerCallbackQuery (lit "q1") None false;
             EditMessageText 102 8
               (lit "*Товар:* Русский язык — пифагор" ++ nl
                ++ lit "*Цена:* 499₽" ++ nl ++ nl
                ++ lit "*Реквизиты для оплаты:*" ++ nl
                ++ lit "4000 1234" ++ nl
                ++ lit "Ф.И.О. Получателя" ++ nl ++ nl
                ++ lit "После оплаты пришлите, пожалуйста, чек менеджеру @qwuzinw." ++ nl
                ++ lit "Мы пришлем доступ в течение рабочего времени.")
               (Some (lit "Markdown")) (Some product_keyboard)])
    False
    (((resume 0 Accepted
         (in_flight 1 (lit "bot") second_write_fails demo_now (demo_message 1 " Ivan Petrov")
            [(demo_now, CallbackQuery (demo_press 102 "school|rus|пифагор"))] w0)
       ≫= resume 0 Accepted) ≫= resume 1 Accepted) ≫= resume 1 Accepted).
Proof. vm_compute. repeat split; discriminate. Qed.

(** * Round-trip navigation *)

(** C5 at a concrete round trip: after /start, buy, subject, program, back,
    back, the message is again headed by the start keyboard, but its text is
    the shortened welcome of [back_start], not the welcome text that /start
    sent. *)
Theorem C5_round_trip_welcome_differs :
  let renders :=
    (run_updates 1 (lit "bot") all_accepted
       [(demo_now, Message (demo_message 101 "/start"));
        (demo_now, CallbackQuery (demo_press 101 "buy"));
        (demo_now, CallbackQuery (demo_press 101 "subj|math_p"));
        (demo_now, CallbackQuery (demo_press 101 "school|math_p|стобальный"));
        (demo_now, CallbackQuery (demo_press 101 "back_subjects"));
        (demo_now, CallbackQuery (demo_press 101 "back_start"))]
       demo_db).1 in
  head renders
  = Some [SendMessage 101 welcome_text (Some (lit "Markdown")) (Some make_start_keyboard) None]
  /\ last renders
     = Some [AnswerCallbackQuery (lit "q1") None false;
             EditMessageText 101 8 back_start_text (Some (lit "Markdown"))
               (Some make_start_keyboard)]
  /\ back_start_text <> welcome_text
  /\ length welcome_text = 416%nat /\ length back_start_text = 152%nat
  /\ firstn 149 back_start_text = firstn 149 welcome_text.
Proof. vm_compute. repeat split. discriminate. Qed.

(** * Further properties on the sample data *)

Lemma X4_start_registers_then_welcomes_witness :
  (run all_accepted (dispatch 1 (lit "bot") demo_now (Message (demo_message 106 "/start")))
     demo_db).1
  = ([SendMessage 106 welcome_text (Some (lit "Markdown")) (Some make_start_keyboard) None],
     db_add_user (demo_user 106) demo_now demo_db).
Proof.
  apply (X4_start_registers_then_welcomes 1 (lit "bot") all_accepted demo_now
           (demo_message 106 "/start") demo_db); vm_compute; reflexivity.
Defined.

Lemma X6_others_change_no_setting_no_session_witness :
  let us := [(demo_now, Message (demo_message 101 "/start"));
             (demo_now, CallbackQuery (demo_press 102 "admin_set_card"));
             (demo_now, Message (demo_message 103 "/admin"))] in
  settings (run_updates 1 (lit "bot") all_accepted us demo_db).2 = settings demo_db
  /\ fsm (run_updates 1 (lit "bot") all_accepted us demo_db).2 = fsm demo_db.
Proof.
  intros us.
  apply (proj1 (X6_others_change_no_setting_no_session 1 (lit "bot") us demo_db
                  ltac:(repeat (apply Forall_cons_2; [cbn; lia|]); apply Forall_nil_2))).
Defined.

Lemma X7_settings_change_only_on_recipient_name_witness :
  completes_payment_details 1 (Message (demo_message 1 "Ivan Petrov"))
    (demo_in_state waiting_recipient_fio {[ K_card_number := lit "4000 1234" ]}).
Proof.
  apply (X7_settings_change_only_on_recipient_name 1 (lit "bot") all_accepted demo_now).
  intros H. apply (f_equal (fun t => t !! K_recipient_fio)) in H.
  vm_compute in H. discriminate H.
Defined.

Lemma X8_non_admin_idle_under_interleaving_witness :
  from_option (fun c => non_admin_idle 1 (cfg_world c)) False
    (resume 0 Accepted
       (pool 1 (lit "bot")
          [(demo_now, CallbackQuery (demo_press 1 "admin_set_card"));
           (demo_now, Message (demo_message 101 "/start"))] demo_db)
     ≫= resume 1 Accepted).
Proof.
  set (us := [(demo_now, CallbackQuery (demo_press 1 "admin_set_card"));
              (demo_now, Message (demo_message 101 "/start"))]).
  set (c0 := pool 1 (lit "bot") us demo_db).
  destruct (resume 0 Accepted c0) as [c1|] eqn:E1; [|vm_compute in E1; discriminate E1].
  cbn [mbind option_bind].
  destruct (resume 1 Accepted c1) as [c2|] eqn:E2;
    [|apply (f_equal (mbind (resume 1 Accepted))) in E1; cbn [mbind option_bind] in E1;
      rewrite E2 in E1; vm_compute in E1; discriminate E1].
  cbn [from_option].
  apply (X8_non_admin_idle_under_interleaving 1 (lit "bot") us demo_db c2).
  - intros chat uid _. reflexivity.
  - eapply rtc_l; [exact (sched_resume 0 Accepted c0 c1 E1)|].
    eapply rtc_l; [exact (sched_resume 1 Accepted c1 c2 E2)|]. apply rtc_refl.
Defined.

Lemma X9_cancel_discards_draft_witness :
  let out := run all_accepted
               (dispatch 1 (lit "bot") demo_now (CallbackQuery (demo_press 1 "broadcast_cancel")))
               demo_confirm_world in
  out.1.2 = fsm_finish (1, 1) demo_confirm_world
  /\ fsm_get_state (1, 1) out.1.2 = None
  /\ fsm_get_data (1, 1) out.1.2 = ∅
  /\ out.1.1 = [AnswerCallbackQuery (lit "q1") (Some (lit "Рассылка отменена")) false;
                send_to (lit "Отменено.") 1].
Proof.
  pose proof (X9_cancel_discards_draft 1 (lit "bot") all_accepted demo_now
                (demo_press 1 "broadcast_cancel") demo_confirm_world
                eq_refl ltac:(vm_compute; reflexivity) eq_refl) as H.
  vm_compute in H |- *. exact H.
Defined.

Lemma X11_purchase_states_never_entered_witness :
  no_purchase_state
    (run_updates 1 (lit "bot") all_accepted
       [(demo_now, CallbackQuery (demo_press 101 "buy"));
        (demo_now, CallbackQuery (demo_press 101 "subj|rus"));
        (demo_now, CallbackQuery (demo_press 1 "admin_broadcast"))] demo_db).2.
Proof.
  apply (proj1 (X11_purchase_states_never_entered 1 (lit "bot") _ demo_db
                  ltac:(intros key; split; discriminate))).
Defined.

Lemma X12_unknown_payload_raises_witness :
  run all_accepted (dispatch 1 (lit "bot") demo_now (CallbackQuery (demo_press 101 "subj|geo")))
    demo_db
  = ([AnswerCallbackQuery (lit "q1") None false], demo_db, Exc (KeyError (lit "geo")))
  /\ run all_accepted
       (dispatch 1 (lit "bot") demo_now (CallbackQuery (demo_press 101 "school|rus")))
       demo_db
     = ([AnswerCallbackQuery (lit "q1") None false], demo_db, Exc ValueError).
Proof.
  split.
  - pose proof (proj1 (X12_unknown_payload_raises 1 (lit "bot") all_accepted demo_now
                         (demo_press 101 "subj|geo") demo_db (lit "geo")
                         ltac:(vm_compute; reflexivity) eq_refl)
                  ltac:(vm_compute; reflexivity) ltac:(vm_compute; reflexivity)) as H.
    vm_compute in H |- *. exact H.
  - pose proof (proj1 (proj2 (X12_unknown_payload_raises 1 (lit "bot") all_accepted demo_now
                                (demo_press 101 "school|rus") demo_db (lit "rus")
                                ltac:(vm_compute; reflexivity) eq_refl))
                  ltac:(vm_compute; reflexivity) ltac:(compute_done)) as H.
    vm_compute in H |- *. exact H.
Defined.

Lemma X13_catalogue_buttons_resolve_witness :
  InlineKeyboardButton (lit "Пифагор") (lit "school|rus|пифагор")
    ∈ buttons (make_schools_keyboard (lit "rus"))
  /\ (run all_accepted
        (dispatch 1 (lit "bot") demo_now
           (CallbackQuery (demo_press 102 "school|rus|пифагор"))) demo_db).1
     = ([AnswerCallbackQuery (lit "q1") None false;
         EditMessageText 102 8
           (product_text (lit "Русский язык") (lit "пифагор") 499
              (lit "0000 0000 0000 0000") (lit "Ф.И.О. Получателя"))
           (Some (lit "Markdown")) (Some product_keyboard)], demo_db).
Proof.
  destruct (proj2 (proj2 (X13_catalogue_buttons_resolve 1 (lit "bot") all_accepted demo_now
                            (demo_press 102 "school|rus|пифагор") demo_db
                            (lit "rus") (lit "Русский язык") 499
                            ltac:(compute_done) ltac:(vm_compute; reflexivity) eq_refl))
              (lit "пифагор") ltac:(compute_done)) as [Hbutton Hpress].
  split; [exact Hbutton|].
  specialize (Hpress ltac:(vm_compute; reflexivity)).
  vm_compute in Hpress |- *. exact Hpress.
Defined.

Lemma X14_broadcast_touches_only_the_log_witness :
  let w' := (run (refuse_nth 3)
               (dispatch 1 (lit "bot") demo_now
                  (CallbackQuery (demo_press 1 "broadcast_confirm")))
               demo_confirm_world).1.2 in
  settings w' = settings demo_confirm_world
  /\ users w' = users demo_confirm_world
  /\ exists lines, logged w' = logged demo_confirm_world ++ lines /\ length lines = 1%nat.
Proof.
  intros w'.
  destruct (X14_broadcast_touches_only_the_log 1 (lit "bot") (refuse_nth 3) demo_now
              (demo_press 1 "broadcast_confirm") demo_confirm_world
              eq_refl ltac:(vm_compute; reflexivity) eq_refl eq_refl)
    as (Hs & Hu & _ & lines & Hlog & Hcount & _).
  split; [exact Hs|]. split; [exact Hu|]. exists lines. split; [exact Hlog|].
  apply Nat2N.inj. rewrite Hcount. vm_compute. reflexivity.
Defined.

Lemma X15_refused_report_leaves_broadcast_armed_witness :
  let out := run (refuse_nth 6)
               (dispatch 1 (lit "bot") demo_now
                  (CallbackQuery (demo_press 1 "broadcast_confirm")))
               demo_confirm_world in
  out.2 = Exc (ApiError (lit "Forbidden: bot was blocked by the user"))
  /\ fsm_get_state (1, 1) out.1.2 = Some waiting_broadcast_confirm
  /\ (run all_accepted
        (dispatch 1 (lit "bot") demo_now (CallbackQuery (demo_press 1 "broadcast_confirm")))
        out.1.2).1.1
     = AnswerCallbackQuery (lit "q1") (Some (lit "Запуск рассылки...")) false
         :: map (send_to (lit "Hello")) [103; 101; 105; 102; 104]
         ++ [send_to (report_text 5 0) 1].
Proof.
  intros out.
  destruct (X15_refused_report_leaves_broadcast_armed 1 (lit "bot") (refuse_nth 6)
              all_accepted demo_now demo_now (demo_press 1 "broadcast_confirm")
              demo_confirm_world (lit "Forbidden: bot was blocked by the user")
              eq_refl ltac:(vm_compute; reflexivity) eq_refl eq_refl
              ltac:(vm_compute; reflexivity) eq_refl)
    as (Hres & Hst & _ & report' & Htrace).
  split; [exact Hres|]. split; [exact Hst|]. vm_compute. reflexivity.
Defined.

Lemma X16_broadcast_conversation_witness :
  let w1 := (run all_accepted
               (dispatch 1 (lit "bot") demo_now (CallbackQuery (demo_press 1 "admin_broadcast")))
               demo_db).1.2 in
  let w2 := (run all_accepted
               (dispatch 1 (lit "bot") demo_now (Message (demo_message 1 "Hello"))) w1).1.2 in
  let out := run all_accepted
               (dispatch 1 (lit "bot") demo_now
                  (CallbackQuery (demo_press 1 "broadcast_confirm"))) w2 in
  out.1.1 = AnswerCallbackQuery (lit "q1") (Some (lit "Запуск рассылки...")) false
              :: map (send_to (lit "Hello")) [103; 101; 105; 102; 104]
              ++ [send_to (report_text 5 0) 1]
  /\ out.2 = Ok tt
  /\ fsm_get_state (1, 1) out.1.2 = None
  /\ fsm_get_data (1, 1) out.1.2 = ∅
  /\ settings out.1.2 = settings demo_db
  /\ users out.1.2 = users demo_db.
Proof.
  pose proof (X16_broadcast_conversation 1 (lit "bot") all_accepted all_accepted
                all_accepted demo_now demo_now demo_now
                (demo_press 1 "admin_broadcast") (demo_press 1 "broadcast_confirm")
                (demo_message 1 "Hello") demo_db (lit "Hello")
                eq_refl eq_refl eq_refl eq_refl eq_refl
                ltac:(vm_compute; reflexivity) eq_refl eq_refl
                ltac:(vm_compute; discriminate) eq_refl
                eq_refl eq_refl eq_refl eq_refl eq_refl) as H.
  vm_compute in H |- *. exact H.
Defined.

Lemma X17_admin_buttons_resolve_witness :
  (exists st, awaits_text st
     /\ fsm_get_state (1, 1)
          (run all_accepted
             (dispatch 1 (lit "bot") demo_now (CallbackQuery (demo_press 1 "admin_set_card")))
             demo_db).1.2
        = Some st)
  /\ dispatch 1 (lit "bot") demo_now (CallbackQuery (demo_press 1 "broadcast_cancel"))
       demo_confirm_world
     = broadcast_confirm_or_cancel 1 (demo_press 1 "broadcast_cancel") demo_confirm_world.
Proof.
  split.
  - destruct (proj1 (X17_admin_buttons_resolve 1 (lit "bot") all_accepted demo_now
                       (demo_press 1 "admin_set_card") demo_db
                       (InlineKeyboardButton (lit "💳 Указать номер карты")
                          (lit "admin_set_card")) eq_refl eq_refl)
                ltac:(apply list_elem_of_further, list_elem_of_here)
                ltac:(vm_compute; reflexivity) eq_refl ltac:(reflexivity))
      as (_ & st & Hst & _ & Hs).
    exists st. split; [exact Hst|exact Hs].
  - apply (proj2 (X17_admin_buttons_resolve 1 (lit "bot") all_accepted demo_now
                    (demo_press 1 "broadcast_cancel") demo_confirm_world
                    (InlineKeyboardButton (lit "❌ Отмена") (lit "broadcast_cancel"))
                    eq_refl eq_refl));
      [apply list_elem_of_further, list_elem_of_here|vm_compute; reflexivity].
Defined.

Lemma X18_details_written_before_confirmation_witness :
  let w := demo_in_state waiting_recipient_fio {[ K_card_number := lit "4000 1234" ]} in
  let out := run (refuse_nth 0)
               (dispatch 1 (lit "bot") demo_now (Message (demo_message 1 " Ivan Petrov"))) w in
  out.2 = Exc (ApiError (lit "Forbidden: bot was blocked by the user"))
  /\ db_get_setting K_card_number out.1.2 = lit "4000 1234"
  /\ db_get_setting K_recipient_fio out.1.2 = lit "Ivan Petrov"
  /\ fsm_get_state (1, 1) out.1.2 = Some waiting_recipient_fio
  /\ fsm_get_data (1, 1) out.1.2 = fsm_get_data (1, 1) w.
Proof.
  intros w.
  pose proof (X18_details_written_before_confirmation 1 (lit "bot") (refuse_nth 0) demo_now
                (demo_message 1 " Ivan Petrov") w (lit " Ivan Petrov")
                (lit "Forbidden: bot was blocked by the user")
                eq_refl ltac:(vm_compute; reflexivity) eq_refl
                ltac:(vm_compute; discriminate) ltac:(vm_compute; reflexivity)) as H.
  vm_compute in H |- *. exact H.
Defined.

Lemma X19_browsing_is_stateless_witness :
  (run all_accepted
     (dispatch 1 (lit "bot") demo_now (CallbackQuery (demo_press 101 "school|rus|пифагор")))
     demo_db).1.2 = demo_db.
Proof.
  apply (X19_browsing_is_stateless 1 (lit "bot") all_accepted demo_now
           (demo_press 101 "school|rus|пифагор") demo_db).
  - vm_compute. reflexivity.
  - intros [H _]. vm_compute in H. discriminate H.
Defined.

Lemma X20_text_handlers_never_deny_witness :
  Forall (fun c => ~ is_text_denial c)
    (run all_accepted (dispatch 1 (lit "bot") demo_now (Message (demo_message 101 "hello")))
       demo_db).1.1.
Proof.
  apply (X20_text_handlers_never_deny 1 (lit "bot") all_accepted demo_now
           (Message (demo_message 101 "hello")) demo_db).
  apply reach_start. reflexivity.
Defined.

Lemma X21_idle_message_changes_own_row_only_witness :
  (run all_accepted (dispatch 1 (lit "bot") demo_now (Message (demo_message 101 "hello")))
     demo_db).1.2 = demo_db.
Proof.
  apply (proj2 (X21_idle_message_changes_own_row_only 1 (lit "bot") all_accepted demo_now
                  (demo_message 101 "hello") demo_db ltac:(vm_compute; reflexivity))).
  vm_compute. discriminate.
Defined.

Lemma X22_concurrent_start_registers_witness :
  from_option (fun c => is_Some (users (cfg_world c) !! 106)) False
    ((resume 1 Accepted
        (pool 1 (lit "bot")
           [(demo_now, CallbackQuery (demo_press 102 "buy"));
            (demo_now, Message (demo_message 106 "/start"))] demo_db)
      ≫= resume 0 Accepted) ≫= resume 1 Accepted).
Proof.
  set (us := [(demo_now, CallbackQuery (demo_press 102 "buy"));
              (demo_now, Message (demo_message 106 "/start"))]).
  set (c0 := pool 1 (lit "bot") us demo_db).
  assert (Hdone : from_option (fun c => cfg_tasks c !! 1%nat = Some None) False
                    ((resume 1 Accepted c0 ≫= resume 0 Accepted) ≫= resume 1 Accepted))
    by (vm_compute; reflexivity).
  destruct (resume 1 Accepted c0) as [c1|] eqn:E1; [|destruct Hdone].
  cbn [mbind option_bind] in *.
  destruct (resume 0 Accepted c1) as [c2|] eqn:E2; [|destruct Hdone].
  cbn [mbind option_bind] in *.
  destruct (resume 1 Accepted c2) as [c3|] eqn:E3; [|destruct Hdone].
  cbn [from_option] in *.
  apply (X22_concurrent_start_registers 1 (lit "bot") us demo_db 1 demo_now
           (demo_message 106 "/start") c3).
  - intros chat uid _. reflexivity.
  - reflexivity.
  - discriminate.
  - vm_compute. reflexivity.
  - eapply rtc_l; [exact (sched_resume 1 Accepted c0 c1 E1)|].
    eapply rtc_l; [exact (sched_resume 0 Accepted c1 c2 E2)|].
    eapply rtc_l; [exact (sched_resume 1 Accepted c2 c3 E3)|]. apply rtc_refl.
  - exact Hdone.
Defined.

Lemma X23_others_are_only_answered_witness :
  Forall (answers (CallbackQuery (demo_press 101 "admin_broadcast")))
    (run all_accepted
       (dispatch 1 (lit "bot") demo_now (CallbackQuery (demo_press 101 "admin_broadcast")))
       demo_confirm_world).1.1.
Proof.
  apply (X23_others_are_only_answered 1 (lit "bot") all_accepted demo_now
           (CallbackQuery (demo_press 101 "admin_broadcast")) demo_confirm_world).
  cbn. lia.
Defined.
